(** * gpx2garmin: the GPX run generator and the Garmin uploader

    A shallow embedding of [generate_run_gpx.py] and [garmin_uploader.py].

    - Python exceptions and side effects are threaded through a state and
      error monad [M] over a [world] (random source, clock, file system,
      process environment, remote service, and the trace of observable
      events in the order they happen).
    - Python floats are an interface [PyFloat] with two instances: IEEE
      binary64 (the kernel's primitive floats, with libm's [cos] and [sin]
      as parameters) and exact real arithmetic, in which the range
      statements of the specification are proved.
    - [datetime] values are microsecond counts since 0001-01-01T00:00:00,
      [timedelta] values are microsecond counts. *)

From Stdlib Require Import ZArith Floats Reals Lra Lia String Ascii List Bool.
From stdpp Require Import base strings list gmap pretty.

Set Warnings "-inexact-float,-register-all".
Local Open Scope Z_scope.

(** ** Exceptions, outcomes and the world *)

Inductive exn :=
| ZeroDivisionError
| ValueError
| OverflowError
| FileExistsError
| IsADirectoryError
| SystemExit (code : Z).

Inductive outcome (A : Type) :=
| Ok (a : A)
| Raise (e : exn).
Arguments Ok {A} a.
Arguments Raise {A} e.

Inductive fnode := Dir | File (content : string).

Inductive event :=
| Stdout (line : string)
| Stderr (line : string)
| Makedirs (path : string)
| WriteFile (path content : string)
| NetLogin (username password : string)
| NetUpload (path : string).

Record world := World {
  rng : nat → Z;                 (* raw draws of the [random] module *)
  rng_pos : nat;                 (* how many draws were consumed *)
  now : Z;                       (* what [datetime.utcnow()] reads *)
  fs : gmap string fnode;
  environ : gmap string string;  (* [os.environ] *)
  dotenv : list (string * string);            (* the entries of the .env file *)
  garmin_login : string → string → option string;   (* [Some msg]: login raises *)
  garmin_upload : string → option string;           (* [Some msg]: upload raises *)
  trace : list event
}.

Definition M (A : Type) : Type := world → outcome A * world.

#[export] Instance M_ret : MRet M := λ A a w, (Ok a, w).
#[export] Instance M_bind : MBind M := λ A B f m w,
  match m w with
  | (Ok a, w') => f a w'
  | (Raise e, w') => (Raise e, w')
  end.

Definition raise {A} (e : exn) : M A := λ w, (Raise e, w).

(** A computation that touches nothing of the world. *)
Definition lift {A} (o : outcome A) : M A := λ w, (o, w).

Definition emit (e : event) : M unit := λ w,
  (Ok tt, World (rng w) (rng_pos w) (now w) (fs w) (environ w) (dotenv w)
             (garmin_login w) (garmin_upload w) (trace w ++ [e])).

Definition set_fs (f : gmap string fnode) : M unit := λ w,
  (Ok tt, World (rng w) (rng_pos w) (now w) f (environ w) (dotenv w)
             (garmin_login w) (garmin_upload w) (trace w)).

Definition set_environ (e : gmap string string) : M unit := λ w,
  (Ok tt, World (rng w) (rng_pos w) (now w) (fs w) e (dotenv w)
             (garmin_login w) (garmin_upload w) (trace w)).

Definition get_world : M world := λ w, (Ok w, w).

(** One raw draw of the generator. *)
Definition next_raw : M Z := λ w,
  (Ok (rng w (rng_pos w)),
   World (rng w) (S (rng_pos w)) (now w) (fs w) (environ w) (dotenv w)
         (garmin_login w) (garmin_upload w) (trace w)).

(** [datetime.utcnow()] *)
Definition utcnow : M Z := λ w, (Ok (now w), w).

(** ** Text *)

(** The double quote character; string literals in this file hold none. *)
Definition dq : string := String (ascii_of_nat 34) EmptyString.

(** [str(n)] for an int *)
Definition str_int (n : Z) : string := pretty n.

(** The last [p] decimal digits of [n], most significant first: [%0pd]
    for [0 ≤ n < 10^p]. *)
Definition digit (d : Z) : string :=
  String (ascii_of_nat (48 + Z.to_nat d)) EmptyString.

Fixpoint fixed_digits (p : nat) (n : Z) : string :=
  match p with
  | O => EmptyString
  | S p' => fixed_digits p' (n / 10) +:+ digit (n mod 10)
  end.

Definition is_digit (c : ascii) : bool :=
  let n := nat_of_ascii c in (48 <=? n)%nat && (n <=? 57)%nat.

Fixpoint all_digits (s : string) : bool :=
  match s with
  | EmptyString => true
  | String c s' => is_digit c && all_digits s'
  end.

(** [s[n:]] *)
Fixpoint string_drop (n : nat) (s : string) : string :=
  match n, s with
  | O, _ => s
  | S n', String _ s' => string_drop n' s'
  | S _, EmptyString => EmptyString
  end.

(** [needle in s] *)
Fixpoint contains (needle s : string) : bool :=
  String.prefix needle s ||
  match s with
  | EmptyString => false
  | String _ s' => contains needle s'
  end.

(** ** Calendar: [datetime.py]'s [_ord2ymd] and [strftime] *)

Definition DI400Y : Z := 146097.
Definition DI100Y : Z := 36524.
Definition DI4Y : Z := 1461.
Definition DAYS_IN_MONTH : list Z :=
  [-1; 31; 28; 31; 30; 31; 30; 31; 31; 30; 31; 30; 31].
Definition DAYS_BEFORE_MONTH : list Z :=
  [-1; 0; 31; 59; 90; 120; 151; 181; 212; 243; 273; 304; 334].

Definition table (l : list Z) (i : Z) : Z := nth (Z.to_nat i) l 0.

(** ordinal -> (year, month, day), considering 01-Jan-0001 as day 1 *)
Definition ord2ymd (n : Z) : Z * Z * Z :=
  let n := n - 1 in
  let n400 := n / DI400Y in
  let n := n mod DI400Y in
  let year := n400 * 400 + 1 in
  let n100 := n / DI100Y in
  let n := n mod DI100Y in
  let n4 := n / DI4Y in
  let n := n mod DI4Y in
  let n1 := n / 365 in
  let n := n mod 365 in
  let year := year + (n100 * 100 + n4 * 4 + n1) in
  if (n1 =? 4) || (n100 =? 4) then (year - 1, 12, 31)
  else
    let leapyear := (n1 =? 3) && (negb (n4 =? 24) || (n100 =? 3)) in
    let month := Z.shiftr (n + 50) 5 in
    let preceding :=
      table DAYS_BEFORE_MONTH month + (if (2 <? month) && leapyear then 1 else 0) in
    if n <? preceding then
      let month := month - 1 in
      let preceding :=
        preceding
        - (table DAYS_IN_MONTH month + (if (month =? 2) && leapyear then 1 else 0)) in
      (year, month, n - preceding + 1)
    else (year, month, n - preceding + 1).

Definition us_per_day : Z := 86400000000.

Definition dt_year (t : Z) : Z := (ord2ymd (t / us_per_day + 1)).1.1.
Definition dt_month (t : Z) : Z := (ord2ymd (t / us_per_day + 1)).1.2.
Definition dt_day (t : Z) : Z := (ord2ymd (t / us_per_day + 1)).2.
Definition dt_hour (t : Z) : Z := t mod us_per_day / 3600000000.
Definition dt_minute (t : Z) : Z := t mod 3600000000 / 60000000.
Definition dt_second (t : Z) : Z := t mod 60000000 / 1000000.

(** One [%] directive; the source uses [%Y %m %d %H %M %S] only. [%Y] is
    the year in four digits, as every C library prints the years from
    1000 on. *)
Definition directive (c : ascii) (t : Z) : string :=
  if Ascii.eqb c "Y" then fixed_digits 4 (dt_year t)
  else if Ascii.eqb c "m" then fixed_digits 2 (dt_month t)
  else if Ascii.eqb c "d" then fixed_digits 2 (dt_day t)
  else if Ascii.eqb c "H" then fixed_digits 2 (dt_hour t)
  else if Ascii.eqb c "M" then fixed_digits 2 (dt_minute t)
  else if Ascii.eqb c "S" then fixed_digits 2 (dt_second t)
  else String "%" (String c EmptyString).

(** [t.strftime(fmt)] *)
Fixpoint strftime (fmt : string) (t : Z) : string :=
  match fmt with
  | EmptyString => EmptyString
  | String c rest =>
      if Ascii.eqb c "%" then
        match rest with
        | String d rest' => directive d t +:+ strftime rest' t
        | EmptyString => String c EmptyString
        end
      else String c (strftime rest t)
  end.

(** ** XML: [xml.etree.ElementTree] and [xml.dom.minidom] *)

Inductive element :=
| Element (tag : string) (attrib : list (string * string))
          (text : option string) (children : list element).

(** [ET.SubElement(parent, tag, attrib)] appends a child; the tree is built
    bottom-up here, so a parent is given its children in source order. *)

(** [_namespace_map], the prefix registry, and [register_namespace] *)
Definition well_known_namespaces : list (string * string) :=
  [ ("http://www.w3.org/XML/1998/namespace", "xml");
    ("http://www.w3.org/1999/xhtml", "html");
    ("http://www.w3.org/1999/02/22-rdf-syntax-ns#", "rdf");
    ("http://schemas.xmlsoap.org/wsdl/", "wsdl");
    ("http://www.w3.org/2001/XMLSchema", "xs");
    ("http://www.w3.org/2001/XMLSchema-instance", "xsi");
    ("http://purl.org/dc/elements/1.1/", "dc") ]%string.

(** [re.match(r"ns\d+$", prefix)] *)
Definition reserved_prefix (prefix : string) : bool :=
  match prefix with
  | String "n" (String "s" (String c rest)) => all_digits (String c rest)
  | _ => false
  end.

Definition register_namespace (prefix uri : string)
    (m : list (string * string)) : option (list (string * string)) :=
  if reserved_prefix prefix then None     (* ValueError *)
  else
    Some (filter (λ kv, negb (String.eqb kv.1 uri || String.eqb kv.2 prefix)) m
          ++ [(uri, prefix)]).

Fixpoint assoc (k : string) (m : list (string * string)) : option string :=
  match m with
  | [] => None
  | (k', v) :: m' => if String.eqb k k' then Some v else assoc k m'
  end.

(** ["{uri}local"] split at its last brace: [qname[1:].rsplit("}", 1)] *)
Fixpoint rsplit_brace (s : string) : option (string * string) :=
  match s with
  | EmptyString => None
  | String c s' =>
      match rsplit_brace s' with
      | Some (u, l) => Some (String c u, l)
      | None => if Ascii.eqb c "}" then Some (EmptyString, s') else None
      end
  end.

Definition split_qname (q : string) : option (string * string) :=
  match q with
  | String "{" rest => rsplit_brace rest
  | _ => None
  end.

(** [add_qname] of [_namespaces]: the prefix table after one more name *)
Definition add_qname (registry : list (string * string))
    (namespaces : list (string * string)) (q : string) : list (string * string) :=
  match split_qname q with
  | Some (uri, _) =>
      match assoc uri namespaces with
      | Some _ => namespaces
      | None =>
          let prefix :=
            match assoc uri registry with
            | Some p => p
            | None => "ns" +:+ str_int (Z.of_nat (length namespaces))
            end in
          if String.eqb prefix "xml" then namespaces
          else namespaces ++ [(uri, prefix)]
      end
  | None => namespaces
  end.

(** The tree in document order ([elem.iter()]): each tag, then its
    attribute keys. *)
Fixpoint collect_namespaces (registry : list (string * string))
    (e : element) (namespaces : list (string * string)) : list (string * string) :=
  match e with
  | Element tag attrib _ children =>
      let ns := add_qname registry namespaces tag in
      let ns := fold_left (λ acc kv, add_qname registry acc kv.1) attrib ns in
      fold_left (λ acc c, collect_namespaces registry c acc) children ns
  end.

(** The serialized name of a tag or attribute key: [qnames[q]] *)
Definition qname (namespaces : list (string * string)) (q : string) : string :=
  match split_qname q with
  | Some (uri, local) =>
      match assoc uri namespaces with
      | Some EmptyString => local
      | Some prefix => prefix +:+ ":" +:+ local
      | None => "xml:" +:+ local
      end
  | None => q
  end.

Fixpoint insert_by_prefix (x : string * string) (l : list (string * string))
    : list (string * string) :=
  match l with
  | [] => [x]
  | y :: l' => if String.leb x.2 y.2 then x :: l else y :: insert_by_prefix x l'
  end.

(** [sorted(namespaces.items(), key=prefix)] as [xmlns] attributes *)
Definition xmlns_attrs (namespaces : list (string * string)) : list (string * string) :=
  map (λ kv, (match kv.2 with
              | EmptyString => "xmlns"
              | p => "xmlns:" +:+ p
              end, kv.1))
      (fold_right insert_by_prefix [] namespaces).

(** A minidom node. *)
Inductive dom :=
| DomElement (tagName : string) (attrs : list (string * string)) (childNodes : list dom)
| DomText (data : string).

(** [minidom.parseString(ET.tostring(e, encoding='utf-8'))], by its net
    effect on the tree: names are replaced by their serialized names, the
    root carries the [xmlns] declarations before its own attributes, a
    non-empty text becomes a text node, and escaping done by the
    serializer is undone by the parser. *)
Fixpoint dom_of (namespaces : list (string * string)) (decls : list (string * string))
    (e : element) : dom :=
  match e with
  | Element tag attrib text children =>
      DomElement (qname namespaces tag)
        (decls ++ map (λ kv, (qname namespaces kv.1, kv.2)) attrib)
        (match text with
         | Some (String c s) => [DomText (String c s)]
         | _ => []
         end ++ map (dom_of namespaces []) children)
  end.

Definition parse_tostring (registry : list (string * string)) (e : element) : dom :=
  let namespaces := collect_namespaces registry e [] in
  dom_of namespaces (xmlns_attrs namespaces) e.

(** [_write_data] *)
Fixpoint write_data (s : string) : string :=
  match s with
  | EmptyString => EmptyString
  | String c s' =>
      (if Ascii.eqb c "&" then "&amp;"
       else if Ascii.eqb c "<" then "&lt;"
       else if Ascii.eqb c (ascii_of_nat 34) then "&quot;"
       else if Ascii.eqb c ">" then "&gt;"
       else String c EmptyString) +:+ write_data s'
  end.

Definition write_attrs (attrs : list (string * string)) : string :=
  String.concat "" (map (λ kv, " " +:+ kv.1 +:+ "=" +:+ dq +:+ write_data kv.2 +:+ dq) attrs).

(** [node.writexml(writer, indent, addindent, newl)] *)
Fixpoint writexml (d : dom) (indent addindent newl : string) : string :=
  match d with
  | DomText data => write_data (indent +:+ data +:+ newl)
  | DomElement tagName attrs childNodes =>
      indent +:+ "<" +:+ tagName +:+ write_attrs attrs +:+
      match childNodes with
      | [] => "/>" +:+ newl
      | [DomText data] =>
          ">" +:+ write_data data +:+ "</" +:+ tagName +:+ ">" +:+ newl
      | _ =>
          ">" +:+ newl +:+
          String.concat "" (map (λ c, writexml c (indent +:+ addindent) addindent newl)
                                childNodes) +:+
          indent +:+ "</" +:+ tagName +:+ ">" +:+ newl
      end
  end.

Definition xml_declaration : string :=
  "<?xml version=" +:+ dq +:+ "1.0" +:+ dq +:+ " ?>".

(** [doc.toprettyxml(indent)] *)
Definition toprettyxml (d : dom) (indent : string) : string :=
  xml_declaration +:+ String (ascii_of_nat 10) EmptyString +:+
  writexml d "" indent (String (ascii_of_nat 10) EmptyString).

(** ** Files, console, environment and the remote client *)

Definition nl : string := String (ascii_of_nat 10) EmptyString.

Definition print (line : string) : M unit := emit (Stdout line).
Definition eprint (line : string) : M unit := emit (Stderr line).

(** [sys.exit(code)] *)
Definition sys_exit {A} (code : Z) : M A := raise (SystemExit code).

Definition is_ok {A} (o : outcome A) : bool :=
  match o with Ok _ => true | Raise _ => false end.

(** The status the process ends with: a [SystemExit] carries it, any other
    uncaught exception ends the interpreter with 1. *)
Definition exit_status {A} (o : outcome A) : Z :=
  match o with
  | Ok _ => 0
  | Raise (SystemExit code) => code
  | Raise _ => 1
  end.

(** [os.makedirs(path, exist_ok=True)] *)
Definition makedirs_exist_ok (path : string) : M unit :=
  emit (Makedirs path);;
  w ← get_world;
  match fs w !! path with
  | Some (File _) => raise FileExistsError
  | _ => set_fs (<[path := Dir]> (fs w))
  end.

(** [with open(path, 'w') as f: f.write(content)] *)
Definition write_file (path content : string) : M unit :=
  w ← get_world;
  match fs w !! path with
  | Some Dir => raise IsADirectoryError
  | _ => emit (WriteFile path content);; set_fs (<[path := File content]> (fs w))
  end.

(** [os.path.isfile(path)] *)
Definition isfile (path : string) : M bool :=
  w ← get_world;
  mret (match fs w !! path with Some (File _) => true | _ => false end).

(** [load_dotenv()]: entries of the file are set unless already present. *)
Definition merge_dotenv (entries : list (string * string))
    (env : gmap string string) : gmap string string :=
  fold_left (λ env kv, match env !! kv.1 with
                       | Some _ => env
                       | None => <[kv.1 := kv.2]> env
                       end) entries env.

Definition load_dotenv : M unit :=
  w ← get_world;
  set_environ (merge_dotenv (dotenv w) (environ w)).

(** [os.getenv(key)] *)
Definition getenv (key : string) : M (option string) :=
  w ← get_world; mret (environ w !! key).

(** [not value] for [value] a string or [None] *)
Definition falsy (value : option string) : bool :=
  match value with
  | Some (String _ _) => false
  | _ => true
  end.

(** [client.login()] and [client.upload_activity(path)]: the call is
    recorded, then the service answers. *)
Definition client_login (username password : string) : M (option string) :=
  emit (NetLogin username password);;
  w ← get_world; mret (garmin_login w username password).

Definition client_upload (path : string) : M (option string) :=
  emit (NetUpload path);;
  w ← get_world; mret (garmin_upload w path).

(** [s.lower()] on the ASCII letters, which decides the comparison with
    [".fit"] and [".gpx"]. *)
Definition lower_ascii (c : ascii) : ascii :=
  let n := nat_of_ascii c in
  if (65 <=? n)%nat && (n <=? 90)%nat then ascii_of_nat (n + 32) else c.

Fixpoint lower (s : string) : string :=
  match s with
  | EmptyString => EmptyString
  | String c s' => String (lower_ascii c) (lower s')
  end.

(** [p.rfind(c)], counting from index [i] with [acc] found so far *)
Fixpoint rfind_from (c : ascii) (s : string) (i acc : Z) : Z :=
  match s with
  | EmptyString => acc
  | String d s' => rfind_from c s' (i + 1) (if Ascii.eqb d c then i else acc)
  end.
Definition rfind (c : ascii) (s : string) : Z := rfind_from c s 0 (-1).

(** Is one of the first [n] characters of [s] not a dot? *)
Fixpoint has_non_dot (n : nat) (s : string) : bool :=
  match n, s with
  | S n', String c s' => negb (Ascii.eqb c ".") || has_non_dot n' s'
  | _, _ => false
  end.

(** [os.path.splitext(p)] ([genericpath._splitext] with [sep = '/']) *)
Definition splitext (p : string) : string * string :=
  let sepIndex := rfind "/" p in
  let dotIndex := rfind "." p in
  if (sepIndex <? dotIndex)
     && has_non_dot (Z.to_nat (dotIndex - (sepIndex + 1)))
                    (string_drop (Z.to_nat (sepIndex + 1)) p)
  then (String.substring 0 (Z.to_nat dotIndex) p, string_drop (Z.to_nat dotIndex) p)
  else (p, EmptyString).

(** ** Constants of [generate_run_gpx.py] *)

Definition NS_DEFAULT : string := "http://www.topografix.com/GPX/1/1".
Definition NS_XSI : string := "http://www.w3.org/2001/XMLSchema-instance".
Definition NS_NS2 : string := "http://www.garmin.com/xmlschemas/GpxExtensions/v3".
Definition NS_NS3 : string := "http://www.garmin.com/xmlschemas/TrackPointExtension/v1".
Definition SCHEMA_LOC : string := NS_DEFAULT +:+ " http://www.topografix.com/GPX/11.xsd".

(** The registry after the two module-level [ET.register_namespace] calls. *)
Definition namespace_map : list (string * string) :=
  default well_known_namespaces
    (register_namespace "" NS_DEFAULT well_known_namespaces
       ≫= register_namespace "xsi" NS_XSI).

Definition header : string :=
  "<?xml version=" +:+ dq +:+ "1.0" +:+ dq +:+ " encoding=" +:+ dq +:+ "UTF-8" +:+ dq +:+ "?>" +:+ nl +:+
  "<gpx creator=" +:+ dq +:+ "Garmin Connect" +:+ dq +:+ " version=" +:+ dq +:+ "1.1" +:+ dq +:+ nl +:+
  "  xsi:schemaLocation=" +:+ dq +:+ SCHEMA_LOC +:+ dq +:+ nl +:+
  "  xmlns:ns3=" +:+ dq +:+ NS_NS3 +:+ dq +:+ nl +:+
  "  xmlns=" +:+ dq +:+ NS_DEFAULT +:+ dq +:+ nl +:+
  "  xmlns:xsi=" +:+ dq +:+ NS_XSI +:+ dq +:+ " xmlns:ns2=" +:+ dq +:+ NS_NS2 +:+ dq +:+ ">" +:+ nl.

(** ** Python floats *)

Class PyFloat := {
  num : Type;
  of_int : Z → num;                 (* float(n), correctly rounded *)
  of_dec : Z → nat → num;           (* the literal m·10^-k, correctly rounded *)
  fadd : num → num → num;
  fsub : num → num → num;
  fmul : num → num → num;
  fdiv : num → num → num;           (* IEEE division, no zero check *)
  fopp : num → num;
  fcos : num → num;                 (* libm *)
  fsin : num → num;
  fpi : num;                        (* math.pi *)
  is_nan : num → bool;
  is_inf : num → bool;
  is_zero : num → bool;
  sign_bit : num → bool;
  trunc : num → Z;                  (* toward zero, for a finite value *)
  round_scaled : Z → num → Z        (* nearest integer to x·s, ties to even *)
}.

Declare Scope py_scope.
Delimit Scope py_scope with py.
Infix "⊞" := fadd (at level 50, left associativity) : py_scope.
Infix "⊟" := fsub (at level 50, left associativity) : py_scope.
Infix "⊠" := fmul (at level 40, left associativity) : py_scope.
Infix "⧄" := fdiv (at level 40, left associativity) : py_scope.
Local Open Scope py_scope.

(** ** The track: numbers are of type [N] *)

Record args (N : Type) := Args {
  base_lat : N;
  base_lon : N;
  total_distance_km : N;
  points_per_km : Z;
  hr_min : Z;
  hr_max : Z;
  cad : Z
}.
Arguments Args {N}.
Arguments base_lat {N}.
Arguments base_lon {N}.
Arguments total_distance_km {N}.
Arguments points_per_km {N}.
Arguments hr_min {N}.
Arguments hr_max {N}.
Arguments cad {N}.

Record track_point (N : Type) := TrackPoint {
  pt_lat : N;
  pt_lon : N;
  pt_ele : N;
  pt_time : Z;
  pt_hr : Z;
  pt_cad : Z
}.
Arguments TrackPoint {N}.
Arguments pt_lat {N}.
Arguments pt_lon {N}.
Arguments pt_ele {N}.
Arguments pt_time {N}.
Arguments pt_hr {N}.
Arguments pt_cad {N}.

Record walk_state (N : Type) := WalkState {
  w_bearing : N;
  w_lat : N;
  w_lon : N;
  w_points : list (track_point N)     (* the children of [trkseg], in order *)
}.
Arguments WalkState {N}.
Arguments w_bearing {N}.
Arguments w_lat {N}.
Arguments w_lon {N}.
Arguments w_points {N}.

Record track (N : Type) := Track {
  trk_time0 : Z;
  trk_points : list (track_point N)
}.
Arguments Track {N}.
Arguments trk_time0 {N}.
Arguments trk_points {N}.

Section Generator.
Context `{PF : PyFloat}.

(** [x / y] on floats *)
Definition py_div (x y : num) : outcome num :=
  if is_zero y then Raise ZeroDivisionError else Ok (x ⧄ y).

(** [x / n] for an int [n]: true division, the int converted first. For
    [pace_sec / points_per_km], both ints, CPython rounds the exact
    quotient once; the two agree while [|points_per_km| ≤ 2^53]. An int
    beyond the range of float makes CPython raise [OverflowError] at line
    41; here [of_int] gives an infinity and [int()] raises there. *)
Definition div_by_int (x : num) (n : Z) : outcome num :=
  if decide (n = 0) then Raise ZeroDivisionError else Ok (x ⧄ of_int n).

(** [int(x)] *)
Definition int_of_float (x : num) : outcome Z :=
  if is_nan x then Raise ValueError
  else if is_inf x then Raise OverflowError
  else Ok (trunc x).

(** [math.radians], [math.cos], [math.sin]; the last two go through
    [math_1] of mathmodule.c, which raises when libm answers NaN for a
    number or an infinity for a finite one. *)
Definition radians (x : num) : num := x ⊠ (fpi ⧄ of_int 180).
Definition math_1 (libm : num → num) (x : num) : outcome num :=
  let r := libm x in
  if is_nan r && negb (is_nan x) then Raise ValueError
  else if is_inf r && negb (is_nan x || is_inf x) then Raise ValueError
  else Ok r.
Definition math_cos (x : num) : outcome num := math_1 fcos x.
Definition math_sin (x : num) : outcome num := math_1 fsin x.

(** [random.random()], [random.uniform(a, b)], [random.randint(a, b)] *)
Definition unit_of_raw (k : Z) : num := of_int (k mod 2 ^ 53) ⧄ of_int (2 ^ 53).
Definition random : M num := k ← next_raw; mret (unit_of_raw k).
Definition uniform_at (a b u : num) : num := a ⊞ (b ⊟ a) ⊠ u.
Definition uniform (a b : num) : M num := u ← random; mret (uniform_at a b u).
Definition randint (a b : Z) : M Z :=
  if decide (a ≤ b) then k ← next_raw; mret (a + k mod (b + 1 - a))
  else raise ValueError.

(** [timedelta] and [datetime] arithmetic, in microseconds. *)
Definition td_max : Z := 86400000000 * 1000000000 - 1.
Definition td_min : Z := - (86400000000 * 999999999).
Definition dt_max : Z := 3652059 * 86400000000 - 1.

Definition timedelta_check (us : Z) : outcome Z :=
  if decide (td_min ≤ us ≤ td_max) then Ok us else Raise OverflowError.

(** [timedelta(seconds=x)] for a float [x]: the microseconds are rounded
    to the nearest, ties to even, as the library documents. *)
Definition timedelta_seconds (x : num) : outcome Z :=
  if is_nan x then Raise ValueError
  else if is_inf x then Raise OverflowError
  else timedelta_check (round_scaled 1000000 x).

(** [i * delta] and [t + delta] *)
Definition timedelta_mul (i delta : Z) : outcome Z := timedelta_check (i * delta).
Definition datetime_add (t delta : Z) : outcome Z :=
  if decide (0 ≤ t + delta ≤ dt_max) then Ok (t + delta) else Raise OverflowError.

(** The body of [for i in range(total_points)]. *)
Definition walk_step (a : args num) (dist_km : num) (delta_t time0 : Z)
    (i : Z) (st : walk_state num) : M (walk_state num) :=
  noise ← uniform (fopp (radians (of_int 2))) (radians (of_int 2));
  let bearing := w_bearing st ⊞ noise in
  u ← uniform (of_dec 95 2) (of_dec 105 2);
  let d := dist_km ⊠ u in
  cb ← lift (math_cos bearing);
  let dlat := (d ⊠ cb) ⧄ of_dec 110574 3 in
  sb ← lift (math_sin bearing);
  cl ← lift (math_cos (radians (w_lat st)));
  dlon ← lift (py_div (d ⊠ sb) (of_dec 111320 3 ⊠ cl));
  let lat := w_lat st ⊞ dlat in
  let lon := w_lon st ⊞ dlon in
  di ← lift (timedelta_mul i delta_t);
  t ← lift (datetime_add time0 di);
  hr ← randint (hr_min a) (hr_max a);
  ele ← uniform (of_int 10) (of_int 30);
  mret (WalkState bearing lat lon
          (w_points st ++ [TrackPoint lat lon ele t hr (cad a)])).

Fixpoint walk (a : args num) (dist_km : num) (delta_t time0 : Z)
    (n : nat) (i : Z) (st : walk_state num) : M (walk_state num) :=
  match n with
  | O => mret st
  | S n' =>
      st' ← walk_step a dist_km delta_t time0 i st;
      walk a dist_km delta_t time0 n' (i + 1) st'
  end.

(** Lines 41-49 and the loop of lines 62-77: everything of
    [generate_run_gpx] that decides the track. *)
Definition generate_track (a : args num) : M (track num) :=
  total_points ← lift (int_of_float (total_distance_km a ⊠ of_int (points_per_km a)));
  dist_km ← lift (div_by_int (total_distance_km a) total_points);
  let pace_sec := 6 * 60 in
  secs ← lift (div_by_int (of_int pace_sec) (points_per_km a));
  delta_t ← lift (timedelta_seconds secs);
  nlat ← uniform (fopp (of_dec 1 3)) (of_dec 1 3);
  let lat := base_lat a ⊞ nlat in
  nlon ← uniform (fopp (of_dec 1 3)) (of_dec 1 3);
  let lon := base_lon a ⊞ nlon in
  bearing ← uniform (of_int 0) (of_int 2 ⊠ fpi);
  time0 ← utcnow;
  st ← walk a dist_km delta_t time0 (Z.to_nat total_points) 0
         (WalkState bearing lat lon []);
  mret (Track time0 (w_points st)).

(** *** Serialization *)

(** [f"{x:.pf}"] *)
Definition format_f (p : nat) (x : num) : string :=
  if is_nan x then "nan"
  else if is_inf x then (if sign_bit x then "-inf" else "inf")
  else
    let n := Z.abs (round_scaled (10 ^ Z.of_nat p) x) in
    (if sign_bit x then "-" else "") +:+ str_int (n / 10 ^ Z.of_nat p) +:+
    match p with
    | O => EmptyString
    | S _ => "." +:+ fixed_digits p (n mod 10 ^ Z.of_nat p)
    end.

Definition time_text (t : Z) : string := strftime "%Y-%m-%dT%H:%M:%S.000Z" t.

Definition metadata_element (time0 : Z) : element :=
  Element "metadata" [] None
    [ Element "link" [("href", "connect.garmin.com")] None
        [ Element "text" [] (Some "Garmin Connect") [] ];
      Element "time" [] (Some (time_text time0)) [] ]%string.

Definition ns3_tag (local : string) : string := "{" +:+ NS_NS3 +:+ "}" +:+ local.

Definition trkpt_element (pt : track_point num) : element :=
  Element "trkpt"
    [ ("lat", format_f 15 (pt_lat pt)); ("lon", format_f 15 (pt_lon pt)) ]%string None
    [ Element "ele" [] (Some (format_f 6 (pt_ele pt))) [];
      Element "time" [] (Some (time_text (pt_time pt))) [];
      Element "extensions" [] None
        [ Element (ns3_tag "TrackPointExtension") [] None
            [ Element (ns3_tag "hr") [] (Some (str_int (pt_hr pt))) [];
              Element (ns3_tag "cad") [] (Some (str_int (pt_cad pt))) [] ] ] ].

Definition trk_element (pts : list (track_point num)) : element :=
  Element "trk" [] None
    [ Element "name" [] (Some "County Londonderry Running") [];
      Element "type" [] (Some "running") [];
      Element "trkseg" [] None (map trkpt_element pts) ]%string.

(** [minidom.parseString(ET.tostring(e)).toprettyxml(indent='  ')] with the
    declaration line sliced off *)
Definition pretty_fragment (e : element) : string :=
  string_drop (String.length (xml_declaration +:+ nl))
    (toprettyxml (parse_tostring namespace_map e) "  ").

Definition document (trk : track num) : string :=
  header +:+ pretty_fragment (metadata_element (trk_time0 trk)) +:+ nl +:+
  pretty_fragment (trk_element (trk_points trk)) +:+ "</gpx>".

Definition output_path (time0 : Z) : string :=
  strftime "output/run_%Y%m%d_%H%M%S.gpx" time0.

Definition generate_run_gpx (a : args num) : M string :=
  trk ← generate_track a;
  let content := document trk in
  makedirs_exist_ok "output";;
  let fn := output_path (trk_time0 trk) in
  write_file fn content;;
  print ("GPX file saved to " +:+ fn);;
  mret fn.

(** The defaults of the signature. *)
Definition default_args : args num :=
  Args (of_dec 54597311099110506 15) (fopp (of_dec 59302454388246995 16))
       (of_dec 100 1) 10 120 150 120.

(** ** The uploader *)

Definition upload_to_garmin (file_path : string) : M unit :=
  load_dotenv;;
  username ← getenv "GARMIN_USERNAME";
  password ← getenv "GARMIN_PASSWORD";
  if falsy username || falsy password then
    eprint "Error: GARMIN_USERNAME and GARMIN_PASSWORD must be set in environment";;
    sys_exit 1
  else
    r ← client_login (default "" username) (default "" password);
    match r with
    | Some msg => eprint ("Login failed: " +:+ msg);; sys_exit 1
    | None =>
        print "✅ Logged in to Garmin Connect";;
        let ext := lower (splitext file_path).2 in
        if negb (String.eqb ext ".fit") && negb (String.eqb ext ".gpx") then
          eprint "Error: File must be .gpx or .fit";; sys_exit 1
        else
          print ("Uploading " +:+ file_path +:+ " as a running activity...");;
          r ← client_upload file_path;
          match r with
          | Some msg => eprint ("Upload failed: " +:+ msg);; sys_exit 1
          | None => print "✅ Upload complete!"
          end
    end.

(** The [__main__] block; [file] is [args.file]. First the path: *)
Definition resolve_path (file : option string) : M string :=
  match file with
  | Some (String c s) =>
      let path := String c s in
      ok ← isfile path;
      if ok : bool then mret path
      else eprint ("Error: file not found: " +:+ path);; sys_exit 1
  | _ => generate_run_gpx default_args
  end.

Definition main (file : option string) : M unit :=
  path ← resolve_path file;
  upload_to_garmin path.

End Generator.

(** ** IEEE binary64: CPython's float *)

Definition b64_of_int (z : Z) : float :=
  SF2Prim (binary_normalize prec emax z 0 false).

Definition b64_ratio (neg : bool) (m d : positive) : float :=
  SF2Prim (SFdiv prec emax (S754_finite neg m 0) (S754_finite false d 0)).

Definition b64_of_dec (m : Z) (k : nat) : float :=
  match m with
  | Z0 => 0%float
  | Zpos p => b64_ratio false p (Z.to_pos (10 ^ Z.of_nat k))
  | Zneg p => b64_ratio true p (Z.to_pos (10 ^ Z.of_nat k))
  end.

Definition b64_trunc (x : float) : Z :=
  match Prim2SF x with
  | S754_finite sg m e =>
      let a := if 0 <=? e then Z.pos m * 2 ^ e else Z.pos m / 2 ^ (- e) in
      if sg then - a else a
  | _ => 0
  end.

(** The integer nearest to [a / b], ties to even, for [0 ≤ a] and [0 < b]. *)
Definition round_half_even_div (a b : Z) : Z :=
  let q := a / b in
  let r := a mod b in
  if 2 * r <? b then q
  else if b <? 2 * r then q + 1
  else if Z.even q then q else q + 1.

Definition b64_round_scaled (s : Z) (x : float) : Z :=
  match Prim2SF x with
  | S754_finite sg m e =>
      let a := Z.pos m * s in
      let r := if 0 <=? e then a * 2 ^ e else round_half_even_div a (2 ^ (- e)) in
      if sg then - r else r
  | _ => 0
  end.

#[export] Instance binary64 (libm_cos libm_sin : float → float) : PyFloat := {|
  num := float;
  of_int := b64_of_int;
  of_dec := b64_of_dec;
  fadd := PrimFloat.add;
  fsub := PrimFloat.sub;
  fmul := PrimFloat.mul;
  fdiv := PrimFloat.div;
  fopp := PrimFloat.opp;
  fcos := libm_cos;
  fsin := libm_sin;
  fpi := 0x1.921fb54442d18p+1%float;
  is_nan := PrimFloat.is_nan;
  is_inf := PrimFloat.is_infinity;
  is_zero := PrimFloat.is_zero;
  sign_bit := PrimFloat.get_sign;
  trunc := b64_trunc;
  round_scaled := b64_round_scaled
|}.

(** ** Exact real arithmetic *)



(** ** Fixtures: a fixed libm and fixed worlds for concrete runs *)

(** Taylor polynomials standing in for libm in the concrete runs below. *)
Definition taylor_cos (x : float) : float :=
  let x2 := (x * x)%float in
  (1 - x2 / 2 * (1 - x2 / 12 * (1 - x2 / 30 * (1 - x2 / 56))))%float.
Definition taylor_sin (x : float) : float :=
  let x2 := (x * x)%float in
  (x * (1 - x2 / 6 * (1 - x2 / 20 * (1 - x2 / 42 * (1 - x2 / 72)))))%float.

Definition b64 : PyFloat := binary64 taylor_cos taylor_sin.

(** Raw draws: eleven 64-bit values, repeated. *)
Definition sample_draws (n : nat) : Z :=
  nth (n mod 11)
    [1442695040888963407; 7806831264735756412; 14170967488582549417;
     2088359638719790806; 8452495862566583811; 14816632086413376816;
     2734024236550618205; 9098160460397411210; 15462296684244204215;
     3379688834381445604; 9743825058228238609] 0.

(** 2024-05-17T09:30:15.250000 *)
Definition sample_now : Z := 63851535015250000.

Definition sample_world : world :=
  World sample_draws 0 sample_now ∅ ∅ [] (λ _ _, None) (λ _, None) [].




(** The files written in the course of a run, in order. *)
Definition written (w : world) : list (string * string) :=
  omap (λ e, match e with WriteFile path content => Some (path, content) | _ => None end)
       (trace w).

(** One kilometre at two points per kilometre, and the document of that
    call on the sample world. *)
Definition two_points : args float :=
  Args 54.597311099110506%float (-5.9302454388246995)%float 1%float 2 120 150 120.

Definition sample_document : string :=
  match written (generate_run_gpx (PF := b64) two_points sample_world).2 with
  | (_, content) :: _ => content
  | [] => EmptyString
  end.

(** The same document, written out. *)
Definition q (s : string) : string := dq +:+ s +:+ dq.

Definition expected_document : string :=
  String.concat nl
    [ "<?xml version=" +:+ q "1.0" +:+ " encoding=" +:+ q "UTF-8" +:+ "?>";
      "<gpx creator=" +:+ q "Garmin Connect" +:+ " version=" +:+ q "1.1";
      "  xsi:schemaLocation=" +:+ q "http://www.topografix.com/GPX/1/1 http://www.topografix.com/GPX/11.xsd";
      "  xmlns:ns3=" +:+ q "http://www.garmin.com/xmlschemas/TrackPointExtension/v1";
      "  xmlns=" +:+ q "http://www.topografix.com/GPX/1/1";
      "  xmlns:xsi=" +:+ q "http://www.w3.org/2001/XMLSchema-instance" +:+ " xmlns:ns2=" +:+ q "http://www.garmin.com/xmlschemas/GpxExtensions/v3" +:+ ">";
      "<metadata>";
      "  <link href=" +:+ q "connect.garmin.com" +:+ ">";
      "    <text>Garmin Connect</text>";
      "  </link>";
      "  <time>2024-05-17T09:30:15.000Z</time>";
      "</metadata>";
      EmptyString;
      "<trk xmlns:ns0=" +:+ q "http://www.garmin.com/xmlschemas/TrackPointExtension/v1" +:+ ">";
      "  <name>County Londonderry Running</name>";
      "  <type>running</type>";
      "  <trkseg>";
      "    <trkpt lat=" +:+ q "54.595339290893243" +:+ " lon=" +:+ q "-5.922431039761349" +:+ ">";
      "      <ele>20.753315</ele>";
      "      <time>2024-05-17T09:30:15.000Z</time>";
      "      <extensions>";
      "        <ns0:TrackPointExtension>";
      "          <ns0:hr>147</ns0:hr>";
      "          <ns0:cad>120</ns0:cad>";
      "        </ns0:TrackPointExtension>";
      "      </extensions>";
      "    </trkpt>";
      "    <trkpt lat=" +:+ q "54.594115920660776" +:+ " lon=" +:+ q "-5.914838891969720" +:+ ">";
      "      <ele>25.637855</ele>";
      "      <time>2024-05-17T09:33:15.000Z</time>";
      "      <extensions>";
      "        <ns0:TrackPointExtension>";
      "          <ns0:hr>124</ns0:hr>";
      "          <ns0:cad>120</ns0:cad>";
      "        </ns0:TrackPointExtension>";
      "      </extensions>";
      "    </trkpt>";
      "  </trkseg>";
      "</trk>";
      "</gpx>" ].

(** A world with credentials and two files, whose service answers the
    login with [login] and the upload with [upload]. *)
Definition upload_world (login upload : option string) : world :=
  World sample_draws 0 sample_now
        {[ "notes.txt" := File "hello"; "run.gpx" := File "<gpx/>" ]}
        {[ "GARMIN_USERNAME" := "runner@example.com"; "GARMIN_PASSWORD" := "secret" ]}
        [] (λ _ _, login) (λ _, upload) [].

(** ** Specification-side definitions *)

(** The world after [n] more raw draws were consumed. *)
Definition consume (n : nat) (w : world) : world :=
  World (rng w) (rng_pos w + n) (now w) (fs w) (environ w) (dotenv w)
        (garmin_login w) (garmin_upload w) (trace w).

(** The raw draw number [j] from where [w] stands. *)
Definition draw (w : world) (j : nat) : Z := rng w (rng_pos w + j)%nat.

Section Specification.
Context `{PF : PyFloat}.

(** One random-walk step as §4.1 (7a-7d) words it, for the two unit draws
    [u1] and [u2]: the bearing is perturbed by uniform noise between -2 and
    +2 degrees in radians, a distance [d = dist_km · U(0.95, 1.05)] is
    drawn, and the position moves by [d·cos(bearing)/110.574] in latitude
    and [d·sin(bearing)/(111.320·cos(lat))] in longitude, [lat] being the
    latitude before the update. *)
Definition random_walk_step (dist_km u1 u2 : num)
    (bearing lat lon bearing' lat' lon' : num) : Prop :=
  let two_degrees := radians (of_int 2) in
  let noise := fopp two_degrees ⊞ (two_degrees ⊟ fopp two_degrees) ⊠ u1 in
  let d := dist_km ⊠ (of_dec 95 2 ⊞ (of_dec 105 2 ⊟ of_dec 95 2) ⊠ u2) in
  bearing' = bearing ⊞ noise ∧
  lat' = lat ⊞ (d ⊠ fcos bearing') ⧄ of_dec 110574 3 ∧
  lon' = lon ⊞ (d ⊠ fsin bearing') ⧄ (of_dec 111320 3 ⊠ fcos (radians lat)).

(** Every point follows from the position before it by one such step. *)
Inductive walk_chain (dist_km : num) : num → num → num → list (track_point num) → Prop :=
| chain_nil bearing lat lon : walk_chain dist_km bearing lat lon []
| chain_cons bearing lat lon k1 k2 bearing' pt pts :
    random_walk_step dist_km (unit_of_raw k1) (unit_of_raw k2)
      bearing lat lon bearing' (pt_lat pt) (pt_lon pt) →
    walk_chain dist_km bearing' (pt_lat pt) (pt_lon pt) pts →
    walk_chain dist_km bearing lat lon (pt :: pts).


(** What the loop fixes of the point of index [i], the positions apart. *)
Definition point_ok (a : args num) (delta_t time0 : Z) (i : Z) (pt : track_point num) : Prop :=
  pt_time pt = time0 + i * delta_t ∧
  hr_min a ≤ pt_hr pt ≤ hr_max a ∧
  pt_cad pt = cad a ∧
  ∃ k, pt_ele pt = uniform_at (of_int 10) (of_int 30) (unit_of_raw k).

End Specification.

(** Network calls among the events. *)
Definition is_network (e : event) : bool :=
  match e with
  | NetLogin _ _ | NetUpload _ => true
  | _ => false
  end.

(** The upload step as §4.2 (2, 4, 5, 6) words it: what a call with the
    resolved [path] prints and sends, in order, and the status it ends with
    (0 when it returns). *)
Definition credentials (w : world) : option (string * string) :=
  let env := merge_dotenv (dotenv w) (environ w) in
  match env !! "GARMIN_USERNAME", env !! "GARMIN_PASSWORD" with
  | Some (String a u), Some (String b p) => Some (String a u, String b p)
  | _, _ => None
  end.

Definition accepted_extension (path : string) : bool :=
  let ext := lower (splitext path).2 in
  String.eqb ext ".fit" || String.eqb ext ".gpx".

Definition upload_events (path : string) (w : world) : list event :=
  match credentials w with
  | None =>
      [Stderr "Error: GARMIN_USERNAME and GARMIN_PASSWORD must be set in environment"]
  | Some (u, p) =>
      NetLogin u p ::
      match garmin_login w u p with
      | Some msg => [Stderr ("Login failed: " +:+ msg)]
      | None =>
          Stdout "✅ Logged in to Garmin Connect" ::
          if accepted_extension path then
            Stdout ("Uploading " +:+ path +:+ " as a running activity...") ::
            NetUpload path ::
            match garmin_upload w path with
            | Some msg => [Stderr ("Upload failed: " +:+ msg)]
            | None => [Stdout "✅ Upload complete!"]
            end
          else [Stderr "Error: File must be .gpx or .fit"]
      end
  end.

Definition upload_status (path : string) (w : world) : Z :=
  match credentials w with
  | None => 1
  | Some (u, p) =>
      match garmin_login w u p with
      | Some _ => 1
      | None =>
          if accepted_extension path then
            match garmin_upload w path with Some _ => 1 | None => 0 end
          else 1
      end
  end.

(** The world after the upload step: the environment holds the entries of
    the .env file, the trace has grown. *)
Definition after_upload (path : string) (w : world) : world :=
  World (rng w) (rng_pos w) (now w) (fs w) (merge_dotenv (dotenv w) (environ w))
        (dotenv w) (garmin_login w) (garmin_upload w)
        (trace w ++ upload_events path w).

(** The digits of a file name: [%Y%m%d] and [%H%M%S] of the instant [t]. *)
Definition date_digits (t : Z) : string :=
  fixed_digits 4 (dt_year t) +:+ fixed_digits 2 (dt_month t) +:+ fixed_digits 2 (dt_day t).
Definition clock_digits (t : Z) : string :=
  fixed_digits 2 (dt_hour t) +:+ fixed_digits 2 (dt_minute t) +:+ fixed_digits 2 (dt_second t).


(** The prefix table once the extension namespace was met. *)
Definition ns0_table : list (string * string) := [(NS_NS3, "ns0")].

(** From [w] to [w'] only local events were added to the trace, and the
    environment and the service are the same. *)
Definition local_only (w w' : world) : Prop :=
  (∃ evs, trace w' = trace w ++ evs ∧ Forall (λ e, is_network e = false) evs) ∧
  environ w' = environ w ∧ dotenv w' = dotenv w ∧
  garmin_login w' = garmin_login w ∧ garmin_upload w' = garmin_upload w.

(** An outcome that is no [SystemExit]. *)
Definition no_exit {A} (o : outcome A) : Prop := ∀ c, o ≠ Raise (SystemExit c).

(** A computation that stays local and never exits the process itself. *)
Definition tame {A} (m : M A) : Prop :=
  ∀ w, local_only w (m w).2 ∧ no_exit (m w).1.

(** The line printed when a credential is missing. *)
Definition credentials_error : event :=
  Stderr "Error: GARMIN_USERNAME and GARMIN_PASSWORD must be set in environment".

(** ** Further definitions: error classes, document text, events of a run, calendar *)

(** The exceptions of the arithmetic of the generator. *)
Definition arith_error (e : exn) : Prop :=
  e = ZeroDivisionError ∨ e = ValueError ∨ e = OverflowError.

(** An outcome that raises arithmetic exceptions only. *)
Definition arith_only {A} (o : outcome A) : Prop := ∀ e, o = Raise e → arith_error e.

(** A computation whose one effect is to consume raw draws, and which
    raises arithmetic exceptions only. *)
Definition quiet {A} (m : M A) : Prop :=
  ∀ w, (∃ k, (m w).2 = consume k w) ∧ arith_only (m w).1.

(** The world in which ['output'] is a regular file. *)
Definition blocked_world : world :=
  World sample_draws 0 sample_now {[ "output" := File "not a directory" ]} ∅ []
        (λ _ _, None) (λ _, None) [].

(** The defaults with the heart-rate bounds the wrong way round. *)
Definition inverted_hr : args float :=
  Args 54.597311099110506%float (-5.9302454388246995)%float 10%float 10 150 120 120.

(** Minus one kilometre. *)
Definition minus_one_km : args float :=
  Args 54.597311099110506%float (-5.9302454388246995)%float (-1)%float 10 120 150 120.

(** The [trk] fragment of a track without points. *)
Definition empty_trk_text : string :=
  "<trk>" +:+ nl +:+
  "  <name>County Londonderry Running</name>" +:+ nl +:+
  "  <type>running</type>" +:+ nl +:+
  "  <trkseg/>" +:+ nl +:+
  "</trk>" +:+ nl.

(** Text that [_write_data] leaves as it is: no ampersand, angle bracket
    or double quote in it. *)
Definition plain_char (c : ascii) : bool :=
  negb (Ascii.eqb c "&" || Ascii.eqb c "<" || Ascii.eqb c (ascii_of_nat 34)
        || Ascii.eqb c ">").

Fixpoint plain (s : string) : bool :=
  match s with
  | EmptyString => true
  | String c s' => plain_char c && plain s'
  end.

(** The [metadata] fragment for the start time [t]. *)
Definition metadata_text (t : Z) : string :=
  "<metadata>" +:+ nl +:+
  "  <link href=" +:+ dq +:+ "connect.garmin.com" +:+ dq +:+ ">" +:+ nl +:+
  "    <text>Garmin Connect</text>" +:+ nl +:+
  "  </link>" +:+ nl +:+
  "  <time>" +:+ time_text t +:+ "</time>" +:+ nl +:+
  "</metadata>" +:+ nl.

(** The ten lines of one track point. *)
Definition trkpt_text `{PF : PyFloat} (pt : track_point num) : string :=
  "    <trkpt lat=" +:+ dq +:+ format_f 15 (pt_lat pt) +:+ dq +:+
              " lon=" +:+ dq +:+ format_f 15 (pt_lon pt) +:+ dq +:+ ">" +:+ nl +:+
  "      <ele>" +:+ format_f 6 (pt_ele pt) +:+ "</ele>" +:+ nl +:+
  "      <time>" +:+ time_text (pt_time pt) +:+ "</time>" +:+ nl +:+
  "      <extensions>" +:+ nl +:+
  "        <ns0:TrackPointExtension>" +:+ nl +:+
  "          <ns0:hr>" +:+ str_int (pt_hr pt) +:+ "</ns0:hr>" +:+ nl +:+
  "          <ns0:cad>" +:+ str_int (pt_cad pt) +:+ "</ns0:cad>" +:+ nl +:+
  "        </ns0:TrackPointExtension>" +:+ nl +:+
  "      </extensions>" +:+ nl +:+
  "    </trkpt>" +:+ nl.

(** The [trk] fragment of a track with points. *)
Definition trk_text `{PF : PyFloat} (pts : list (track_point num)) : string :=
  "<trk xmlns:ns0=" +:+ dq +:+ NS_NS3 +:+ dq +:+ ">" +:+ nl +:+
  "  <name>County Londonderry Running</name>" +:+ nl +:+
  "  <type>running</type>" +:+ nl +:+
  "  <trkseg>" +:+ nl +:+
  String.concat "" (map trkpt_text pts) +:+
  "  </trkseg>" +:+ nl +:+
  "</trk>" +:+ nl.

(** A quarter of a second and 0.95 seconds past 09:30:15. *)
Definition sample_later : Z := sample_now + 700000.

(** [c not in s] *)
Fixpoint no_char (c : ascii) (s : string) : bool :=
  match s with
  | EmptyString => true
  | String d s' => negb (Ascii.eqb d c) && no_char c s'
  end.

(** The events of a run: what the trace of [w'] holds after that of [w]. *)
Definition new_events (w w' : world) : list event :=
  drop (length (trace w)) (trace w').

(** The line that ends a run that uploaded its file. *)
Definition upload_complete : event := Stdout "✅ Upload complete!".

(** The events of an upload that goes through. *)
Definition upload_session (u p path : string) : list event :=
  [ NetLogin u p; Stdout "✅ Logged in to Garmin Connect";
    Stdout ("Uploading " +:+ path +:+ " as a running activity...");
    NetUpload path; upload_complete ].

(** The network calls among the events, in order. *)
Definition network_calls (evs : list event) : list event := List.filter is_network evs.

(** Every character of [s] is a period. *)
Fixpoint all_dots (s : string) : bool :=
  match s with
  | EmptyString => true
  | String c s' => Ascii.eqb c "." && all_dots s'
  end.

(** A world whose credentials are in the .env file only. *)
Definition dotenv_world : world :=
  World sample_draws 0 sample_now {[ "run.gpx" := File "<gpx/>" ]} ∅
        [("GARMIN_USERNAME", "runner@example.com"); ("GARMIN_PASSWORD", "secret")]
        (λ _ _, None) (λ _, None) [].

(** A world whose environment and .env file disagree. *)
Definition both_world : world :=
  World sample_draws 0 sample_now {[ "run.gpx" := File "<gpx/>" ]}
        {[ "GARMIN_USERNAME" := "runner@example.com"; "GARMIN_PASSWORD" := "secret" ]}
        [("GARMIN_USERNAME", "other@example.com"); ("GARMIN_PASSWORD", "hunter2")]
        (λ _ _, None) (λ _, None) [].


(** A decimal numeral with [p] digits after the point: an optional minus
    sign, at least one digit, the point, [p] digits. *)
Definition decimal (p : nat) (s : string) : Prop :=
  ∃ sign whole frac,
    s = sign +:+ whole +:+ "." +:+ frac ∧
    (sign = "" ∨ sign = "-") ∧
    whole ≠ "" ∧ all_digits whole = true ∧
    String.length frac = p ∧ all_digits frac = true.

(** A point of the sample run. *)
Definition sample_point : track_point float :=
  TrackPoint 54.595339290893243%float (-5.9224310397613493)%float
             20.753314603423611%float sample_now 147 120.

(** [datetime.py]'s [_is_leap], [_days_before_year], [_days_before_month]
    and [_ymd2ord]: the ordinal of a date. *)
Definition is_leap (year : Z) : bool :=
  (year mod 4 =? 0) && (negb (year mod 100 =? 0) || (year mod 400 =? 0)).

Definition days_before_year (year : Z) : Z :=
  let y := year - 1 in y * 365 + y / 4 - y / 100 + y / 400.

Definition days_before_month (year month : Z) : Z :=
  table DAYS_BEFORE_MONTH month + (if (2 <? month) && is_leap year then 1 else 0).

Definition ymd2ord (year month day : Z) : Z :=
  days_before_year year + days_before_month year month + day.

(** The last part of [_ord2ymd]: month and day of day [n] (from 0) of a
    year. *)
Definition month_day (leapyear : bool) (n : Z) : Z * Z :=
  let month := Z.shiftr (n + 50) 5 in
  let preceding :=
    table DAYS_BEFORE_MONTH month + (if (2 <? month) && leapyear then 1 else 0) in
  if n <? preceding then
    let month := month - 1 in
    let preceding :=
      preceding
      - (table DAYS_IN_MONTH month + (if (month =? 2) && leapyear then 1 else 0)) in
    (month, n - preceding + 1)
  else (month, n - preceding + 1).

(** Day [n] of a year: month and day are in range and count back to
    [n]. *)
Definition month_day_ok (leapyear : bool) (n : Z) : bool :=
  match month_day leapyear n with
  | (m, d) =>
      (1 <=? m) && (m <=? 12) && (1 <=? d) && (d <=? 31) &&
      (table DAYS_BEFORE_MONTH m + (if (2 <? m) && leapyear then 1 else 0) + d =? n + 1)
  end.

(** [f] holds of the [k] integers from [r] on. *)
Fixpoint all_from (k : nat) (r : Z) (f : Z → bool) : bool :=
  match k with
  | O => true
  | S k' => if f r then all_from k' (r + 1) f else false
  end.

(** One second after [sample_now]. *)
Definition sample_next_second : Z := sample_now + 1000000.

(** * Theorems *)

(** ** The monad *)

Lemma bind_Ok {A B} (m : M A) (f : A → M B) w b w' :
  (m ≫= f) w = (Ok b, w') → ∃ a w1, m w = (Ok a, w1) ∧ f a w1 = (Ok b, w').
Proof.
  unfold mbind, M_bind. destruct (m w) as [[a|e] w1]; intros H.
  - eauto.
  - discriminate.
Qed.

Lemma bind_Raise {A B} (m : M A) (f : A → M B) w e w' :
  m w = (Raise e, w') → (m ≫= f) w = (Raise e, w').
Proof. unfold mbind, M_bind. intros ->. reflexivity. Qed.

Lemma bind_step {A B} (m : M A) (f : A → M B) w a w1 :
  m w = (Ok a, w1) → (m ≫= f) w = f a w1.
Proof. unfold mbind, M_bind. intros ->. reflexivity. Qed.

Lemma lift_Ok {A} (o : outcome A) w a w' :
  lift o w = (Ok a, w') → o = Ok a ∧ w' = w.
Proof. unfold lift. intros [= -> ->]. auto. Qed.

Lemma consume_consume n m w : consume n (consume m w) = consume (m + n) w.
Proof. unfold consume. simpl. f_equal. lia. Qed.

Lemma consume_0 w : consume 0 w = w.
Proof. destruct w. unfold consume. simpl. f_equal. lia. Qed.

Section Walk.
Context `{PF : PyFloat}.

Lemma uniform_run a b w :
  uniform a b w = (Ok (uniform_at a b (unit_of_raw (draw w 0))), consume 1 w).
Proof.
  unfold uniform, random, next_raw, mbind, M_bind, mret, M_ret, draw, consume.
  simpl. repeat f_equal; lia.
Qed.

Lemma randint_Ok a b w x w' :
  randint a b w = (Ok x, w') → a ≤ x ≤ b ∧ w' = consume 1 w.
Proof.
  unfold randint. destruct (decide (a ≤ b)) as [Hab|Hab]; [|discriminate].
  unfold next_raw, mbind, M_bind, mret, M_ret. intros [= <- <-]. split.
  - pose proof (Z.mod_pos_bound (rng w (rng_pos w)) (b + 1 - a)). lia.
  - unfold consume. f_equal. lia.
Qed.

Lemma math_1_Ok (libm : num → num) (x r : num) :
  math_1 libm x = Ok r → r = libm x.
Proof.
  unfold math_1. destruct (_ && _); [discriminate|].
  destruct (_ && _); [discriminate|]. intros [= <-]. reflexivity.
Qed.

(** One iteration of the loop, when it raises nothing. *)
Lemma walk_step_Ok a dist delta_t time0 i st w st' w' :
  walk_step a dist delta_t time0 i st w = (Ok st', w') →
  ∃ pt,
    w_points st' = w_points st ++ [pt] ∧
    w_lat st' = pt_lat pt ∧ w_lon st' = pt_lon pt ∧
    random_walk_step dist (unit_of_raw (draw w 0)) (unit_of_raw (draw w 1))
      (w_bearing st) (w_lat st) (w_lon st) (w_bearing st') (pt_lat pt) (pt_lon pt) ∧
    point_ok a delta_t time0 i pt ∧
    w' = consume 4 w.
Proof.
  unfold walk_step. intros H.
  rewrite (bind_step _ _ _ _ _ (uniform_run _ _ w)) in H.
  rewrite (bind_step _ _ _ _ _ (uniform_run _ _ _)) in H.
  apply bind_Ok in H as (cb & w1 & [Hcb ->]%lift_Ok & H).
  apply bind_Ok in H as (sb & w1 & [Hsb ->]%lift_Ok & H).
  apply bind_Ok in H as (cl & w1 & [Hcl ->]%lift_Ok & H).
  apply bind_Ok in H as (dlon & w1 & [Hdlon ->]%lift_Ok & H).
  apply bind_Ok in H as (di & w1 & [Hdi ->]%lift_Ok & H).
  apply bind_Ok in H as (t & w1 & [Ht ->]%lift_Ok & H).
  apply bind_Ok in H as (hr & w1 & [Hhr ->]%randint_Ok & H).
  rewrite (bind_step _ _ _ _ _ (uniform_run _ _ _)) in H.
  unfold mret, M_ret in H. injection H as <- <-.
  apply math_1_Ok in Hcb as ->. apply math_1_Ok in Hsb as ->.
  apply math_1_Ok in Hcl as ->. unfold py_div in Hdlon.
  destruct (is_zero _) in Hdlon; [discriminate|]. injection Hdlon as <-.
  unfold timedelta_mul, timedelta_check in Hdi.
  destruct (decide _) in Hdi; [|discriminate]. injection Hdi as <-.
  unfold datetime_add in Ht.
  destruct (decide _) in Ht; [|discriminate]. injection Ht as <-.
  eexists. simpl. split; [reflexivity|]. split; [reflexivity|]. split; [reflexivity|].
  split; [|split].
  - unfold random_walk_step, uniform_at, draw; simpl.
    rewrite !Nat.add_0_r. auto.
  - unfold point_ok; simpl. split; [reflexivity|]. split; [exact Hhr|].
    split; [reflexivity|]. eauto.
  - rewrite !consume_consume. reflexivity.
Qed.

Lemma walk_Ok a dist delta_t time0 n : ∀ i st w st' w',
  walk a dist delta_t time0 n i st w = (Ok st', w') →
  ∃ pts,
    w_points st' = w_points st ++ pts ∧
    length pts = n ∧
    walk_chain dist (w_bearing st) (w_lat st) (w_lon st) pts ∧
    (∀ j pt, pts !! j = Some pt → point_ok a delta_t time0 (i + Z.of_nat j) pt) ∧
    w' = consume (4 * n) w.
Proof.
  induction n as [|n IH]; intros i st w st' w' H; simpl in H.
  - unfold mret, M_ret in H. injection H as <- <-.
    exists []. rewrite app_nil_r, consume_0.
    split; [reflexivity|]. split; [reflexivity|]. split; [constructor|].
    split; [|reflexivity]. intros [|?] ? ?; discriminate.
  - apply bind_Ok in H as (st1 & w1 & Hstep & H).
    apply walk_step_Ok in Hstep as (pt & Hpts & Hlat & Hlon & Hrw & Hpt & ->).
    apply IH in H as (pts & Hpts' & Hlen & Hchain & Hall & ->).
    exists (pt :: pts). split; [|split; [|split; [|split]]].
    + rewrite Hpts', Hpts, <- app_assoc. reflexivity.
    + simpl. congruence.
    + rewrite Hlat, Hlon in Hchain. econstructor; eassumption.
    + intros [|j] q Hq; simpl in Hq.
      * injection Hq as <-. rewrite Z.add_0_r. exact Hpt.
      * replace (i + Z.of_nat (S j)) with (i + 1 + Z.of_nat j) by lia. auto.
    + rewrite consume_consume. f_equal. lia.
Qed.

(** What a call that raises nothing has computed. *)
Lemma generate_track_Ok a w trk w' :
  generate_track a w = (Ok trk, w') →
  ∃ n dist secs delta_t,
    int_of_float (total_distance_km a ⊠ of_int (points_per_km a)) = Ok n ∧
    div_by_int (total_distance_km a) n = Ok dist ∧
    div_by_int (of_int (6 * 60)) (points_per_km a) = Ok secs ∧
    timedelta_seconds secs = Ok delta_t ∧
    trk_time0 trk = now w ∧
    length (trk_points trk) = Z.to_nat n ∧
    walk_chain dist
      (uniform_at (of_int 0) (of_int 2 ⊠ fpi) (unit_of_raw (draw w 2)))
      (base_lat a ⊞ uniform_at (fopp (of_dec 1 3)) (of_dec 1 3) (unit_of_raw (draw w 0)))
      (base_lon a ⊞ uniform_at (fopp (of_dec 1 3)) (of_dec 1 3) (unit_of_raw (draw w 1)))
      (trk_points trk) ∧
    (∀ j pt, trk_points trk !! j = Some pt →
             point_ok a delta_t (now w) (Z.of_nat j) pt) ∧
    w' = consume (3 + 4 * Z.to_nat n) w.
Proof.
  unfold generate_track. intros H.
  apply bind_Ok in H as (n & w1 & [Hn ->]%lift_Ok & H).
  apply bind_Ok in H as (dist & w1 & [Hdist ->]%lift_Ok & H).
  apply bind_Ok in H as (secs & w1 & [Hsecs ->]%lift_Ok & H).
  apply bind_Ok in H as (delta_t & w1 & [Hdelta ->]%lift_Ok & H).
  rewrite (bind_step _ _ _ _ _ (uniform_run _ _ w)) in H.
  rewrite (bind_step _ _ _ _ _ (uniform_run _ _ _)) in H.
  rewrite (bind_step _ _ _ _ _ (uniform_run _ _ _)) in H.
  unfold utcnow at 1 in H. unfold mbind at 1, M_bind at 1 in H.
  apply bind_Ok in H as (st & w1 & Hwalk & H).
  unfold mret, M_ret in H. injection H as <- <-.
  apply walk_Ok in Hwalk as (pts & Hpts & Hlen & Hchain & Hall & ->).
  simpl in Hpts, Hchain, Hall. subst pts.
  exists n, dist, secs, delta_t.
  rewrite !consume_consume in *.
  unfold draw in Hchain. cbn [rng rng_pos consume] in Hchain.
  rewrite !Nat.add_0_r in Hchain.
  cbn [trk_time0 trk_points now consume] in *. unfold draw.
  replace (rng_pos w + 1 + 1)%nat with (rng_pos w + 2)%nat in Hchain by lia.
  rewrite Nat.add_0_r.
  repeat (split; [assumption || reflexivity|]).
  reflexivity.
Qed.

End Walk.

(** ** Point count (C2, C10) *)

(** The defaults multiply out to exactly 100 points, and one kilometre at
    five points per kilometre to 5, whatever libm is. *)
Lemma default_total_points libm_cos libm_sin :
  let PF := binary64 libm_cos libm_sin in
  int_of_float (total_distance_km default_args ⊠ of_int (points_per_km default_args))
  = Ok 100.
Proof. reflexivity. Qed.

Lemma one_km_five_points libm_cos libm_sin :
  let PF := binary64 libm_cos libm_sin in
  int_of_float ((1%float : num) ⊠ of_int 5) = Ok 5.
Proof. reflexivity. Qed.

(** C2: when [int(total_distance_km * points_per_km)] is [n ≥ 1], a
    generated track has exactly [n] track points; 100 for the defaults
    (10.0 km at 10 points per km) and 5 for 1.0 km at 5 points per km. *)
Theorem track_point_count :
  (∀ (PF : PyFloat) (a : args num) (n : Z) w trk w',
     int_of_float (total_distance_km a ⊠ of_int (points_per_km a)) = Ok n →
     1 ≤ n →
     generate_track a w = (Ok trk, w') →
     length (trk_points trk) = Z.to_nat n) ∧
  (∀ libm_cos libm_sin w trk w',
     generate_track (PF := binary64 libm_cos libm_sin) default_args w = (Ok trk, w') →
     length (trk_points trk) = 100%nat) ∧
  (∀ libm_cos libm_sin (a : args float) w trk w',
     total_distance_km a = 1%float → points_per_km a = 5 →
     generate_track (PF := binary64 libm_cos libm_sin) a w = (Ok trk, w') →
     length (trk_points trk) = 5%nat).
Proof.
  split; [|split].
  - intros PF a n w trk w' Hn _ H.
    apply generate_track_Ok in H as (n' & ? & ? & ? & Hn' & _ & _ & _ & _ & Hlen & _).
    congruence.
  - intros c s w trk w' H.
    apply generate_track_Ok in H as (n' & ? & ? & ? & Hn' & _ & _ & _ & _ & Hlen & _).
    vm_compute in Hn'. injection Hn' as <-. exact Hlen.
  - intros c s a w trk w' Htd Hppk H.
    apply generate_track_Ok in H as (n' & ? & ? & ? & Hn' & _ & _ & _ & _ & Hlen & _).
    change (@num (binary64 c s)) with float in Hn'.
    rewrite Htd, Hppk in Hn'. vm_compute in Hn'. injection Hn' as <-. exact Hlen.
Qed.

(** The default call on the sample world produces its 100 points. *)
Lemma track_point_count_witness :
  ∃ trk w',
    generate_track (PF := b64) default_args sample_world = (Ok trk, w') ∧
    length (trk_points trk) = Z.to_nat 100.
Proof.
  assert (Hok : is_ok (generate_track (PF := b64) default_args sample_world).1 = true)
    by (vm_compute; reflexivity).
  destruct (generate_track (PF := b64) default_args sample_world)
    as [[trk|e] w'] eqn:E; [|discriminate Hok].
  exists trk, w'. split; [reflexivity|].
  apply (proj1 track_point_count b64 default_args 100 sample_world trk w').
  - vm_compute. reflexivity.
  - lia.
  - exact E.
Defined.

(** C10: when [int(total_distance_km * points_per_km)] is 0, as for 0.5 km
    at 1 point per km, [total_distance_km / total_points] raises
    [ZeroDivisionError] and the call ends there: nothing was drawn,
    written or printed. *)
Theorem zero_points_raises :
  (∀ (PF : PyFloat) (a : args num) w,
     int_of_float (total_distance_km a ⊠ of_int (points_per_km a)) = Ok 0 →
     generate_run_gpx a w = (Raise ZeroDivisionError, w)) ∧
  (∀ libm_cos libm_sin,
     let PF := binary64 libm_cos libm_sin in
     int_of_float ((0.5%float : num) ⊠ of_int 1) = Ok 0).
Proof.
  split.
  - intros PF a w H. unfold generate_run_gpx.
    apply bind_Raise. unfold generate_track.
    rewrite (bind_step _ _ w 0 w) by (unfold lift; rewrite H; reflexivity).
    apply bind_Raise. reflexivity.
  - reflexivity.
Qed.

(** Half a kilometre at one point per kilometre, on the sample world. *)
Lemma zero_points_raises_witness :
  let a : args float := Args 54.5%float (-5.9)%float 0.5%float 1 120 150 120 in
  generate_run_gpx (PF := b64) a sample_world = (Raise ZeroDivisionError, sample_world).
Proof.
  intros a. apply (proj1 zero_points_raises b64 a sample_world).
  vm_compute. reflexivity.
Defined.

(** ** Exact arithmetic: the ranges of the draws *)





(** ** The random walk (C1) *)



(** ** Heart rate, elevation, cadence (C4) *)

(** The two extreme draws in binary64: elevation 10.0 at the lowest and
    29.999999999999996 at the highest value of [random.random()]. *)
Lemma elevation_extremes_binary64 libm_cos libm_sin :
  let PF := binary64 libm_cos libm_sin in
  uniform_at (of_int 10) (of_int 30) (unit_of_raw 0) = 10%float ∧
  uniform_at (of_int 10) (of_int 30) (unit_of_raw (2 ^ 53 - 1))
  = 0x1.dffffffffffffp+4%float.
Proof. split; reflexivity. Qed.



(** ** Timestamps (C3) *)





(** ** The library models against CPython *)

(** [date.fromordinal] on both sides of month, year, leap-year and century
    boundaries. *)
Lemma ord2ymd_examples :
  ord2ymd 1 = (1, 1, 1) ∧ ord2ymd 59 = (1, 2, 28) ∧ ord2ymd 60 = (1, 3, 1) ∧
  ord2ymd 365 = (1, 12, 31) ∧ ord2ymd 366 = (2, 1, 1) ∧ ord2ymd 1461 = (4, 12, 31) ∧
  ord2ymd 36524 = (100, 12, 31) ∧ ord2ymd 36525 = (101, 1, 1) ∧
  ord2ymd 146097 = (400, 12, 31) ∧ ord2ymd 146098 = (401, 1, 1) ∧
  ord2ymd 693655 = (1900, 3, 1) ∧ ord2ymd 730179 = (2000, 2, 29) ∧
  ord2ymd 738945 = (2024, 2, 29) ∧ ord2ymd 739251 = (2024, 12, 31) ∧
  ord2ymd 3652059 = (9999, 12, 31).
Proof. repeat split. Qed.

(** [format(x, '.pf')] as CPython prints it. *)
Lemma format_f_examples :
  let PF := b64 in
  format_f 15 (54.595339290893243%float : num) = "54.595339290893243" ∧
  format_f 15 ((-5.9224310397613493)%float : num) = "-5.922431039761349" ∧
  format_f 6 (20.753314603423611%float : num) = "20.753315" ∧
  format_f 6 (29.9999999%float : num) = "30.000000" ∧
  format_f 6 ((-1e-7)%float : num) = "-0.000000" ∧
  format_f 6 (0.0000015%float : num) = "0.000002" ∧
  format_f 6 (0.0000025%float : num) = "0.000003" ∧
  format_f 3 (1e22%float : num) = "10000000000000000000000.000" ∧
  format_f 0 (2.5%float : num) = "2" ∧
  format_f 2 (0.125%float : num) = "0.12" ∧
  format_f 2 (123456789.125%float : num) = "123456789.12" ∧
  format_f 15 (PrimFloat.nan : num) = "nan" ∧
  format_f 15 (PrimFloat.neg_infinity : num) = "-inf".
Proof. repeat split; vm_compute; reflexivity. Qed.

(** [timedelta(seconds=x)] and the literals of the source. *)
Lemma binary64_examples :
  let PF := b64 in
  timedelta_seconds (of_int 360 ⧄ of_int 7) = Ok 51428571 ∧
  timedelta_seconds (of_int 360 ⧄ of_int 1000000000) = Ok 0 ∧
  int_of_float ((0.7%float : num) ⊠ of_int 10) = Ok 7 ∧
  int_of_float ((-3.7)%float : num) = Ok (-3) ∧
  of_dec 54597311099110506 15 = 54.597311099110506%float ∧
  of_dec 59302454388246995 16 = 5.9302454388246995%float ∧
  of_dec 110574 3 = 110.574%float ∧ of_dec 111320 3 = 111.32%float ∧
  of_dec 95 2 = 0.95%float ∧ of_dec 105 2 = 1.05%float ∧ of_dec 1 3 = 0.001%float.
Proof. repeat split; vm_compute; reflexivity. Qed.

(** ** The written file (C6) *)

Lemma length_app_string (s t : string) :
  String.length (s +:+ t) = (String.length s + String.length t)%nat.
Proof. induction s as [|c s IH]; simpl; [reflexivity|]. rewrite IH. reflexivity. Qed.

Lemma all_digits_app (s t : string) :
  all_digits (s +:+ t) = all_digits s && all_digits t.
Proof.
  induction s as [|c s IH]; simpl; [reflexivity|].
  rewrite IH, andb_assoc. reflexivity.
Qed.

Lemma fixed_digits_length (p : nat) : ∀ n, String.length (fixed_digits p n) = p.
Proof.
  induction p as [|p IH]; intros n; simpl; [reflexivity|].
  rewrite length_app_string, IH. simpl. lia.
Qed.

Lemma digit_is_digit (n : Z) : all_digits (digit (n mod 10)) = true.
Proof.
  pose proof (Z.mod_pos_bound n 10 ltac:(lia)) as H.
  assert (Hd : n mod 10 = 0 ∨ n mod 10 = 1 ∨ n mod 10 = 2 ∨ n mod 10 = 3 ∨
               n mod 10 = 4 ∨ n mod 10 = 5 ∨ n mod 10 = 6 ∨ n mod 10 = 7 ∨
               n mod 10 = 8 ∨ n mod 10 = 9) by lia.
  destruct Hd as [-> | [-> | [-> | [-> | [-> | [-> | [-> | [-> | [-> | ->]]]]]]]]];
    reflexivity.
Qed.

Lemma fixed_digits_all_digits (p : nat) : ∀ n, all_digits (fixed_digits p n) = true.
Proof.
  induction p as [|p IH]; intros n; simpl; [reflexivity|].
  rewrite all_digits_app, IH, digit_is_digit. reflexivity.
Qed.

(** The two formats of the source, field by field. *)
Lemma output_path_fields (t : Z) :
  output_path t =
  "output/run_" +:+ fixed_digits 4 (dt_year t) +:+ fixed_digits 2 (dt_month t) +:+
  fixed_digits 2 (dt_day t) +:+ "_" +:+ fixed_digits 2 (dt_hour t) +:+
  fixed_digits 2 (dt_minute t) +:+ fixed_digits 2 (dt_second t) +:+ ".gpx".
Proof. reflexivity. Qed.

Lemma time_text_fields (t : Z) :
  time_text t =
  fixed_digits 4 (dt_year t) +:+ "-" +:+ fixed_digits 2 (dt_month t) +:+ "-" +:+
  fixed_digits 2 (dt_day t) +:+ "T" +:+ fixed_digits 2 (dt_hour t) +:+ ":" +:+
  fixed_digits 2 (dt_minute t) +:+ ":" +:+ fixed_digits 2 (dt_second t) +:+ ".000Z".
Proof. reflexivity. Qed.

Lemma output_path_not_output (t : Z) : output_path t ≠ "output".
Proof. rewrite output_path_fields. simpl. discriminate. Qed.

(** Lines 99-104, from a world [w1] in which ['output'] is no regular file
    and the path is no directory. *)
Lemma write_phase (fn content : string) (w1 : world) :
  fn ≠ "output" →
  (∀ c, fs w1 !! "output" ≠ Some (File c)) →
  fs w1 !! fn ≠ Some Dir →
  (makedirs_exist_ok "output";; write_file fn content;;
   print ("GPX file saved to " +:+ fn);; mret fn) w1
  = (Ok fn,
     World (rng w1) (rng_pos w1) (now w1)
           (<[fn := File content]> (<["output" := Dir]> (fs w1)))
           (environ w1) (dotenv w1) (garmin_login w1) (garmin_upload w1)
           (trace w1 ++ [Makedirs "output"; WriteFile fn content;
                         Stdout ("GPX file saved to " +:+ fn)])).
Proof.
  intros Hne Hout Hfn.
  unfold makedirs_exist_ok, write_file, print, emit, get_world, set_fs,
    mbind, M_bind, mret, M_ret, raise. simpl.
  destruct (fs w1 !! "output") as [[|c]|] eqn:Eo;
    try (exfalso; exact (Hout c eq_refl)); simpl;
    rewrite lookup_insert_ne by (intros Heq; apply Hne; symmetry; exact Heq);
    destruct (fs w1 !! fn) as [[|c]|] eqn:Ef;
    try (exfalso; exact (Hfn eq_refl)); simpl;
    rewrite <- !app_assoc; reflexivity.
Qed.

Lemma app_string_assoc (s t u : string) : (s +:+ t) +:+ u = s +:+ (t +:+ u).
Proof.
  induction s as [|c s IH]; [reflexivity|].
  change (String c ((s +:+ t) +:+ u) = String c (s +:+ (t +:+ u))).
  f_equal. exact IH.
Qed.

Lemma output_path_digits (t : Z) :
  output_path t = "output/run_" +:+ date_digits t +:+ "_" +:+ clock_digits t +:+ ".gpx".
Proof.
  rewrite output_path_fields. unfold date_digits, clock_digits.
  rewrite !app_string_assoc. reflexivity.
Qed.

Lemma date_digits_shape (t : Z) :
  String.length (date_digits t) = 8%nat ∧ all_digits (date_digits t) = true.
Proof.
  unfold date_digits.
  rewrite !length_app_string, !all_digits_app, !fixed_digits_length,
    !fixed_digits_all_digits. split; reflexivity.
Qed.

Lemma clock_digits_shape (t : Z) :
  String.length (clock_digits t) = 6%nat ∧ all_digits (clock_digits t) = true.
Proof.
  unfold clock_digits.
  rewrite !length_app_string, !all_digits_app, !fixed_digits_length,
    !fixed_digits_all_digits. split; reflexivity.
Qed.

(** A finite number is printed with exactly [p] digits after the point. *)
Lemma format_f_finite `{PF : PyFloat} (p : nat) (x : num) :
  is_nan x = false → is_inf x = false →
  ∃ whole frac,
    format_f (S p) x = whole +:+ "." +:+ frac ∧
    String.length frac = S p ∧ all_digits frac = true.
Proof.
  intros Hnan Hinf. unfold format_f. rewrite Hnan, Hinf.
  eexists (_ +:+ _), _. rewrite app_string_assoc.
  split; [reflexivity|]. split.
  - apply fixed_digits_length.
  - apply fixed_digits_all_digits.
Qed.

(** A whole call of [generate_run_gpx] that raises nothing. *)
Lemma generate_run_gpx_Ok `{PF : PyFloat} (a : args num) w trk w1 :
  generate_track a w = (Ok trk, w1) →
  (∀ c, fs w !! "output" ≠ Some (File c)) →
  fs w !! output_path (now w) ≠ Some Dir →
  generate_run_gpx a w
  = (Ok (output_path (now w)),
     World (rng w) (rng_pos w1) (now w)
           (<[output_path (now w) := File (document trk)]> (<["output" := Dir]> (fs w)))
           (environ w) (dotenv w) (garmin_login w) (garmin_upload w)
           (trace w ++ [Makedirs "output"; WriteFile (output_path (now w)) (document trk);
                        Stdout ("GPX file saved to " +:+ output_path (now w))])).
Proof.
  intros H Hout Hfn. unfold generate_run_gpx.
  rewrite (bind_step _ _ _ _ _ H).
  apply generate_track_Ok in H
    as (n & dist & secs & delta_t & _ & _ & _ & _ & Ht0 & _ & _ & _ & ->).
  rewrite Ht0.
  rewrite write_phase; [reflexivity|apply output_path_not_output|exact Hout|exact Hfn].
Qed.

(** C6: the file goes to [output/run_<YYYYMMDD>_<HHMMSS>.gpx], the digits
    being those of the start time, which is also the metadata time and the
    time of the first point; the directory is made, the path is printed in
    the confirmation and returned. *)
Theorem generated_file_path :
  ∀ (PF : PyFloat) (a : args num) w trk w1,
    generate_track a w = (Ok trk, w1) →
    (∀ c, fs w !! "output" ≠ Some (File c)) →
    fs w !! output_path (now w) ≠ Some Dir →
    let fn := "output/run_" +:+ date_digits (now w) +:+ "_" +:+
              clock_digits (now w) +:+ ".gpx" in
    ∃ w2,
      generate_run_gpx a w = (Ok fn, w2) ∧
      (String.length (date_digits (now w)) = 8%nat ∧ all_digits (date_digits (now w)) = true) ∧
      (String.length (clock_digits (now w)) = 6%nat ∧ all_digits (clock_digits (now w)) = true) ∧
      trk_time0 trk = now w ∧
      (∀ p, trk_points trk !! O = Some p → pt_time p = now w) ∧
      trace w2 = trace w ++ [Makedirs "output"; WriteFile fn (document trk);
                             Stdout ("GPX file saved to " +:+ fn)] ∧
      fs w2 !! "output" = Some Dir ∧
      fs w2 !! fn = Some (File (document trk)).
Proof.
  intros PF a w trk w1 H Hout Hfn fn.
  assert (Hpath : output_path (now w) = fn) by apply output_path_digits.
  pose proof (generate_run_gpx_Ok a w trk w1 H Hout Hfn) as Hrun.
  rewrite Hpath in Hrun.
  eexists. split; [exact Hrun|].
  split; [apply date_digits_shape|]. split; [apply clock_digits_shape|].
  apply generate_track_Ok in H
    as (n & dist & secs & delta_t & _ & _ & _ & _ & Ht0 & _ & _ & Hall & _).
  split; [exact Ht0|]. split.
  - intros p Hp. destruct (Hall O p Hp) as (Ht & _). rewrite Ht. simpl. lia.
  - split; [reflexivity|]. simpl. split.
    + rewrite lookup_insert_ne, lookup_insert_eq; [reflexivity|].
      rewrite <- Hpath. apply output_path_not_output.
    + apply lookup_insert_eq.
Qed.

(** The default call on the sample world, whose file system is empty. *)
Lemma generated_file_path_witness :
  ∃ w2, generate_run_gpx (PF := b64) default_args sample_world
        = (Ok "output/run_20240517_093015.gpx", w2) ∧
        fs w2 !! "output" = Some Dir.
Proof.
  assert (Hok : is_ok (generate_track (PF := b64) default_args sample_world).1 = true)
    by (vm_compute; reflexivity).
  destruct (generate_track (PF := b64) default_args sample_world)
    as [[trk|e] w1] eqn:E; [|discriminate Hok].
  destruct (generated_file_path b64 default_args sample_world trk w1 E)
    as (w2 & Hrun & _ & _ & _ & _ & _ & Hdir & _).
  - intros c. simpl. rewrite lookup_empty. discriminate.
  - simpl. rewrite lookup_empty. discriminate.
  - exists w2. split; [exact Hrun|exact Hdir].
Defined.

(** ** The document (C5) *)

Section Document.
Context `{PF : PyFloat}.

Lemma collect_trkpt_first (pt : track_point num) :
  collect_namespaces namespace_map (trkpt_element pt) [] = ns0_table.
Proof. reflexivity. Qed.

Lemma collect_trkpt_next (pt : track_point num) :
  collect_namespaces namespace_map (trkpt_element pt) ns0_table = ns0_table.
Proof. reflexivity. Qed.

Lemma collect_trkpts_next (pts : list (track_point num)) :
  fold_left (λ acc c, collect_namespaces namespace_map c acc)
            (map trkpt_element pts) ns0_table = ns0_table.
Proof.
  induction pts as [|pt pts IH]; [reflexivity|].
  cbn [map fold_left]. rewrite collect_trkpt_next. exact IH.
Qed.

Lemma collect_trk (pt : track_point num) (pts : list (track_point num)) :
  collect_namespaces namespace_map (trk_element (pt :: pts)) [] = ns0_table.
Proof.
  change (fold_left (λ acc c, collect_namespaces namespace_map c acc)
            (map trkpt_element pts)
            (collect_namespaces namespace_map (trkpt_element pt) []) = ns0_table).
  rewrite collect_trkpt_first. apply collect_trkpts_next.
Qed.

End Document.

(** [ET.register_namespace('ns3', NS_NS3)] would raise [ValueError]: the
    prefixes [ns<digits>] are reserved, so the extension namespace cannot
    be registered under the prefix the header declares. *)
Lemma ns3_cannot_be_registered :
  register_namespace "ns3" NS_NS3 namespace_map = None.
Proof. reflexivity. Qed.

(** C5 (where the code departs from it): the extension namespace is not in
    the registry, so ElementTree gives it the generated prefix [ns0] and
    declares [xmlns:ns0] on [trk]: for every track with at least one point
    the elements are serialized as [ns0:TrackPointExtension], [ns0:hr] and
    [ns0:cad]. The document of a call for two points holds these tags and
    no [ns3:]-prefixed element. *)
Theorem extension_prefix_is_ns0 :
  (∀ (PF : PyFloat) (pt : track_point num) (pts : list (track_point num)),
     let namespaces := collect_namespaces namespace_map (trk_element (pt :: pts)) [] in
     namespaces = [(NS_NS3, "ns0")] ∧
     xmlns_attrs namespaces = [("xmlns:ns0", NS_NS3)] ∧
     qname namespaces (ns3_tag "TrackPointExtension") = "ns0:TrackPointExtension" ∧
     qname namespaces (ns3_tag "hr") = "ns0:hr" ∧
     qname namespaces (ns3_tag "cad") = "ns0:cad") ∧
  (map fst (written (generate_run_gpx (PF := b64) two_points sample_world).2)
   = ["output/run_20240517_093015.gpx"] ∧
   sample_document = expected_document ∧
   contains ("<trk xmlns:ns0=" +:+ dq +:+ NS_NS3 +:+ dq +:+ ">") sample_document = true ∧
   contains "<ns0:TrackPointExtension>" sample_document = true ∧
   contains "<ns0:hr>" sample_document = true ∧
   contains "<ns0:cad>" sample_document = true ∧
   contains "<ns3:" sample_document = false).
Proof.
  split.
  - intros PF pt pts namespaces. subst namespaces. rewrite collect_trk.
    repeat split.
  - repeat split; vm_compute; reflexivity.
Qed.

(** ** The generator stays local *)

Lemma local_only_refl w : local_only w w.
Proof.
  split; [|auto]. exists []. rewrite app_nil_r. split; [reflexivity|constructor].
Qed.

Lemma local_only_trans w1 w2 w3 :
  local_only w1 w2 → local_only w2 w3 → local_only w1 w3.
Proof.
  intros ((e1 & Ht1 & Hf1) & He1 & Hd1 & Hl1 & Hu1)
         ((e2 & Ht2 & Hf2) & He2 & Hd2 & Hl2 & Hu2).
  split.
  - exists (e1 ++ e2). rewrite Ht2, Ht1, app_assoc. split; [reflexivity|].
    apply Forall_app. auto.
  - repeat split; congruence.
Qed.

Lemma tame_ret {A} (a : A) : tame (mret a).
Proof. intros w. split; [apply local_only_refl|]. intros c. discriminate. Qed.

Lemma tame_bind {A B} (m : M A) (f : A → M B) :
  tame m → (∀ a, tame (f a)) → tame (m ≫= f).
Proof.
  intros Hm Hf w. specialize (Hm w). unfold mbind, M_bind.
  destruct (m w) as [[a|e] w1]; simpl in *.
  - destruct Hm as [Hloc _]. destruct (Hf a w1) as [Hloc' Hno].
    split; [eapply local_only_trans; eassumption|exact Hno].
  - destruct Hm as [Hloc Hno]. split; [exact Hloc|].
    intros c Hc. apply (Hno c). injection Hc as ->. reflexivity.
Qed.

Lemma tame_lift {A} (o : outcome A) : no_exit o → tame (lift o).
Proof. intros Ho w. split; [apply local_only_refl|exact Ho]. Qed.

Lemma tame_raise {A} (e : exn) : (∀ c, e ≠ SystemExit c) → tame (raise (A := A) e).
Proof.
  intros He w. split; [apply local_only_refl|].
  intros c [= Hc]. exact (He c Hc).
Qed.

Lemma tame_next_raw : tame next_raw.
Proof.
  intros w. split; [|intros c; discriminate].
  split; [|simpl; auto]. exists []. simpl. rewrite app_nil_r.
  split; [reflexivity|constructor].
Qed.

Lemma tame_utcnow : tame utcnow.
Proof. intros w. split; [apply local_only_refl|intros c; discriminate]. Qed.

Lemma tame_get_world : tame get_world.
Proof. intros w. split; [apply local_only_refl|intros c; discriminate]. Qed.

Lemma tame_set_fs f : tame (set_fs f).
Proof.
  intros w. split; [|intros c; discriminate].
  split; [|simpl; auto]. exists []. simpl. rewrite app_nil_r.
  split; [reflexivity|constructor].
Qed.

Lemma tame_emit (e : event) : is_network e = false → tame (emit e).
Proof.
  intros He w. split; [|intros c; discriminate].
  split; [|simpl; auto]. exists [e]. simpl. split; [reflexivity|].
  constructor; [exact He|constructor].
Qed.

Create HintDb tame.
#[local] Hint Resolve tame_ret tame_lift tame_raise tame_next_raw tame_utcnow
  tame_get_world tame_set_fs tame_emit : tame.

Ltac tame_steps :=
  repeat first
    [ apply tame_bind; [|intros ?]
    | solve [eauto with tame]
    | match goal with |- tame (if ?b then _ else _) => destruct b end
    | match goal with |- tame (match ?x with _ => _ end) => destruct x end ].

Ltac no_exit_cases :=
  intros c;
  repeat match goal with
         | |- context [if ?b then _ else _] => destruct b
         end; discriminate.

Section Tame.
Context `{PF : PyFloat}.

Lemma no_exit_int_of_float x : no_exit (int_of_float x).
Proof. unfold int_of_float. no_exit_cases. Qed.

Lemma no_exit_div_by_int x n : no_exit (div_by_int x n).
Proof. unfold div_by_int. no_exit_cases. Qed.

Lemma no_exit_py_div x y : no_exit (py_div x y).
Proof. unfold py_div. no_exit_cases. Qed.

Lemma no_exit_math_1 libm x : no_exit (math_1 libm x).
Proof. unfold math_1. no_exit_cases. Qed.

Lemma no_exit_timedelta_check us : no_exit (timedelta_check us).
Proof. unfold timedelta_check. no_exit_cases. Qed.

Lemma no_exit_timedelta_seconds x : no_exit (timedelta_seconds x).
Proof.
  unfold timedelta_seconds. intros c.
  destruct (is_nan x); [discriminate|]. destruct (is_inf x); [discriminate|].
  apply no_exit_timedelta_check.
Qed.

Lemma no_exit_datetime_add t d : no_exit (datetime_add t d).
Proof. unfold datetime_add. no_exit_cases. Qed.

Lemma tame_uniform a b : tame (uniform a b).
Proof. unfold uniform, random. tame_steps. Qed.

Lemma tame_randint a b : tame (randint a b).
Proof. unfold randint. tame_steps. Qed.

Lemma tame_walk_step a dist delta_t time0 i st :
  tame (walk_step a dist delta_t time0 i st).
Proof.
  unfold walk_step, math_cos, math_sin, timedelta_mul.
  repeat first
    [ apply tame_uniform | apply tame_randint | apply tame_ret
    | apply tame_bind; [|intros ?]
    | apply tame_lift;
      first [ apply no_exit_math_1 | apply no_exit_py_div
            | apply no_exit_timedelta_check | apply no_exit_datetime_add ] ].
Qed.

Lemma tame_walk a dist delta_t time0 n : ∀ i st,
  tame (walk a dist delta_t time0 n i st).
Proof.
  induction n as [|n IH]; intros i st; simpl.
  - apply tame_ret.
  - apply tame_bind; [apply tame_walk_step|]. intros st'. apply IH.
Qed.

Lemma tame_generate_track a : tame (generate_track a).
Proof.
  unfold generate_track.
  repeat first
    [ apply tame_uniform | apply tame_utcnow | apply tame_walk | apply tame_ret
    | apply tame_bind; [|intros ?]
    | apply tame_lift;
      first [ apply no_exit_int_of_float | apply no_exit_div_by_int
            | apply no_exit_timedelta_seconds ] ].
Qed.

Lemma tame_generate_run_gpx a : tame (generate_run_gpx a).
Proof.
  unfold generate_run_gpx, makedirs_exist_ok, write_file, print.
  apply tame_bind; [apply tame_generate_track|]. intros trk.
  tame_steps; discriminate.
Qed.

End Tame.

(** ** The uploader (C7, C8, C9) *)

(** [upload_to_garmin] refines the upload step of the specification. *)
Lemma upload_to_garmin_run (path : string) (w : world) :
  upload_to_garmin path w
  = (if upload_status path w =? 0 then Ok tt else Raise (SystemExit 1),
     after_upload path w).
Proof.
  unfold upload_to_garmin, after_upload, upload_events, upload_status, credentials,
    accepted_extension, load_dotenv, getenv, client_login, client_upload,
    eprint, print, sys_exit, emit, get_world, set_environ, raise,
    mbind, M_bind, mret, M_ret.
  simpl.
  destruct (merge_dotenv (dotenv w) (environ w) !! "GARMIN_USERNAME") as [[|a u]|];
    destruct (merge_dotenv (dotenv w) (environ w) !! "GARMIN_PASSWORD") as [[|b p]|];
    simpl; try reflexivity.
  destruct (garmin_login w (String a u) (String b p)) as [msg|]; simpl;
    [rewrite <- !app_assoc; reflexivity|].
  destruct (String.eqb (lower (splitext path).2) ".fit");
    destruct (String.eqb (lower (splitext path).2) ".gpx"); simpl;
    try destruct (garmin_upload w path) as [msg|]; simpl;
    rewrite <- !app_assoc; reflexivity.
Qed.

Lemma credentials_missing (w : world) :
  let env := merge_dotenv (dotenv w) (environ w) in
  falsy (env !! "GARMIN_USERNAME") = true ∨ falsy (env !! "GARMIN_PASSWORD") = true →
  credentials w = None.
Proof.
  unfold credentials. simpl.
  destruct (merge_dotenv (dotenv w) (environ w) !! "GARMIN_USERNAME") as [[|a u]|];
    destruct (merge_dotenv (dotenv w) (environ w) !! "GARMIN_PASSWORD") as [[|b p]|];
    simpl; intros [H|H]; try reflexivity; discriminate H.
Qed.

Lemma credentials_present (w : world) (u p : string) :
  let env := merge_dotenv (dotenv w) (environ w) in
  env !! "GARMIN_USERNAME" = Some u → u ≠ "" →
  env !! "GARMIN_PASSWORD" = Some p → p ≠ "" →
  credentials w = Some (u, p).
Proof.
  unfold credentials. simpl. intros -> Hu -> Hp.
  destruct u; [contradiction|]. destruct p; [contradiction|]. reflexivity.
Qed.

(** The writing phase returns only if ['output'] was no regular file and
    the path no directory. *)
Lemma write_phase_Ok (fn content : string) (w1 : world) x w2 :
  fn ≠ "output" →
  (makedirs_exist_ok "output";; write_file fn content;;
   print ("GPX file saved to " +:+ fn);; mret fn) w1 = (Ok x, w2) →
  (∀ c, fs w1 !! "output" ≠ Some (File c)) ∧ fs w1 !! fn ≠ Some Dir.
Proof.
  intros Hne.
  unfold makedirs_exist_ok, write_file, print, emit, get_world, set_fs,
    mbind, M_bind, mret, M_ret, raise. simpl.
  destruct (fs w1 !! "output") as [[|c]|] eqn:Eo; simpl; try discriminate;
    rewrite lookup_insert_ne by (intros Heq; apply Hne; symmetry; exact Heq);
    destruct (fs w1 !! fn) as [[|c]|] eqn:Ef; simpl; try discriminate;
    intros _; split; congruence.
Qed.

Section Uploader.
Context `{PF : PyFloat}.

(** A call of the generator that returns has written one file and printed
    one line, and has left the environment and the service alone. *)
Lemma generate_run_gpx_inv (a : args num) w fn w1 :
  generate_run_gpx a w = (Ok fn, w1) →
  ∃ trk,
    fn = output_path (now w) ∧
    trace w1 = trace w ++ [Makedirs "output"; WriteFile fn (document trk);
                           Stdout ("GPX file saved to " +:+ fn)] ∧
    environ w1 = environ w ∧ dotenv w1 = dotenv w ∧
    garmin_login w1 = garmin_login w ∧ garmin_upload w1 = garmin_upload w.
Proof.
  intros H. pose proof H as H'. unfold generate_run_gpx in H'.
  apply bind_Ok in H' as (trk & w0 & Htrk & Hrest).
  pose proof Htrk as Hinv.
  apply generate_track_Ok in Hinv
    as (n & dist & secs & delta_t & _ & _ & _ & _ & Ht0 & _ & _ & _ & ->).
  apply write_phase_Ok in Hrest as [Hout Hfn]; [|apply output_path_not_output].
  simpl in Hout, Hfn. rewrite Ht0 in Hfn.
  rewrite (generate_run_gpx_Ok a w trk _ Htrk Hout Hfn) in H.
  injection H as <- <-. exists trk. simpl. repeat split.
Qed.

(** Path resolution makes no network call and leaves the environment and
    the service alone. *)
Lemma resolve_path_Ok (file : option string) w path w1 :
  resolve_path file w = (Ok path, w1) →
  ∃ evs,
    trace w1 = trace w ++ evs ∧
    Forall (λ e, is_network e = false) evs ∧
    (file = None →
     ∃ doc, evs = [Makedirs "output"; WriteFile path doc;
                   Stdout ("GPX file saved to " +:+ path)]) ∧
    credentials w1 = credentials w ∧
    garmin_login w1 = garmin_login w ∧ garmin_upload w1 = garmin_upload w.
Proof.
  intros H.
  assert (Hgen : resolve_path file w = generate_run_gpx default_args w →
    ∃ evs, trace w1 = trace w ++ evs ∧ Forall (λ e, is_network e = false) evs ∧
      (file = None → ∃ doc, evs = [Makedirs "output"; WriteFile path doc;
                                   Stdout ("GPX file saved to " +:+ path)]) ∧
      credentials w1 = credentials w ∧
      garmin_login w1 = garmin_login w ∧ garmin_upload w1 = garmin_upload w).
  { intros Heq. rewrite Heq in H.
    apply generate_run_gpx_inv in H as (trk & _ & Htr & Henv & Hdot & Hlog & Hup).
    eexists. split; [exact Htr|]. split; [repeat constructor|].
    split; [eauto|]. unfold credentials. rewrite Henv, Hdot. auto. }
  destruct file as [[|c s]|]; try (apply Hgen; reflexivity).
  simpl in H. unfold isfile, get_world, eprint, emit, sys_exit, raise,
    mbind, M_bind, mret, M_ret in H. simpl in H.
  destruct (fs w !! String c s) as [[|content]|]; try discriminate H.
  injection H as <- <-. exists []. rewrite app_nil_r.
  split; [reflexivity|]. split; [constructor|]. split; [discriminate|]. auto.
Qed.

(** Whatever its outcome, path resolution stays local, and it exits the
    process with status 1 only. *)
Lemma resolve_path_any (file : option string) w :
  local_only w (resolve_path file w).2 ∧
  ∀ c, (resolve_path file w).1 = Raise (SystemExit c) → c = 1.
Proof.
  assert (Hgen : local_only w (generate_run_gpx default_args w).2 ∧
                 ∀ c, (generate_run_gpx default_args w).1 = Raise (SystemExit c) → c = 1).
  { destruct (tame_generate_run_gpx default_args w) as [Hloc Hno].
    split; [exact Hloc|]. intros c Hc. destruct (Hno c Hc). }
  destruct file as [[|c s]|]; try exact Hgen.
  simpl. unfold isfile, get_world, eprint, emit, sys_exit, raise,
    mbind, M_bind, mret, M_ret. simpl.
  destruct (fs w !! String c s) as [[|content]|]; simpl.
  - split; [|intros c' [= <-]; reflexivity].
    split; [|auto]. eexists. split; [reflexivity|]. repeat constructor.
  - split; [apply local_only_refl|intros c'; discriminate].
  - split; [|intros c' [= <-]; reflexivity].
    split; [|auto]. eexists. split; [reflexivity|]. repeat constructor.
Qed.

Lemma main_after_resolve (file : option string) w path w1 :
  resolve_path file w = (Ok path, w1) →
  main file w = upload_to_garmin path w1.
Proof. intros H. unfold main. apply bind_step. exact H. Qed.

End Uploader.

(** With the path resolved and a credential missing. *)
Lemma missing_credentials_after_resolve `{PF : PyFloat}
    (file : option string) w path w1 :
  resolve_path file w = (Ok path, w1) →
  (let env := merge_dotenv (dotenv w) (environ w) in
   falsy (env !! "GARMIN_USERNAME") = true ∨ falsy (env !! "GARMIN_PASSWORD") = true) →
  ∃ w2 evs,
    main file w = (Raise (SystemExit 1), w2) ∧
    trace w1 = trace w ++ evs ∧
    trace w2 = trace w ++ evs ++ [credentials_error] ∧
    Forall (λ e, is_network e = false) (evs ++ [credentials_error]) ∧
    (file = None →
     ∃ doc, evs = [Makedirs "output"; WriteFile path doc;
                   Stdout ("GPX file saved to " +:+ path)]).
Proof.
  intros Hres Hmiss.
  pose proof (main_after_resolve file w path w1 Hres) as Hmain.
  apply resolve_path_Ok in Hres as (evs & Htr & Hloc & Hgen & Hcred & _ & _).
  apply credentials_missing in Hmiss.
  rewrite upload_to_garmin_run in Hmain.
  unfold upload_status, after_upload, upload_events in Hmain.
  rewrite Hcred, Hmiss in Hmain. simpl in Hmain.
  eexists _, evs. split; [exact Hmain|]. split; [exact Htr|].
  split; [rewrite Htr, <- app_assoc; reflexivity|].
  split; [|exact Hgen].
  apply Forall_app. split; [exact Hloc|repeat constructor].
Qed.

(** C7: when [GARMIN_USERNAME] or [GARMIN_PASSWORD] is absent or empty
    (after [load_dotenv]), every invocation ends with status 1 and without
    any network call; the check comes after path resolution: when the path
    is resolved the credentials error is printed to stderr next, so with
    no [--file] the track was generated, written and announced before. *)
Theorem missing_credentials_exit :
  ∀ (PF : PyFloat) (file : option string) w,
    (let env := merge_dotenv (dotenv w) (environ w) in
     falsy (env !! "GARMIN_USERNAME") = true ∨ falsy (env !! "GARMIN_PASSWORD") = true) →
    (exit_status (main file w).1 = 1 ∧
     ∃ evs, trace (main file w).2 = trace w ++ evs ∧
            Forall (λ e, is_network e = false) evs) ∧
    (∀ path w1,
       resolve_path file w = (Ok path, w1) →
       ∃ w2 evs,
         main file w = (Raise (SystemExit 1), w2) ∧
         trace w1 = trace w ++ evs ∧
         trace w2 = trace w ++ evs ++ [credentials_error] ∧
         (file = None →
          ∃ doc, evs = [Makedirs "output"; WriteFile path doc;
                        Stdout ("GPX file saved to " +:+ path)])).
Proof.
  intros PF file w Hmiss. split.
  - destruct (resolve_path file w) as [[path|e] w1] eqn:Hres.
    + destruct (missing_credentials_after_resolve file w path w1 Hres Hmiss)
        as (w2 & evs & Hmain & _ & Htr & Hloc & _).
      rewrite Hmain. simpl. split; [reflexivity|]. eauto.
    + destruct (resolve_path_any file w) as [[(evs & Htr & Hloc) _] Hexit].
      rewrite Hres in Htr, Hexit. simpl in Htr, Hexit.
      unfold main. rewrite (bind_Raise _ _ _ _ _ Hres). simpl. split; [|eauto].
      destruct e; try reflexivity. apply Hexit. reflexivity.
  - intros path w1 Hres.
    destruct (missing_credentials_after_resolve file w path w1 Hres Hmiss)
      as (w2 & evs & Hmain & Htr1 & Htr & _ & Hgen).
    eauto 10.
Qed.

(** The default call on the sample world returns its path. *)
Lemma sample_run_ok :
  ∃ w1, generate_run_gpx (PF := b64) default_args sample_world
        = (Ok "output/run_20240517_093015.gpx", w1).
Proof.
  assert (Hok : is_ok (generate_track (PF := b64) default_args sample_world).1 = true)
    by (vm_compute; reflexivity).
  destruct (generate_track (PF := b64) default_args sample_world)
    as [[trk|e] w1] eqn:E; [|discriminate Hok].
  eexists. apply (generate_run_gpx_Ok default_args sample_world trk w1 E).
  - intros c. simpl. rewrite lookup_empty. discriminate.
  - simpl. rewrite lookup_empty. discriminate.
Qed.

(** The sample world has no credentials: with no file argument the default
    track is generated and then the uploader gives up. *)
Lemma missing_credentials_exit_witness :
  ∃ w2 doc,
    main (PF := b64) None sample_world = (Raise (SystemExit 1), w2) ∧
    trace w2 = [Makedirs "output"; WriteFile "output/run_20240517_093015.gpx" doc;
                Stdout "GPX file saved to output/run_20240517_093015.gpx";
                credentials_error].
Proof.
  destruct sample_run_ok as (w1 & Hrun).
  destruct (missing_credentials_exit b64 None sample_world) as [_ Hafter].
  - left. reflexivity.
  - destruct (Hafter _ w1 Hrun) as (w2 & evs & Hmain & _ & Htr & Hgen).
    destruct (Hgen eq_refl) as (doc & ->). exists w2, doc. split; [exact Hmain|].
    rewrite Htr. reflexivity.
Defined.

(** Extensions as [os.path.splitext] and [lower] see them. *)
Lemma splitext_examples :
  lower (splitext "notes.txt").2 = ".txt" ∧
  lower (splitext "output/run_20240517_093015.gpx").2 = ".gpx" ∧
  lower (splitext "RUN.GPX").2 = ".gpx" ∧
  lower (splitext "morning.Fit").2 = ".fit" ∧
  (splitext "README").2 = "" ∧
  (splitext "my.dir/README").2 = "" ∧
  (splitext ".gpx").2 = "" ∧
  (splitext "archive.tar.gz").2 = ".gz".
Proof. repeat split. Qed.

(** C8: with credentials present and a login that succeeds, a path whose
    extension, lower-cased, is neither [.fit] nor [.gpx] (none at all
    included) makes the process print an error to stderr and exit with
    status 1, after the login and with no upload call. *)
Theorem unsupported_extension_exit :
  ∀ (PF : PyFloat) (file : option string) w path w1 u p,
    resolve_path file w = (Ok path, w1) →
    (let env := merge_dotenv (dotenv w) (environ w) in
     env !! "GARMIN_USERNAME" = Some u ∧ u ≠ "" ∧
     env !! "GARMIN_PASSWORD" = Some p ∧ p ≠ "") →
    garmin_login w u p = None →
    lower (splitext path).2 ≠ ".fit" →
    lower (splitext path).2 ≠ ".gpx" →
    ∃ w2,
      main file w = (Raise (SystemExit 1), w2) ∧
      exit_status (main file w).1 = 1 ∧
      trace w2 = trace w1 ++ [NetLogin u p; Stdout "✅ Logged in to Garmin Connect";
                              Stderr "Error: File must be .gpx or .fit"].
Proof.
  intros PF file w path w1 u p Hres (Hu & Hu' & Hp & Hp') Hlogin Hfit Hgpx.
  pose proof (main_after_resolve file w path w1 Hres) as Hmain.
  apply resolve_path_Ok in Hres as (evs & Htr & Hloc & Hgen & Hcred & Hlog & _).
  pose proof (credentials_present w u p Hu Hu' Hp Hp') as Hc.
  rewrite upload_to_garmin_run in Hmain.
  unfold upload_status, after_upload, upload_events, accepted_extension in Hmain.
  apply String.eqb_neq in Hfit, Hgpx.
  rewrite Hcred, Hc, Hlog, Hlogin, Hfit, Hgpx in Hmain. simpl in Hmain.
  eexists. split; [exact Hmain|]. rewrite Hmain. simpl. split; reflexivity.
Qed.

Lemma resolve_existing_file (path : string) (login upload : option string) :
  path = "notes.txt" ∨ path = "run.gpx" →
  resolve_path (PF := b64) (Some path) (upload_world login upload)
  = (Ok path, upload_world login upload).
Proof. intros [-> | ->]; vm_compute; reflexivity. Qed.

(** [--file notes.txt] with a service that accepts the login. *)
Lemma unsupported_extension_exit_witness :
  ∃ w2,
    main (PF := b64) (Some "notes.txt") (upload_world None None)
    = (Raise (SystemExit 1), w2) ∧
    trace w2 = [NetLogin "runner@example.com" "secret";
                Stdout "✅ Logged in to Garmin Connect";
                Stderr "Error: File must be .gpx or .fit"].
Proof.
  destruct (unsupported_extension_exit b64 (Some "notes.txt") (upload_world None None)
              "notes.txt" (upload_world None None) "runner@example.com" "secret")
    as (w2 & Hmain & _ & Htr).
  - apply resolve_existing_file. left. reflexivity.
  - repeat split; try discriminate; vm_compute; reflexivity.
  - reflexivity.
  - vm_compute. discriminate.
  - vm_compute. discriminate.
  - exists w2. split; [exact Hmain|exact Htr].
Defined.

(** C9: a login that raises makes the process print [Login failed: ] and
    the message to stderr and exit with status 1, the upload never being
    attempted; after a login that succeeds, an upload that raises makes it
    print [Upload failed: ] and the message and exit with status 1; and an
    upload call is only ever made after a login that succeeded. *)
Theorem login_and_upload_failures :
  (∀ (PF : PyFloat) (file : option string) w path w1 u p msg,
     resolve_path file w = (Ok path, w1) →
     credentials w = Some (u, p) →
     garmin_login w u p = Some msg →
     ∃ w2,
       main file w = (Raise (SystemExit 1), w2) ∧
       exit_status (main file w).1 = 1 ∧
       trace w2 = trace w1 ++ [NetLogin u p; Stderr ("Login failed: " +:+ msg)]) ∧
  (∀ (PF : PyFloat) (file : option string) w path w1 u p msg,
     resolve_path file w = (Ok path, w1) →
     credentials w = Some (u, p) →
     garmin_login w u p = None →
     accepted_extension path = true →
     garmin_upload w path = Some msg →
     ∃ w2,
       main file w = (Raise (SystemExit 1), w2) ∧
       exit_status (main file w).1 = 1 ∧
       trace w2 = trace w1 ++
         [NetLogin u p; Stdout "✅ Logged in to Garmin Connect";
          Stdout ("Uploading " +:+ path +:+ " as a running activity...");
          NetUpload path; Stderr ("Upload failed: " +:+ msg)]) ∧
  (∀ (path : string) w o w2 sent,
     upload_to_garmin path w = (o, w2) →
     ∃ evs, trace w2 = trace w ++ evs ∧
       (NetUpload sent ∈ evs →
        ∃ u p rest, credentials w = Some (u, p) ∧ garmin_login w u p = None ∧
                    evs = NetLogin u p :: rest ∧ NetUpload sent ∈ rest)).
Proof.
  split; [|split].
  - intros PF file w path w1 u p msg Hres Hc Hlogin.
    pose proof (main_after_resolve file w path w1 Hres) as Hmain.
    apply resolve_path_Ok in Hres as (evs & Htr & Hloc & Hgen & Hcred & Hlog & _).
    rewrite upload_to_garmin_run in Hmain.
    unfold upload_status, after_upload, upload_events in Hmain.
    rewrite Hcred, Hc, Hlog, Hlogin in Hmain. simpl in Hmain.
    eexists. split; [exact Hmain|]. rewrite Hmain. simpl. split; reflexivity.
  - intros PF file w path w1 u p msg Hres Hc Hlogin Hext Hupload.
    pose proof (main_after_resolve file w path w1 Hres) as Hmain.
    apply resolve_path_Ok in Hres as (evs & Htr & Hloc & Hgen & Hcred & Hlog & Hup).
    rewrite upload_to_garmin_run in Hmain.
    unfold upload_status, after_upload, upload_events in Hmain.
    rewrite Hcred, Hc, Hlog, Hlogin, Hext, Hup, Hupload in Hmain. simpl in Hmain.
    eexists. split; [exact Hmain|]. rewrite Hmain. simpl. split; reflexivity.
  - intros path w o w2 sent H. rewrite upload_to_garmin_run in H.
    injection H as _ <-. exists (upload_events path w). split; [reflexivity|].
    unfold upload_events.
    destruct (credentials w) as [[u p]|].
    + destruct (garmin_login w u p) as [msg|] eqn:Hlogin.
      * intros Hin. repeat (apply elem_of_cons in Hin as [Hin|Hin]; [discriminate Hin|]).
        apply elem_of_nil in Hin. contradiction.
      * intros Hin. exists u, p. eexists.
        split; [reflexivity|]. split; [exact Hlogin|]. split; [reflexivity|].
        apply elem_of_cons in Hin as [Hin|Hin]; [discriminate Hin|]. exact Hin.
    + intros Hin. apply elem_of_cons in Hin as [Hin|Hin]; [discriminate Hin|].
      apply elem_of_nil in Hin. contradiction.
Qed.

(** [--file run.gpx] with a service that refuses the login, and with one
    that accepts the login and refuses the upload. *)
Lemma login_and_upload_failures_witness :
  (∃ w2,
     main (PF := b64) (Some "run.gpx") (upload_world (Some "401 Unauthorized") None)
     = (Raise (SystemExit 1), w2) ∧
     trace w2 = [NetLogin "runner@example.com" "secret";
                 Stderr "Login failed: 401 Unauthorized"]) ∧
  (∃ w2,
     main (PF := b64) (Some "run.gpx") (upload_world None (Some "409 Conflict"))
     = (Raise (SystemExit 1), w2) ∧
     trace w2 = [NetLogin "runner@example.com" "secret";
                 Stdout "✅ Logged in to Garmin Connect";
                 Stdout "Uploading run.gpx as a running activity...";
                 NetUpload "run.gpx"; Stderr "Upload failed: 409 Conflict"]).
Proof.
  split.
  - destruct (proj1 login_and_upload_failures b64 (Some "run.gpx")
                (upload_world (Some "401 Unauthorized") None) "run.gpx"
                (upload_world (Some "401 Unauthorized") None)
                "runner@example.com" "secret" "401 Unauthorized")
      as (w2 & Hmain & _ & Htr).
    + apply resolve_existing_file. right. reflexivity.
    + vm_compute. reflexivity.
    + reflexivity.
    + exists w2. split; [exact Hmain|exact Htr].
  - destruct (proj1 (proj2 login_and_upload_failures) b64 (Some "run.gpx")
                (upload_world None (Some "409 Conflict")) "run.gpx"
                (upload_world None (Some "409 Conflict"))
                "runner@example.com" "secret" "409 Conflict")
      as (w2 & Hmain & _ & Htr).
    + apply resolve_existing_file. right. reflexivity.
    + vm_compute. reflexivity.
    + reflexivity.
    + vm_compute. reflexivity.
    + reflexivity.
    + exists w2. split; [exact Hmain|exact Htr].
Defined.

(** * Further properties of the generator and the uploader *)

Lemma quiet_ret {A} (a : A) : quiet (mret a).
Proof.
  intros w. split; [exists O; symmetry; apply consume_0|]. intros e; discriminate.
Qed.

Lemma quiet_bind {A B} (m : M A) (f : A → M B) :
  quiet m → (∀ a, quiet (f a)) → quiet (m ≫= f).
Proof.
  intros Hm Hf w. specialize (Hm w). unfold mbind, M_bind.
  destruct (m w) as [[a|e] w1]; simpl in *.
  - destruct Hm as [[k ->] _]. destruct (Hf a (consume k w)) as [[k' Hk'] Hno].
    split; [|exact Hno]. exists (k + k')%nat. rewrite Hk'. apply consume_consume.
  - destruct Hm as [Hk Hno]. split; [exact Hk|].
    intros e' [= <-]. apply (Hno e). reflexivity.
Qed.

Lemma quiet_lift {A} (o : outcome A) : arith_only o → quiet (lift o).
Proof. intros Ho w. split; [exists O; symmetry; apply consume_0|exact Ho]. Qed.

Lemma quiet_next_raw : quiet next_raw.
Proof.
  intros w. split; [|intros e; discriminate].
  exists 1%nat. unfold next_raw, consume. simpl. f_equal. lia.
Qed.

Lemma quiet_utcnow : quiet utcnow.
Proof.
  intros w. split; [exists O; symmetry; apply consume_0|]. intros e; discriminate.
Qed.

Ltac arith_cases :=
  intros e;
  repeat match goal with
         | |- context [if ?b then _ else _] => destruct b
         end;
  intros [= <-]; unfold arith_error; auto.

Section Quiet.
Context `{PF : PyFloat}.

Lemma arith_int_of_float x : arith_only (int_of_float x).
Proof. unfold int_of_float. arith_cases. Qed.

Lemma arith_div_by_int x n : arith_only (div_by_int x n).
Proof. unfold div_by_int. arith_cases. Qed.

Lemma arith_py_div x y : arith_only (py_div x y).
Proof. unfold py_div. arith_cases. Qed.

Lemma arith_math_1 libm x : arith_only (math_1 libm x).
Proof. unfold math_1. arith_cases. Qed.

Lemma arith_timedelta_check us : arith_only (timedelta_check us).
Proof. unfold timedelta_check. arith_cases. Qed.

Lemma arith_timedelta_seconds x : arith_only (timedelta_seconds x).
Proof.
  unfold timedelta_seconds. intros e.
  destruct (is_nan x); [intros [= <-]; unfold arith_error; auto|].
  destruct (is_inf x); [intros [= <-]; unfold arith_error; auto|].
  apply arith_timedelta_check.
Qed.

Lemma arith_datetime_add t d : arith_only (datetime_add t d).
Proof. unfold datetime_add. arith_cases. Qed.

Lemma quiet_uniform a b : quiet (uniform a b).
Proof.
  unfold uniform, random.
  repeat first [apply quiet_next_raw | apply quiet_ret | apply quiet_bind; [|intros ?]].
Qed.

Lemma quiet_randint a b : quiet (randint a b).
Proof.
  unfold randint. destruct (decide (a ≤ b)).
  - repeat first [apply quiet_next_raw | apply quiet_ret | apply quiet_bind; [|intros ?]].
  - intros w. split; [exists O; symmetry; apply consume_0|].
    intros e [= <-]. unfold arith_error. auto.
Qed.

Lemma quiet_walk_step a dist delta_t time0 i st :
  quiet (walk_step a dist delta_t time0 i st).
Proof.
  unfold walk_step, math_cos, math_sin, timedelta_mul.
  repeat first
    [ apply quiet_uniform | apply quiet_randint | apply quiet_ret
    | apply quiet_bind; [|intros ?]
    | apply quiet_lift;
      first [ apply arith_math_1 | apply arith_py_div
            | apply arith_timedelta_check | apply arith_datetime_add ] ].
Qed.

Lemma quiet_walk a dist delta_t time0 n : ∀ i st,
  quiet (walk a dist delta_t time0 n i st).
Proof.
  induction n as [|n IH]; intros i st; simpl.
  - apply quiet_ret.
  - apply quiet_bind; [apply quiet_walk_step|]. intros st'. apply IH.
Qed.

Lemma quiet_generate_track a : quiet (generate_track a).
Proof.
  unfold generate_track.
  repeat first
    [ apply quiet_uniform | apply quiet_utcnow | apply quiet_walk | apply quiet_ret
    | apply quiet_bind; [|intros ?]
    | apply quiet_lift;
      first [ apply arith_int_of_float | apply arith_div_by_int
            | apply arith_timedelta_seconds ] ].
Qed.

(** The time a track starts at is the clock's, whatever was drawn. *)
Lemma generate_track_world a w trk w1 :
  generate_track a w = (Ok trk, w1) →
  trk_time0 trk = now w ∧ ∃ k, w1 = consume k w.
Proof.
  intros H. destruct (quiet_generate_track a w) as [[k Hk] _].
  rewrite H in Hk. simpl in Hk. split; [|eauto].
  apply generate_track_Ok in H as (? & ? & ? & ? & _ & _ & _ & _ & Ht0 & _). exact Ht0.
Qed.

End Quiet.

(** Lines 99-104: the three ways the writing phase ends. *)
Lemma write_phase_cases (fn content : string) (w1 : world) :
  fn ≠ "output" →
  let run := (makedirs_exist_ok "output";; write_file fn content;;
              print ("GPX file saved to " +:+ fn);; mret fn) w1 in
  (∃ w2, run = (Ok fn, w2)) ∨
  (run.1 = Raise FileExistsError ∧ (∃ c, fs w1 !! "output" = Some (File c)) ∧
   trace run.2 = trace w1 ++ [Makedirs "output"] ∧ fs run.2 = fs w1) ∨
  (run.1 = Raise IsADirectoryError ∧ fs w1 !! fn = Some Dir ∧
   trace run.2 = trace w1 ++ [Makedirs "output"] ∧
   fs run.2 = <["output" := Dir]> (fs w1)).
Proof.
  intros Hne run. subst run.
  unfold makedirs_exist_ok, write_file, print, emit, get_world, set_fs,
    mbind, M_bind, mret, M_ret, raise. simpl.
  destruct (fs w1 !! "output") as [[|c]|] eqn:Eo; simpl;
    try (right; left; eauto 10; fail);
    rewrite lookup_insert_ne by (intros Heq; apply Hne; symmetry; exact Heq);
    destruct (fs w1 !! fn) as [[|c]|] eqn:Ef; simpl; eauto 10.
Qed.

(** The three ways a call of the generator raises. *)
Lemma generate_run_gpx_Raise :
  ∀ (PF : PyFloat) (a : args num) w e w',
    generate_run_gpx a w = (Raise e, w') →
    (arith_error e ∧ trace w' = trace w ∧ fs w' = fs w) ∨
    (e = FileExistsError ∧ (∃ c, fs w !! "output" = Some (File c)) ∧
     trace w' = trace w ++ [Makedirs "output"] ∧ fs w' = fs w) ∨
    (e = IsADirectoryError ∧ fs w !! output_path (now w) = Some Dir ∧
     trace w' = trace w ++ [Makedirs "output"] ∧
     fs w' = <["output" := Dir]> (fs w)).
Proof.
  intros PF a w e w' H. unfold generate_run_gpx in H.
  destruct (generate_track a w) as [[trk|e1] w1] eqn:Htrk.
  - rewrite (bind_step _ _ _ _ _ Htrk) in H.
    destruct (generate_track_world a w trk w1 Htrk) as [Ht0 [k ->]].
    rewrite Ht0 in H.
    destruct (write_phase_cases (output_path (now w)) (document trk) (consume k w)
                (output_path_not_output _)) as [[w2 Hok]|[Hc|Hc]].
    + rewrite Hok in H. discriminate H.
    + rewrite H in Hc. simpl in Hc. destruct Hc as ([= ->] & Hf & Htr & Hfs).
      right. left. auto.
    + rewrite H in Hc. simpl in Hc. destruct Hc as ([= ->] & Hf & Htr & Hfs).
      right. right. auto.
  - rewrite (bind_Raise _ _ _ _ _ Htrk) in H. injection H as <- <-.
    destruct (quiet_generate_track a w) as [[k Hk] Harith].
    rewrite Htrk in Hk, Harith. simpl in Hk, Harith. subst w1.
    left. split; [apply Harith; reflexivity|]. split; reflexivity.
Qed.

(** A call of the generator that returns has written its file. *)
Lemma generate_run_gpx_file `{PF : PyFloat} (a : args num) w fn w1 :
  generate_run_gpx a w = (Ok fn, w1) →
  ∃ trk,
    fn = output_path (now w) ∧
    trace w1 = trace w ++ [Makedirs "output"; WriteFile fn (document trk);
                           Stdout ("GPX file saved to " +:+ fn)] ∧
    fs w1 !! fn = Some (File (document trk)).
Proof.
  intros H. pose proof H as H'. unfold generate_run_gpx in H'.
  apply bind_Ok in H' as (trk & w0 & Htrk & Hrest).
  destruct (generate_track_world a w trk w0 Htrk) as [Ht0 [k ->]].
  apply write_phase_Ok in Hrest as [Hout Hfn]; [|apply output_path_not_output].
  simpl in Hout, Hfn. rewrite Ht0 in Hfn.
  rewrite (generate_run_gpx_Ok a w trk _ Htrk Hout Hfn) in H.
  injection H as <- <-. exists trk. cbn [trace fs].
  split; [reflexivity|]. split; [reflexivity|]. apply lookup_insert_eq.
Qed.

(** X1: a call of the generator that raises has written no file and printed
    nothing: after an arithmetic exception the file system and the trace
    are as they were; otherwise ['output'] was a regular file
    ([FileExistsError]) or the path of the file a directory
    ([IsADirectoryError]), and ['output'] is all that was made. *)
Theorem failed_generation_writes_no_file :
  ∀ (PF : PyFloat) (a : args num) w e w',
    generate_run_gpx a w = (Raise e, w') →
    (arith_error e ∧ trace w' = trace w ∧ fs w' = fs w) ∨
    (e = FileExistsError ∧ (∃ c, fs w !! "output" = Some (File c)) ∧
     trace w' = trace w ++ [Makedirs "output"] ∧ fs w' = fs w) ∨
    (e = IsADirectoryError ∧ fs w !! output_path (now w) = Some Dir ∧
     trace w' = trace w ++ [Makedirs "output"] ∧
     fs w' = <["output" := Dir]> (fs w)).
Proof. exact generate_run_gpx_Raise. Qed.

(** With ['output'] a regular file the call for two points stops at
    [os.makedirs]. *)
Lemma failed_generation_writes_no_file_witness :
  ∃ e w',
    generate_run_gpx (PF := b64) two_points blocked_world = (Raise e, w') ∧
    ((arith_error e ∧ trace w' = trace blocked_world ∧ fs w' = fs blocked_world) ∨
     (e = FileExistsError ∧ (∃ c, fs blocked_world !! "output" = Some (File c)) ∧
      trace w' = trace blocked_world ++ [Makedirs "output"] ∧ fs w' = fs blocked_world) ∨
     (e = IsADirectoryError ∧
      fs blocked_world !! output_path (now blocked_world) = Some Dir ∧
      trace w' = trace blocked_world ++ [Makedirs "output"] ∧
      fs w' = <["output" := Dir]> (fs blocked_world))).
Proof.
  assert (Hno : is_ok (generate_run_gpx (PF := b64) two_points blocked_world).1 = false)
    by (vm_compute; reflexivity).
  destruct (generate_run_gpx (PF := b64) two_points blocked_world)
    as [[fn|e] w'] eqn:E; [discriminate Hno|].
  exists e, w'. split; [reflexivity|].
  exact (failed_generation_writes_no_file b64 two_points blocked_world e w' E).
Defined.

(** X2: with [hr_min > hr_max] and at least one point to make, the call never
    returns: [random.randint] raises in the first iteration, unless the
    arithmetic before it did, and nothing is written or printed. *)
Theorem inverted_heart_rate_range_raises :
  ∀ (PF : PyFloat) (a : args num) (n : Z) w,
    int_of_float (total_distance_km a ⊠ of_int (points_per_km a)) = Ok n →
    1 ≤ n →
    hr_max a < hr_min a →
    ∃ e k, generate_run_gpx a w = (Raise e, consume k w) ∧ arith_error e.
Proof.
  intros PF a n w Hn Hpos Hhr.
  destruct (generate_track a w) as [[trk|e] w1] eqn:Htrk.
  - exfalso.
    apply generate_track_Ok in Htrk
      as (n' & ? & ? & ? & Hn' & _ & _ & _ & _ & Hlen & _ & Hall & _).
    assert (n' = n) by congruence. subst n'.
    destruct (trk_points trk) as [|pt pts] eqn:Hpts; [simpl in Hlen; lia|].
    destruct (Hall O pt eq_refl) as (_ & Hrange & _). lia.
  - destruct (quiet_generate_track a w) as [[k Hk] Harith].
    rewrite Htrk in Hk, Harith. simpl in Hk, Harith. subst w1.
    exists e, k. split; [|apply Harith; reflexivity].
    unfold generate_run_gpx. apply bind_Raise. exact Htrk.
Qed.

(** The defaults with [hr_min=150, hr_max=120] on the sample world. *)
Lemma inverted_heart_rate_range_raises_witness :
  ∃ e k, generate_run_gpx (PF := b64) inverted_hr sample_world
         = (Raise e, consume k sample_world) ∧ arith_error e.
Proof.
  apply (inverted_heart_rate_range_raises b64 inverted_hr 100 sample_world).
  - vm_compute. reflexivity.
  - lia.
  - simpl. lia.
Defined.

Lemma app_empty_r (s : string) : s +:+ "" = s.
Proof.
  induction s as [|c s IH]; [reflexivity|].
  change (String c (s +:+ "") = String c s). f_equal. exact IH.
Qed.

Lemma write_data_plain (s : string) : plain s = true → write_data s = s.
Proof.
  induction s as [|c s IH]; [reflexivity|]. simpl.
  intros [Hc Hs]%andb_true_iff. rewrite (IH Hs).
  unfold plain_char in Hc. apply negb_true_iff in Hc.
  apply orb_false_iff in Hc as [Hc Hgt].
  apply orb_false_iff in Hc as [Hc Hq].
  apply orb_false_iff in Hc as [Hamp Hlt].
  rewrite Hamp, Hlt, Hq, Hgt. reflexivity.
Qed.

Lemma plain_app (s t : string) : plain (s +:+ t) = plain s && plain t.
Proof.
  induction s as [|c s IH]; [reflexivity|].
  change (plain_char c && plain (s +:+ t) = plain_char c && plain s && plain t).
  rewrite IH, andb_assoc. reflexivity.
Qed.

Lemma is_digit_plain (c : ascii) : is_digit c = true → plain_char c = true.
Proof.
  intros H. unfold plain_char.
  destruct (Ascii.eqb_spec c "&") as [->|_]; [vm_compute in H; discriminate H|].
  destruct (Ascii.eqb_spec c "<") as [->|_]; [vm_compute in H; discriminate H|].
  destruct (Ascii.eqb_spec c (ascii_of_nat 34)) as [->|_];
    [vm_compute in H; discriminate H|].
  destruct (Ascii.eqb_spec c ">") as [->|_]; [vm_compute in H; discriminate H|].
  reflexivity.
Qed.

Lemma all_digits_plain (s : string) : all_digits s = true → plain s = true.
Proof.
  induction s as [|c s IH]; [reflexivity|]. simpl.
  intros [Hc Hs]%andb_true_iff. rewrite (is_digit_plain c Hc), (IH Hs). reflexivity.
Qed.

Lemma fixed_digits_plain (p : nat) (n : Z) : plain (fixed_digits p n) = true.
Proof. apply all_digits_plain, fixed_digits_all_digits. Qed.

Lemma time_text_plain (t : Z) : plain (time_text t) = true.
Proof.
  rewrite time_text_fields. rewrite !plain_app, !fixed_digits_plain. reflexivity.
Qed.

Lemma time_text_nonempty (t : Z) : time_text t ≠ "".
Proof.
  intros H. apply (f_equal String.length) in H.
  rewrite time_text_fields, !length_app_string, !fixed_digits_length in H.
  simpl in H. lia.
Qed.

(** [str(n)]: digits after an optional sign. *)
Lemma pretty_N_char_plain (x : N) : plain_char (pretty_N_char x) = true.
Proof. unfold pretty_N_char. repeat case_match; reflexivity. Qed.

Lemma pretty_N_go_plain (x : N) : ∀ s, plain s = true → plain (pretty_N_go x s) = true.
Proof.
  induction (N.lt_wf_0 x) as [x _ IH]. intros s Hs.
  destruct (decide (x = 0)%N) as [->|Hx]; [rewrite pretty_N_go_0; exact Hs|].
  rewrite pretty_N_go_step by lia. apply IH.
  - apply N.div_lt; lia.
  - simpl. rewrite pretty_N_char_plain, Hs. reflexivity.
Qed.

Lemma pretty_N_go_nonempty (x : N) : ∀ s, s ≠ "" → pretty_N_go x s ≠ "".
Proof.
  induction (N.lt_wf_0 x) as [x _ IH]. intros s Hs.
  destruct (decide (x = 0)%N) as [->|Hx]; [rewrite pretty_N_go_0; exact Hs|].
  rewrite pretty_N_go_step by lia. apply IH.
  - apply N.div_lt; lia.
  - discriminate.
Qed.

Lemma str_int_plain (n : Z) : plain (str_int n) = true.
Proof.
  unfold str_int, pretty, pretty_Z.
  assert (HN : ∀ x : N, plain (pretty_N x) = true).
  { intros x. unfold pretty_N. destruct (decide (x = 0)%N); [reflexivity|].
    apply pretty_N_go_plain. reflexivity. }
  destruct n as [|p|p]; [reflexivity|apply HN|].
  rewrite plain_app. unfold pretty, pretty_positive. rewrite HN. reflexivity.
Qed.

Lemma str_int_nonempty (n : Z) : str_int n ≠ "".
Proof.
  unfold str_int, pretty, pretty_Z.
  destruct n as [|p|p]; [discriminate| |discriminate].
  unfold pretty, pretty_positive, pretty, pretty_N.
  destruct (decide (N.pos p = 0)%N); [discriminate|].
  rewrite pretty_N_go_step by lia. apply pretty_N_go_nonempty. discriminate.
Qed.

Section Layout.
Context `{PF : PyFloat}.

Lemma format_f_plain (p : nat) (x : num) : plain (format_f p x) = true.
Proof.
  unfold format_f. destruct (is_nan x); [reflexivity|].
  destruct (is_inf x); [destruct (sign_bit x); reflexivity|].
  rewrite !plain_app, str_int_plain.
  destruct p; [destruct (sign_bit x); reflexivity|].
  rewrite plain_app, fixed_digits_plain. destruct (sign_bit x); reflexivity.
Qed.

Lemma format_f_nonempty (p : nat) (x : num) : format_f p x ≠ "".
Proof.
  unfold format_f. destruct (is_nan x); [discriminate|].
  destruct (is_inf x); [destruct (sign_bit x); discriminate|].
  intros H. apply (f_equal String.length) in H.
  rewrite !length_app_string in H.
  pose proof (str_int_nonempty
                (Z.abs (round_scaled (10 ^ Z.of_nat p) x) / 10 ^ Z.of_nat p)) as Hne.
  destruct (str_int _); [contradiction|]. simpl in H. lia.
Qed.

(** A childless element with a text: [<tag>text</tag>] on a line. *)
Lemma writexml_leaf ns tag (s indent addindent newl : string) :
  s ≠ "" → plain s = true →
  writexml (dom_of ns [] (Element tag [] (Some s) [])) indent addindent newl
  = indent +:+ "<" +:+ qname ns tag +:+ ">" +:+ s +:+ "</" +:+ qname ns tag +:+ ">" +:+ newl.
Proof.
  intros Hne Hs. destruct s as [|c s]; [contradiction|].
  cbn [dom_of map app writexml write_attrs String.concat].
  rewrite (write_data_plain _ Hs). reflexivity.
Qed.

Lemma trkpt_xml (pt : track_point num) :
  writexml (dom_of ns0_table [] (trkpt_element pt)) "    " "  " nl = trkpt_text pt.
Proof.
  pose proof (format_f_plain 15 (pt_lat pt)) as Ha.
  pose proof (format_f_plain 15 (pt_lon pt)) as Hb.
  pose proof (format_f_plain 6 (pt_ele pt)) as He.
  pose proof (format_f_nonempty 6 (pt_ele pt)) as He'.
  pose proof (time_text_plain (pt_time pt)) as Ht.
  pose proof (time_text_nonempty (pt_time pt)) as Ht'.
  pose proof (str_int_plain (pt_hr pt)) as Hh.
  pose proof (str_int_nonempty (pt_hr pt)) as Hh'.
  pose proof (str_int_plain (pt_cad pt)) as Hc.
  pose proof (str_int_nonempty (pt_cad pt)) as Hc'.
  unfold trkpt_text, trkpt_element.
  set (a := format_f 15 (pt_lat pt)) in *. clearbody a.
  set (b := format_f 15 (pt_lon pt)) in *. clearbody b.
  set (e := format_f 6 (pt_ele pt)) in *. clearbody e.
  set (t := time_text (pt_time pt)) in *. clearbody t.
  set (h := str_int (pt_hr pt)) in *. clearbody h.
  set (c := str_int (pt_cad pt)) in *. clearbody c.
  destruct e as [|e0 e]; [contradiction|]. destruct t as [|t0 t]; [contradiction|].
  destruct h as [|h0 h]; [contradiction|]. destruct c as [|c0 c]; [contradiction|].
  cbn [dom_of map app writexml write_attrs String.concat fst snd].
  rewrite !write_data_plain by assumption.
  rewrite !app_string_assoc. reflexivity.
Qed.

Lemma trkpts_xml (pts : list (track_point num)) :
  String.concat ""
    (map (λ c, writexml c "    " "  " nl) (map (dom_of ns0_table []) (map trkpt_element pts)))
  = String.concat "" (map trkpt_text pts).
Proof.
  rewrite !map_map. f_equal. apply map_ext. intros pt. apply trkpt_xml.
Qed.

Lemma string_drop_app (s t : string) : string_drop (String.length s) (s +:+ t) = t.
Proof. induction s as [|c s IH]; [reflexivity|]. exact IH. Qed.

Lemma pretty_fragment_writexml (e : element) :
  pretty_fragment e = writexml (parse_tostring namespace_map e) "" "  " nl.
Proof.
  unfold pretty_fragment, toprettyxml. fold nl.
  rewrite <- (app_string_assoc xml_declaration nl). apply string_drop_app.
Qed.

Lemma metadata_xml (t : Z) : pretty_fragment (metadata_element t) = metadata_text t.
Proof.
  rewrite pretty_fragment_writexml. unfold parse_tostring.
  change (collect_namespaces namespace_map (metadata_element t) []) with (@nil (string * string)).
  pose proof (time_text_plain t) as Ht. pose proof (time_text_nonempty t) as Ht'.
  unfold metadata_text, metadata_element.
  set (s := time_text t) in *. clearbody s. destruct s as [|s0 s]; [contradiction|].
  cbn [dom_of map app writexml write_attrs String.concat fst snd xmlns_attrs fold_right].
  rewrite !write_data_plain by (assumption || reflexivity).
  rewrite !app_string_assoc. reflexivity.
Qed.

Lemma trkseg_xml (pt : track_point num) (pts : list (track_point num)) :
  writexml (dom_of ns0_table [] (Element "trkseg" [] None (map trkpt_element (pt :: pts))))
    "  " "  " nl
  = "  <trkseg>" +:+ nl +:+ String.concat "" (map trkpt_text (pt :: pts)) +:+
    "  </trkseg>" +:+ nl.
Proof. rewrite <- trkpts_xml. reflexivity. Qed.

Lemma trk_xml (pt : track_point num) (pts : list (track_point num)) :
  pretty_fragment (trk_element (pt :: pts)) = trk_text (pt :: pts).
Proof.
  rewrite pretty_fragment_writexml. unfold parse_tostring. rewrite collect_trk.
  change (writexml (dom_of ns0_table (xmlns_attrs ns0_table) (trk_element (pt :: pts)))
            "" "  " nl)
    with ("<trk xmlns:ns0=" +:+ dq +:+ NS_NS3 +:+ dq +:+ ">" +:+ nl +:+
          "  <name>County Londonderry Running</name>" +:+ nl +:+
          "  <type>running</type>" +:+ nl +:+
          (writexml (dom_of ns0_table []
                       (Element "trkseg" [] None (map trkpt_element (pt :: pts))))
             "  " "  " nl +:+ ("</trk>" +:+ nl))).
  rewrite trkseg_xml. unfold trk_text. rewrite !app_string_assoc. reflexivity.
Qed.

Lemma empty_trk_xml : pretty_fragment (trk_element []) = empty_trk_text.
Proof. reflexivity. Qed.

End Layout.

(** X3: the document of every track: the literal header, the [metadata]
    fragment with the start time, an empty line, the [trk] fragment and the
    closing tag. A track without points has an empty [trkseg] and no
    namespace declaration; with points, [trk] declares [xmlns:ns0] and each
    point is written as the same ten lines, whatever its numbers. *)
Theorem document_layout :
  ∀ (PF : PyFloat) (time0 : Z) (pt : track_point num) (pts : list (track_point num)),
    document (Track time0 []) =
      header +:+ metadata_text time0 +:+ nl +:+ empty_trk_text +:+ "</gpx>" ∧
    document (Track time0 (pt :: pts)) =
      header +:+ metadata_text time0 +:+ nl +:+ trk_text (pt :: pts) +:+ "</gpx>".
Proof.
  intros PF time0 pt pts. unfold document. cbn [trk_time0 trk_points].
  rewrite metadata_xml, trk_xml, empty_trk_xml. split; reflexivity.
Qed.

(** X4: a negative [int(total_distance_km * points_per_km)] is no error:
    [range] of it is empty, so after the three draws of the start the
    track has no point, and the file is written with an empty [trkseg]. *)
Theorem negative_count_gives_empty_track :
  ∀ (PF : PyFloat) (a : args num) (n : Z) secs delta_t w,
    int_of_float (total_distance_km a ⊠ of_int (points_per_km a)) = Ok n →
    n < 0 →
    div_by_int (of_int (6 * 60)) (points_per_km a) = Ok secs →
    timedelta_seconds secs = Ok delta_t →
    (∀ c, fs w !! "output" ≠ Some (File c)) →
    fs w !! output_path (now w) ≠ Some Dir →
    generate_track a w = (Ok (Track (now w) []), consume 3 w) ∧
    ∃ w', generate_run_gpx a w = (Ok (output_path (now w)), w') ∧
          fs w' !! output_path (now w)
          = Some (File (header +:+ metadata_text (now w) +:+ nl +:+
                        empty_trk_text +:+ "</gpx>")).
Proof.
  intros PF a n secs delta_t w Hn Hneg Hsecs Hdelta Hout Hfn.
  assert (Htrk : generate_track a w = (Ok (Track (now w) []), consume 3 w)).
  { unfold generate_track.
    rewrite (bind_step _ _ w n w) by (unfold lift; rewrite Hn; reflexivity).
    rewrite (bind_step _ _ w (total_distance_km a ⧄ of_int n) w).
    2:{ unfold lift, div_by_int. destruct (decide (n = 0)); [lia|reflexivity]. }
    rewrite (bind_step _ _ w secs w) by (unfold lift; rewrite Hsecs; reflexivity).
    rewrite (bind_step _ _ w delta_t w) by (unfold lift; rewrite Hdelta; reflexivity).
    rewrite (bind_step _ _ _ _ _ (uniform_run _ _ w)).
    rewrite (bind_step _ _ _ _ _ (uniform_run _ _ _)).
    rewrite (bind_step _ _ _ _ _ (uniform_run _ _ _)).
    replace (Z.to_nat n) with O by lia.
    unfold utcnow, walk, mbind, M_bind, mret, M_ret. cbn [now consume].
    rewrite !consume_consume. reflexivity. }
  split; [exact Htrk|].
  pose proof (generate_run_gpx_Ok a w _ _ Htrk Hout Hfn) as Hrun.
  eexists. split; [exact Hrun|]. cbn [fs].
  rewrite lookup_insert_eq.
  unfold document. cbn [trk_time0 trk_points].
  rewrite metadata_xml, empty_trk_xml. reflexivity.
Qed.

(** Minus one kilometre at the default density, on the sample world. *)
Lemma negative_count_gives_empty_track_witness :
  generate_track (PF := b64) minus_one_km sample_world
  = (Ok (Track sample_now []), consume 3 sample_world) ∧
  ∃ w', generate_run_gpx (PF := b64) minus_one_km sample_world
        = (Ok "output/run_20240517_093015.gpx", w') ∧
        fs w' !! "output/run_20240517_093015.gpx"
        = Some (File (header +:+ metadata_text sample_now +:+ nl +:+
                      empty_trk_text +:+ "</gpx>")).
Proof.
  apply (negative_count_gives_empty_track b64 minus_one_km (-10) 36%float 36000000
           sample_world).
  - vm_compute. reflexivity.
  - lia.
  - vm_compute. reflexivity.
  - vm_compute. reflexivity.
  - intros c. simpl. rewrite lookup_empty. discriminate.
  - simpl. rewrite lookup_empty. discriminate.
Defined.

(** The calendar fields read the whole seconds only. *)
Lemma dt_fields_of_seconds (t : Z) :
  dt_year t = (ord2ymd (t / 1000000 / 86400 + 1)).1.1 ∧
  dt_month t = (ord2ymd (t / 1000000 / 86400 + 1)).1.2 ∧
  dt_day t = (ord2ymd (t / 1000000 / 86400 + 1)).2 ∧
  dt_hour t = (t / 1000000) mod 86400 / 3600 ∧
  dt_minute t = (t / 1000000) mod 3600 / 60 ∧
  dt_second t = (t / 1000000) mod 60.
Proof.
  unfold dt_year, dt_month, dt_day, dt_hour, dt_minute, dt_second, us_per_day.
  assert (Hd : t / 86400000000 = t / 1000000 / 86400)
    by (rewrite Z.div_div by lia; reflexivity).
  rewrite Hd. repeat split.
  - Z.div_mod_to_equations. lia.
  - Z.div_mod_to_equations. lia.
  - Z.div_mod_to_equations. lia.
Qed.

(** X5: the texts the generator derives from a time, the [time] elements and
    the name of the file, have a resolution of one second: two instants
    within the same second give the same text and the same path. *)
Theorem time_texts_have_second_resolution :
  ∀ t t' : Z,
    t / 1000000 = t' / 1000000 →
    time_text t = time_text t' ∧ output_path t = output_path t'.
Proof.
  intros t t' H.
  rewrite !time_text_fields, !output_path_fields.
  destruct (dt_fields_of_seconds t) as (-> & -> & -> & -> & -> & ->).
  destruct (dt_fields_of_seconds t') as (-> & -> & -> & -> & -> & ->).
  rewrite H. split; reflexivity.
Qed.

(** 09:30:15.25 and 09:30:15.95 *)
Lemma time_texts_have_second_resolution_witness :
  time_text sample_now = time_text sample_later ∧
  output_path sample_now = output_path sample_later.
Proof.
  apply (time_texts_have_second_resolution sample_now sample_later). reflexivity.
Defined.

(** ** [os.path.splitext] *)

Lemma no_char_app (c : ascii) (s t : string) :
  no_char c (s +:+ t) = no_char c s && no_char c t.
Proof.
  induction s as [|d s IH]; [reflexivity|].
  change (negb (Ascii.eqb d c) && no_char c (s +:+ t)
          = negb (Ascii.eqb d c) && no_char c s && no_char c t).
  rewrite IH, andb_assoc. reflexivity.
Qed.

Lemma no_char_drop (c : ascii) (n : nat) : ∀ s,
  no_char c s = true → no_char c (string_drop n s) = true.
Proof.
  induction n as [|n IH]; intros [|d s] H; simpl; try exact H; try reflexivity.
  apply IH. simpl in H. apply andb_true_iff in H as [_ H]. exact H.
Qed.

Lemma rfind_from_absent (c : ascii) (s : string) : ∀ i acc,
  no_char c s = true → rfind_from c s i acc = acc.
Proof.
  induction s as [|d s IH]; intros i acc H; [reflexivity|].
  simpl in *. apply andb_true_iff in H as [Hd Hs].
  apply negb_true_iff in Hd. rewrite Hd. apply IH. exact Hs.
Qed.

Lemma rfind_from_app (c : ascii) (s t : string) : ∀ i acc,
  rfind_from c (s +:+ t) i acc
  = rfind_from c t (i + Z.of_nat (String.length s)) (rfind_from c s i acc).
Proof.
  induction s as [|d s IH]; intros i acc.
  - simpl. rewrite Z.add_0_r. reflexivity.
  - change (rfind_from c (s +:+ t) (i + 1) (if Ascii.eqb d c then i else acc)
            = rfind_from c t (i + Z.of_nat (S (String.length s)))
                (rfind_from c s (i + 1) (if Ascii.eqb d c then i else acc))).
    rewrite IH. f_equal. lia.
Qed.

(** What [rfind] finds: nothing, and the character does not occur; or the
    index of an occurrence after which there is no other. *)
Lemma rfind_from_spec (c : ascii) (s : string) : ∀ i acc,
  acc < i →
  let r := rfind_from c s i acc in
  (r = acc ∧ no_char c s = true) ∨
  (i ≤ r < i + Z.of_nat (String.length s) ∧
   ∃ t, string_drop (Z.to_nat (r - i)) s = String c t ∧ no_char c t = true).
Proof.
  induction s as [|d s IH]; intros i acc Hacc; [left; auto|].
  cbn [rfind_from String.length].
  destruct (Ascii.eqb_spec d c) as [->|Hd].
  - right. destruct (IH (i + 1) i ltac:(lia)) as [[Hr Hno]|[Hr (t & Ht & Hno)]].
    + rewrite Hr. split; [lia|]. exists s. rewrite Z.sub_diag. auto.
    + split; [lia|]. exists t. split; [|exact Hno].
      replace (Z.to_nat (rfind_from c s (i + 1) i - i))
        with (S (Z.to_nat (rfind_from c s (i + 1) i - (i + 1)))) by lia.
      exact Ht.
  - destruct (IH (i + 1) acc ltac:(lia)) as [[Hr Hno]|[Hr (t & Ht & Hno)]].
    + left. split; [exact Hr|]. simpl. rewrite Hno.
      apply Ascii.eqb_neq in Hd. rewrite Hd. reflexivity.
    + right. split; [lia|]. exists t. split; [|exact Hno].
      replace (Z.to_nat (rfind_from c s (i + 1) acc - i))
        with (S (Z.to_nat (rfind_from c s (i + 1) acc - (i + 1)))) by lia.
      exact Ht.
Qed.

Lemma substring_drop (n : nat) : ∀ s,
  String.substring 0 n s +:+ string_drop n s = s.
Proof.
  induction n as [|n IH]; intros [|d s]; try reflexivity.
  change (String d (String.substring 0 n s +:+ string_drop n s) = String d s).
  f_equal. apply IH.
Qed.

Lemma string_drop_drop (n m : nat) : ∀ s,
  string_drop n (string_drop m s) = string_drop (m + n) s.
Proof.
  induction m as [|m IH]; intros [|d s]; try reflexivity.
  - destruct n; reflexivity.
  - apply IH.
Qed.

Lemma has_non_dot_nonempty (n : nat) : ∀ s, has_non_dot n s = true → (0 < n)%nat.
Proof. intros s. destruct n; [destruct s; discriminate|lia]. Qed.

(** [root + ext == p], and [ext] is empty or begins with a period and
    contains at most one period and no separator. *)
Lemma splitext_spec (p : string) :
  (splitext p).1 +:+ (splitext p).2 = p ∧
  ((splitext p).2 = "" ∨
   ∃ e, (splitext p).2 = String "." e ∧ no_char "." e = true ∧ no_char "/" e = true ∧
        (splitext p).1 ≠ "").
Proof.
  unfold splitext.
  destruct (_ && _) eqn:Hcond; cbn [fst snd].
  2:{ split; [apply app_empty_r|left; reflexivity]. }
  split; [apply substring_drop|]. right.
  apply andb_true_iff in Hcond as [Hlt Hnd]. apply Z.ltb_lt in Hlt.
  pose proof (rfind_from_spec "." p 0 (-1) ltac:(lia)) as Hdot.
  pose proof (rfind_from_spec "/" p 0 (-1) ltac:(lia)) as Hsep.
  fold (rfind "." p) in Hdot. fold (rfind "/" p) in Hsep. cbn zeta in Hdot, Hsep.
  set (dot := rfind "." p) in *. set (sep := rfind "/" p) in *.
  destruct Hdot as [[Hd _]|[Hd (e & He & Hno)]].
  { apply has_non_dot_nonempty in Hnd. lia. }
  rewrite Z.sub_0_r in He. exists e. split; [exact He|]. split; [exact Hno|].
  split.
  - assert (Hsuffix : no_char "/" (string_drop (Z.to_nat dot) p) = true).
    { destruct Hsep as [[_ Hnone]|[Hs (t & Ht & Hnone)]].
      - apply no_char_drop. exact Hnone.
      - rewrite Z.sub_0_r in Ht.
        replace (Z.to_nat dot) with (Z.to_nat sep + S (Z.to_nat (dot - sep - 1)))%nat by lia.
        rewrite <- string_drop_drop, Ht. simpl. apply no_char_drop. exact Hnone. }
    rewrite He in Hsuffix. simpl in Hsuffix. exact Hsuffix.
  - apply has_non_dot_nonempty in Hnd.
    destruct (Z.to_nat dot) as [|k] eqn:Hk; [lia|].
    destruct p; [discriminate He|]. discriminate.
Qed.

Lemma has_non_dot_app (s t : string) :
  has_non_dot (String.length s) (s +:+ t) = has_non_dot (String.length s) s.
Proof.
  induction s as [|d s IH]; [destruct t; reflexivity|].
  change (negb (Ascii.eqb d ".") || has_non_dot (String.length s) (s +:+ t)
          = negb (Ascii.eqb d ".") || has_non_dot (String.length s) s).
  rewrite IH. reflexivity.
Qed.

Lemma substring_app_length (s t : string) :
  String.substring 0 (String.length s) (s +:+ t) = s.
Proof.
  induction s as [|d s IH]; [destruct t; reflexivity|].
  change (String d (String.substring 0 (String.length s) (s +:+ t)) = String d s).
  f_equal. exact IH.
Qed.

(** A path made of a directory part (empty, or ending with the separator),
    a stem without separator in which not every character is a period,
    and an extension without period or separator. *)
Lemma splitext_of_name (dir stem e : string) :
  (dir = "" ∨ ∃ d, dir = d +:+ "/") →
  no_char "/" stem = true →
  has_non_dot (String.length stem) stem = true →
  no_char "." e = true → no_char "/" e = true →
  splitext (dir +:+ stem +:+ "." +:+ e) = (dir +:+ stem, "." +:+ e).
Proof.
  intros Hdir Hstem Hnd He1 He2.
  assert (Hsep : rfind "/" (dir +:+ stem +:+ "." +:+ e) = Z.of_nat (String.length dir) - 1).
  { unfold rfind. rewrite rfind_from_app.
    rewrite (rfind_from_absent "/" (stem +:+ "." +:+ e)).
    2:{ rewrite !no_char_app, Hstem, He2. reflexivity. }
    destruct Hdir as [->|[d ->]]; [reflexivity|].
    rewrite rfind_from_app. simpl. rewrite length_app_string. simpl. lia. }
  assert (Hdot : rfind "." (dir +:+ stem +:+ "." +:+ e)
                 = Z.of_nat (String.length (dir +:+ stem))).
  { unfold rfind. rewrite <- app_string_assoc, rfind_from_app.
    change ("." +:+ e) with (String "." e). cbn [rfind_from]. simpl (Ascii.eqb _ _).
    cbv iota. rewrite rfind_from_absent by exact He1. lia. }
  unfold splitext. rewrite Hsep, Hdot.
  replace (Z.of_nat (String.length dir) - 1 + 1) with (Z.of_nat (String.length dir)) by lia.
  rewrite !Nat2Z.id.
  rewrite length_app_string.
  replace (Z.to_nat (Z.of_nat (String.length dir + String.length stem)
                     - Z.of_nat (String.length dir))) with (String.length stem) by lia.
  rewrite string_drop_app, has_non_dot_app, Hnd.
  replace (Z.of_nat (String.length dir) - 1
           <? Z.of_nat (String.length dir + String.length stem)) with true
    by (symmetry; apply Z.ltb_lt; lia).
  cbn [andb].
  rewrite <- length_app_string.
  rewrite <- (app_string_assoc dir stem).
  rewrite substring_app_length, string_drop_app. reflexivity.
Qed.

Lemma all_digits_no_char (c : ascii) (s : string) :
  is_digit c = false → all_digits s = true → no_char c s = true.
Proof.
  intros Hc. induction s as [|d s IH]; [reflexivity|]. simpl.
  intros [Hd Hs]%andb_true_iff. rewrite (IH Hs), andb_true_r.
  apply negb_true_iff, Ascii.eqb_neq. intros ->. congruence.
Qed.

(** The path the generator returns always passes the extension check. *)
Lemma splitext_output_path (t : Z) :
  splitext (output_path t)
  = ("output/run_" +:+ date_digits t +:+ "_" +:+ clock_digits t, ".gpx").
Proof.
  destruct (date_digits_shape t) as [_ Hdate].
  destruct (clock_digits_shape t) as [_ Hclock].
  set (stem := "run_" +:+ date_digits t +:+ "_" +:+ clock_digits t).
  assert (Hpath : output_path t = "output/" +:+ stem +:+ "." +:+ "gpx").
  { rewrite output_path_digits. unfold stem. rewrite !app_string_assoc. reflexivity. }
  rewrite Hpath, (splitext_of_name "output/" stem "gpx").
  - reflexivity.
  - right. exists "output". reflexivity.
  - unfold stem. rewrite !no_char_app, (all_digits_no_char "/" _ eq_refl Hdate),
      (all_digits_no_char "/" _ eq_refl Hclock). reflexivity.
  - reflexivity.
  - reflexivity.
  - reflexivity.
Qed.

Lemma accepted_output_path (t : Z) : accepted_extension (output_path t) = true.
Proof. unfold accepted_extension. rewrite splitext_output_path. reflexivity. Qed.

Lemma new_events_app (w w' : world) (evs : list event) :
  trace w' = trace w ++ evs → new_events w w' = evs.
Proof. intros H. unfold new_events. rewrite H. apply drop_app_length. Qed.

(** [--file path] with a path that is a regular file, and with one that
    is not. *)
Lemma resolve_path_file `{PF : PyFloat} (path : string) (w : world) :
  path ≠ "" →
  resolve_path (Some path) w
  = match fs w !! path with
    | Some (File _) => (Ok path, w)
    | _ => (Raise (SystemExit 1),
            (eprint ("Error: file not found: " +:+ path) w).2)
    end.
Proof.
  intros Hne. destruct path as [|c s]; [contradiction|].
  unfold resolve_path, isfile, get_world, eprint, emit, sys_exit, raise,
    mbind, M_bind, mret, M_ret. simpl.
  destruct (fs w !! String c s) as [[|content]|]; reflexivity.
Qed.

Lemma resolve_path_generate `{PF : PyFloat} (file : option string) (w : world) :
  file = None ∨ file = Some "" →
  resolve_path file w = generate_run_gpx default_args w.
Proof. intros [-> | ->]; reflexivity. Qed.

Lemma credentials_consume (k : nat) (w : world) :
  credentials (consume k w) = credentials w.
Proof. reflexivity. Qed.

(** X6: [--file path] with a path that is no regular file (missing, or a
    directory): the process prints that the file was not found and exits
    with status 1; nothing is generated, read from the environment or
    sent. *)
Theorem missing_file_exits :
  ∀ (PF : PyFloat) (path : string) (w : world),
    path ≠ "" →
    (∀ c, fs w !! path ≠ Some (File c)) →
    ∃ w2,
      main (Some path) w = (Raise (SystemExit 1), w2) ∧
      trace w2 = trace w ++ [Stderr ("Error: file not found: " +:+ path)] ∧
      fs w2 = fs w ∧ rng_pos w2 = rng_pos w ∧ environ w2 = environ w.
Proof.
  intros PF path w Hne Hfile. unfold main.
  eexists. split.
  - apply bind_Raise. rewrite (resolve_path_file path w Hne).
    destruct (fs w !! path) as [[|c]|] eqn:E; try reflexivity.
    exfalso. exact (Hfile c eq_refl).
  - repeat split.
Qed.

(** [--file missing.gpx] in the world with [run.gpx] and [notes.txt]. *)
Lemma missing_file_exits_witness :
  ∃ w2,
    main (PF := b64) (Some "missing.gpx") (upload_world None None)
    = (Raise (SystemExit 1), w2) ∧
    trace w2 = [Stderr "Error: file not found: missing.gpx"].
Proof.
  destruct (missing_file_exits b64 "missing.gpx" (upload_world None None))
    as (w2 & Hmain & Htr & _).
  - discriminate.
  - intros c H. vm_compute in H. discriminate H.
  - exists w2. split; [exact Hmain|exact Htr].
Defined.

(** X7: [--file path] with a regular file of an accepted extension,
    credentials, and a service that accepts the login and the upload: the
    process logs in, announces and uploads that path, prints that the
    upload is complete and ends with status 0; the file system is left
    as it was and nothing is generated. *)
Theorem existing_file_is_uploaded :
  ∀ (PF : PyFloat) (path content : string) (w : world) (u p : string),
    path ≠ "" →
    fs w !! path = Some (File content) →
    credentials w = Some (u, p) →
    garmin_login w u p = None →
    accepted_extension path = true →
    garmin_upload w path = None →
    ∃ w2,
      main (Some path) w = (Ok tt, w2) ∧
      exit_status (main (Some path) w).1 = 0 ∧
      trace w2 = trace w ++ upload_session u p path ∧
      fs w2 = fs w ∧ rng_pos w2 = rng_pos w.
Proof.
  intros PF path content w u p Hne Hfile Hc Hlogin Hext Hupload.
  assert (Hres : resolve_path (Some path) w = (Ok path, w))
    by (rewrite (resolve_path_file path w Hne), Hfile; reflexivity).
  pose proof (main_after_resolve _ _ _ _ Hres) as Hmain.
  rewrite upload_to_garmin_run in Hmain.
  unfold upload_status, after_upload, upload_events in Hmain.
  rewrite Hc, Hlogin, Hext, Hupload in Hmain. simpl in Hmain.
  eexists. split; [exact Hmain|]. rewrite Hmain. repeat split.
Qed.

(** [--file run.gpx] with a service that accepts everything. *)
Lemma existing_file_is_uploaded_witness :
  ∃ w2,
    main (PF := b64) (Some "run.gpx") (upload_world None None) = (Ok tt, w2) ∧
    trace w2 = upload_session "runner@example.com" "secret" "run.gpx".
Proof.
  destruct (existing_file_is_uploaded b64 "run.gpx" "<gpx/>" (upload_world None None)
              "runner@example.com" "secret") as (w2 & Hmain & _ & Htr & _).
  - discriminate.
  - vm_compute. reflexivity.
  - vm_compute. reflexivity.
  - reflexivity.
  - vm_compute. reflexivity.
  - reflexivity.
  - exists w2. split; [exact Hmain|exact Htr].
Defined.

(** X8: without [--file] (or with an empty one) the default track is generated
    and its file uploaded: the path the generator returns always has the
    extension [.gpx], so the extension check cannot fail. With
    credentials and a service that accepts the login and the upload, the
    run makes the directory, writes and announces the file, logs in,
    uploads that file and ends with status 0. *)
Theorem generated_file_is_uploaded :
  ∀ (PF : PyFloat) (file : option string) (w : world) trk w1 (u p : string),
    file = None ∨ file = Some "" →
    generate_track default_args w = (Ok trk, w1) →
    (∀ c, fs w !! "output" ≠ Some (File c)) →
    fs w !! output_path (now w) ≠ Some Dir →
    credentials w = Some (u, p) →
    garmin_login w u p = None →
    garmin_upload w (output_path (now w)) = None →
    let fn := output_path (now w) in
    accepted_extension fn = true ∧
    ∃ w2,
      main file w = (Ok tt, w2) ∧
      trace w2 = trace w ++
        [Makedirs "output"; WriteFile fn (document trk);
         Stdout ("GPX file saved to " +:+ fn)] ++ upload_session u p fn ∧
      fs w2 !! fn = Some (File (document trk)).
Proof.
  intros PF file w trk w1 u p Hfile Htrk Hout Hfn Hc Hlogin Hupload fn.
  split; [apply accepted_output_path|].
  pose proof (generate_run_gpx_Ok default_args w trk w1 Htrk Hout Hfn) as Hrun.
  rewrite <- (resolve_path_generate file w Hfile) in Hrun.
  pose proof (main_after_resolve _ _ _ _ Hrun) as Hmain.
  rewrite upload_to_garmin_run in Hmain.
  unfold upload_status, after_upload, upload_events in Hmain.
  change (credentials (World _ _ _ _ (environ w) (dotenv w) _ _ _))
    with (credentials w) in Hmain.
  cbn [garmin_login garmin_upload] in Hmain.
  rewrite Hc, Hlogin, (accepted_output_path (now w)), Hupload in Hmain.
  simpl in Hmain.
  eexists. split; [exact Hmain|]. cbn [trace fs]. split.
  - rewrite <- app_assoc. reflexivity.
  - apply lookup_insert_eq.
Qed.

(** No [--file], in the world with credentials and a service that accepts
    everything. *)
Lemma generated_file_is_uploaded_witness :
  ∃ w2 doc,
    main (PF := b64) None (upload_world None None) = (Ok tt, w2) ∧
    trace w2 =
      [Makedirs "output"; WriteFile "output/run_20240517_093015.gpx" doc;
       Stdout "GPX file saved to output/run_20240517_093015.gpx"] ++
      upload_session "runner@example.com" "secret" "output/run_20240517_093015.gpx".
Proof.
  assert (Hok : is_ok (generate_track (PF := b64) default_args
                         (upload_world None None)).1 = true)
    by (vm_compute; reflexivity).
  destruct (generate_track (PF := b64) default_args (upload_world None None))
    as [[trk|e] w1] eqn:E; [|discriminate Hok].
  destruct (generated_file_is_uploaded b64 None (upload_world None None) trk w1
              "runner@example.com" "secret") as (_ & w2 & Hmain & Htr & _).
  - left. reflexivity.
  - exact E.
  - intros c H. vm_compute in H. discriminate H.
  - intros H. vm_compute in H. discriminate H.
  - vm_compute. reflexivity.
  - reflexivity.
  - reflexivity.
  - exists w2, (document trk). split; [exact Hmain|exact Htr].
Defined.

(** The upload step: its status is 0 or 1, 0 exactly when its last line is
    that the upload is complete; it logs in at most once and uploads at
    most once, the given path and after the login. *)
Lemma upload_events_shape (path : string) (w : world) :
  (upload_status path w = 0 ∨ upload_status path w = 1) ∧
  (upload_status path w = 0 ↔ last (upload_events path w) = Some upload_complete) ∧
  upload_events path w ≠ [] ∧
  (network_calls (upload_events path w) = [] ∨
   (∃ u p, network_calls (upload_events path w) = [NetLogin u p]) ∨
   (∃ u p, network_calls (upload_events path w) = [NetLogin u p; NetUpload path])).
Proof.
  unfold upload_status, upload_events, upload_complete, network_calls.
  destruct (credentials w) as [[u p]|].
  2:{ split; [auto|]. split; [split; [lia|discriminate]|]. split; [discriminate|auto]. }
  destruct (garmin_login w u p) as [msg|].
  { split; [auto|]. split; [split; [lia|discriminate]|]. split; [discriminate|].
    right. left. eauto. }
  destruct (accepted_extension path).
  2:{ split; [auto|]. split; [split; [lia|discriminate]|]. split; [discriminate|].
      right. left. eauto. }
  destruct (garmin_upload w path) as [msg|].
  - split; [auto|]. split; [split; [lia|discriminate]|]. split; [discriminate|].
    right. right. eauto.
  - split; [auto|]. split; [split; reflexivity|]. split; [discriminate|].
    right. right. eauto.
Qed.

Lemma saved_line_not_complete (fn : string) :
  Stdout ("GPX file saved to " +:+ fn) ≠ upload_complete.
Proof.
  change ("GPX file saved to " +:+ fn) with (String "G" ("PX file saved to " +:+ fn)).
  discriminate.
Qed.

(** Path resolution, whatever its outcome: it makes no network call; a
    path it returns is a regular file, the one given or the one generated;
    when it raises, the process ends with status 1. *)
Lemma resolve_path_outcome `{PF : PyFloat} (file : option string) (w : world) :
  ∃ evs,
    trace (resolve_path file w).2 = trace w ++ evs ∧
    network_calls evs = [] ∧
    last evs ≠ Some upload_complete ∧
    match (resolve_path file w).1 with
    | Ok path =>
        (∃ c, fs (resolve_path file w).2 !! path = Some (File c)) ∧
        (file = Some path ∨ path = output_path (now w))
    | Raise e => exit_status (Raise e : outcome unit) = 1
    end.
Proof.
  destruct file as [[|c s]|].
  2:{ rewrite (resolve_path_file (String c s) w) by discriminate.
      destruct (fs w !! String c s) as [[|content]|] eqn:E.
      - eexists. split; [reflexivity|]. repeat split; discriminate.
      - exists []. rewrite app_nil_r. split; [reflexivity|].
        split; [reflexivity|]. split; [discriminate|]. split; [eauto|auto].
      - eexists. split; [reflexivity|]. repeat split; discriminate. }
  all: rewrite resolve_path_generate by auto.
  all: destruct (generate_run_gpx default_args w) as [[fn|e] w1] eqn:Hrun; cbn [fst snd].
  all: try (apply generate_run_gpx_file in Hrun as (trk & -> & Htr & Hfs);
            eexists; split; [exact Htr|]; split; [reflexivity|];
            split; [cbn [last]; intros [= H];
                    exact (saved_line_not_complete _ (f_equal Stdout H))|];
            split; [eauto|right; reflexivity]).
  all: destruct (generate_run_gpx_Raise _ default_args w e w1 Hrun)
         as [(Harith & Htr & _)|[(-> & _ & Htr & _)|(-> & _ & Htr & _)]].
  all: try (eexists; split; [exact Htr|]; repeat split; discriminate).
  all: exists []; rewrite app_nil_r; split; [exact Htr|]; split; [reflexivity|];
       split; [discriminate|]; destruct Harith as [-> | [-> | ->]]; reflexivity.
Qed.


(** What a run adds to the trace: the events of path resolution, then,
    when a path was resolved, those of the upload step. *)
Lemma main_outcome `{PF : PyFloat} (file : option string) (w : world) :
  match (resolve_path file w).1 with
  | Ok path =>
      main file w = upload_to_garmin path (resolve_path file w).2
  | Raise e => main file w = (Raise e, (resolve_path file w).2)
  end.
Proof.
  unfold main, mbind, M_bind.
  destruct (resolve_path file w) as [[path|e] w1]; reflexivity.
Qed.


(** X10: the network calls of a run, whatever its arguments and the world: none;
    or one login; or one login followed by one upload, and then of a path
    that is a regular file, the one given with [--file] or the one the
    generator wrote. *)
Theorem network_calls_of_a_run :
  ∀ (PF : PyFloat) (file : option string) (w : world),
    network_calls (new_events w (main file w).2) = [] ∨
    (∃ u p, network_calls (new_events w (main file w).2) = [NetLogin u p]) ∨
    (∃ u p path,
       network_calls (new_events w (main file w).2) = [NetLogin u p; NetUpload path] ∧
       (file = Some path ∨ path = output_path (now w)) ∧
       ∃ c, fs (main file w).2 !! path = Some (File c)).
Proof.
  intros PF file w.
  destruct (resolve_path_outcome file w) as (evs & Htr & Hnet & _ & Hres).
  pose proof (main_outcome file w) as Hmain.
  destruct (resolve_path file w) as [[path|e] w1]; cbn [fst snd] in *.
  - rewrite upload_to_garmin_run in Hmain. rewrite Hmain. cbn [fst snd].
    destruct (upload_events_shape path w1) as (_ & _ & _ & Hcalls).
    rewrite (new_events_app w (after_upload path w1) (evs ++ upload_events path w1))
      by (cbn [after_upload trace]; rewrite Htr, app_assoc; reflexivity).
    unfold network_calls in *. rewrite List.filter_app, Hnet. cbn [app].
    destruct Hcalls as [H|[(u & p & H)|(u & p & H)]]; rewrite H; eauto 10.
    right. right. exists u, p, path. destruct Hres as [Hfile Hwhich]. auto.
  - rewrite Hmain. cbn [fst snd]. rewrite (new_events_app w w1 evs Htr). auto.
Qed.

Lemma lower_dot (e : string) : lower (String "." e) = String "." (lower e).
Proof. reflexivity. Qed.

(** X11: a path passes the extension check only if it ends, after a root that
    is not empty, with a period and [fit] or [gpx] in some letter case. *)
Theorem accepted_paths_end_in_fit_or_gpx :
  ∀ path : string,
    accepted_extension path = true →
    ∃ root e,
      path = root +:+ "." +:+ e ∧ root ≠ "" ∧ (lower e = "fit" ∨ lower e = "gpx").
Proof.
  intros path H. unfold accepted_extension in H.
  destruct (splitext_spec path) as [Hjoin [Hext|(e & Hext & _ & _ & Hroot)]].
  - rewrite Hext in H. discriminate H.
  - exists (splitext path).1, e. rewrite Hext in Hjoin, H. split; [symmetry; exact Hjoin|].
    split; [exact Hroot|]. rewrite lower_dot in H.
    apply orb_true_iff in H as [H|H]; apply String.eqb_eq in H; injection H; auto.
Qed.

(** [morning.Fit] *)
Lemma accepted_paths_end_in_fit_or_gpx_witness :
  ∃ root e, "morning.Fit" = root +:+ "." +:+ e ∧ root ≠ "" ∧
            (lower e = "fit" ∨ lower e = "gpx").
Proof. apply (accepted_paths_end_in_fit_or_gpx "morning.Fit"). reflexivity. Defined.

Lemma has_non_dot_all_dots (s : string) :
  has_non_dot (String.length s) s = negb (all_dots s).
Proof.
  induction s as [|c s IH]; [reflexivity|]. simpl. rewrite IH.
  destruct (Ascii.eqb c "."); reflexivity.
Qed.

(** X12: what the extension check sees of a file name: for a path made of a
    directory part (empty, or ending with a slash), a stem without slash
    and an extension without period or slash, the check passes exactly
    when the extension is [fit] or [gpx] in some letter case and the stem
    is not made of periods only (so a file named [.gpx] is refused). *)
Theorem extension_check_of_a_file_name :
  ∀ dir stem e : string,
    (dir = "" ∨ ∃ d, dir = d +:+ "/") →
    no_char "/" stem = true →
    no_char "." e = true → no_char "/" e = true →
    accepted_extension (dir +:+ stem +:+ "." +:+ e)
    = negb (all_dots stem) && (String.eqb (lower e) "fit" || String.eqb (lower e) "gpx").
Proof.
  intros dir stem e Hdir Hstem He1 He2.
  destruct (all_dots stem) eqn:Hdots; cbn [negb andb].
  - (* the stem is made of periods: no extension is split off *)
    unfold accepted_extension.
    destruct (splitext_spec (dir +:+ stem +:+ "." +:+ e))
      as [Hjoin [Hext|(x & Hext & Hx1 & Hx2 & Hroot)]].
    + rewrite Hext. reflexivity.
    + exfalso. revert Hext. unfold splitext.
      destruct (_ && _) eqn:Hcond; [|discriminate]. intros _.
      apply andb_true_iff in Hcond as [_ Hnd].
      assert (Hsep : rfind "/" (dir +:+ stem +:+ "." +:+ e)
                     = Z.of_nat (String.length dir) - 1).
      { unfold rfind. rewrite rfind_from_app.
        rewrite (rfind_from_absent "/" (stem +:+ "." +:+ e)).
        2:{ rewrite !no_char_app, Hstem, He2. reflexivity. }
        destruct Hdir as [->|[d ->]]; [reflexivity|].
        rewrite rfind_from_app. simpl. rewrite length_app_string. simpl. lia. }
      assert (Hdot : rfind "." (dir +:+ stem +:+ "." +:+ e)
                     = Z.of_nat (String.length (dir +:+ stem))).
      { unfold rfind. rewrite <- app_string_assoc, rfind_from_app.
        change ("." +:+ e) with (String "." e). cbn [rfind_from]. simpl (Ascii.eqb _ _).
        cbv iota. rewrite rfind_from_absent by exact He1. lia. }
      rewrite Hsep, Hdot in Hnd.
      replace (Z.of_nat (String.length dir) - 1 + 1)
        with (Z.of_nat (String.length dir)) in Hnd by lia.
      rewrite Nat2Z.id, length_app_string in Hnd.
      replace (Z.to_nat (Z.of_nat (String.length dir + String.length stem)
                         - Z.of_nat (String.length dir)))
        with (String.length stem) in Hnd by lia.
      rewrite string_drop_app, has_non_dot_app, has_non_dot_all_dots, Hdots in Hnd.
      discriminate Hnd.
  - unfold accepted_extension.
    rewrite (splitext_of_name dir stem e Hdir Hstem); try assumption.
    + cbn [snd]. change ("." +:+ e) with (String "." e). rewrite lower_dot.
      reflexivity.
    + rewrite has_non_dot_all_dots, Hdots. reflexivity.
Qed.

(** [runs/2024.05.17.GPX] *)
Lemma extension_check_of_a_file_name_witness :
  accepted_extension ("runs/" +:+ "2024.05.17" +:+ "." +:+ "GPX") = true.
Proof.
  apply (extension_check_of_a_file_name "runs/" "2024.05.17" "GPX");
    try reflexivity.
  right. exists "runs". reflexivity.
Defined.

(** ** [load_dotenv] *)

Lemma merge_dotenv_present (d : list (string * string)) : ∀ env k v,
  env !! k = Some v → merge_dotenv d env !! k = Some v.
Proof.
  induction d as [|[k' v'] d IH]; intros env k v H; [exact H|].
  unfold merge_dotenv in *. cbn [fold_left fst snd].
  apply IH. destruct (env !! k') eqn:E; [exact H|].
  rewrite lookup_insert_ne; [exact H|]. intros ->. congruence.
Qed.

Lemma merge_dotenv_absent (d : list (string * string)) : ∀ env k v,
  env !! k = None → NoDup d.*1 → (k, v) ∈ d → merge_dotenv d env !! k = Some v.
Proof.
  induction d as [|[k' v'] d IH]; intros env k v H Hnd Hin.
  - apply elem_of_nil in Hin. contradiction.
  - cbn [fmap list_fmap fst] in Hnd. apply NoDup_cons in Hnd as [Hk' Hnd].
    unfold merge_dotenv in *. cbn [fold_left fst snd].
    apply elem_of_cons in Hin as [[= <- <-]|Hin].
    + rewrite H. apply (merge_dotenv_present d). apply lookup_insert_eq.
    + assert (k ≠ k').
      { intros ->. apply Hk'. apply list_elem_of_fmap. exists (k', v). auto. }
      apply IH; [|exact Hnd|exact Hin].
      destruct (env !! k'); [exact H|]. rewrite lookup_insert_ne by auto. exact H.
Qed.

Lemma upload_to_garmin_events (path : string) (w : world) :
  new_events w (upload_to_garmin path w).2 = upload_events path w.
Proof. rewrite upload_to_garmin_run. apply new_events_app. reflexivity. Qed.

(** X13: [load_dotenv()] does not override: a credential that is in the
    process environment is the one used, whatever the .env file holds;
    and one that is there but empty counts as missing, the .env file
    notwithstanding. *)
Theorem environment_wins_over_dotenv :
  ∀ (path : string) (w : world) (u p : string),
    environ w !! "GARMIN_USERNAME" = Some u →
    environ w !! "GARMIN_PASSWORD" = Some p →
    (u ≠ "" → p ≠ "" →
     ∃ rest, new_events w (upload_to_garmin path w).2 = NetLogin u p :: rest) ∧
    (u = "" ∨ p = "" →
     (upload_to_garmin path w).1 = Raise (SystemExit 1) ∧
     new_events w (upload_to_garmin path w).2 = [credentials_error]).
Proof.
  intros path w u p Hu Hp.
  pose proof (merge_dotenv_present (dotenv w) _ _ _ Hu) as Hu'.
  pose proof (merge_dotenv_present (dotenv w) _ _ _ Hp) as Hp'.
  rewrite upload_to_garmin_events, upload_to_garmin_run. cbn [fst].
  unfold upload_events, upload_status, credentials. rewrite Hu', Hp'. split.
  - intros Hune Hpne. destruct u; [contradiction|]. destruct p; [contradiction|].
    eauto.
  - intros [-> | ->]; [|destruct u]; split; reflexivity.
Qed.

(** The environment holds one pair of credentials, the .env file another. *)
Lemma environment_wins_over_dotenv_witness :
  ∃ rest, new_events both_world (upload_to_garmin "run.gpx" both_world).2
          = NetLogin "runner@example.com" "secret" :: rest.
Proof.
  destruct (environment_wins_over_dotenv "run.gpx" both_world
              "runner@example.com" "secret") as [H _].
  - vm_compute. reflexivity.
  - vm_compute. reflexivity.
  - apply H; discriminate.
Defined.

(** X14: credentials that the process environment lacks are taken from the
    .env file (whose keys are distinct): the login is attempted with them,
    and the process environment holds them afterwards. *)
Theorem dotenv_supplies_missing_credentials :
  ∀ (path : string) (w : world) (u p : string),
    environ w !! "GARMIN_USERNAME" = None →
    environ w !! "GARMIN_PASSWORD" = None →
    NoDup (dotenv w).*1 →
    ("GARMIN_USERNAME", u) ∈ dotenv w →
    ("GARMIN_PASSWORD", p) ∈ dotenv w →
    u ≠ "" → p ≠ "" →
    (∃ rest, new_events w (upload_to_garmin path w).2 = NetLogin u p :: rest) ∧
    environ (upload_to_garmin path w).2 !! "GARMIN_USERNAME" = Some u ∧
    environ (upload_to_garmin path w).2 !! "GARMIN_PASSWORD" = Some p.
Proof.
  intros path w u p Hu Hp Hnd Hinu Hinp Hune Hpne.
  pose proof (merge_dotenv_absent (dotenv w) _ _ _ Hu Hnd Hinu) as Hu'.
  pose proof (merge_dotenv_absent (dotenv w) _ _ _ Hp Hnd Hinp) as Hp'.
  rewrite upload_to_garmin_events, upload_to_garmin_run. cbn [snd after_upload environ].
  split; [|auto].
  unfold upload_events, credentials. rewrite Hu', Hp'.
  destruct u; [contradiction|]. destruct p; [contradiction|]. eauto.
Qed.

(** The credentials are in the .env file only. *)
Lemma dotenv_supplies_missing_credentials_witness :
  (∃ rest, new_events dotenv_world (upload_to_garmin "run.gpx" dotenv_world).2
           = NetLogin "runner@example.com" "secret" :: rest) ∧
  environ (upload_to_garmin "run.gpx" dotenv_world).2 !! "GARMIN_USERNAME"
  = Some "runner@example.com" ∧
  environ (upload_to_garmin "run.gpx" dotenv_world).2 !! "GARMIN_PASSWORD"
  = Some "secret".
Proof.
  apply (dotenv_supplies_missing_credentials "run.gpx" dotenv_world
           "runner@example.com" "secret").
  - reflexivity.
  - reflexivity.
  - cbn. apply NoDup_cons. split; [|apply NoDup_singleton].
    intros H. apply list_elem_of_singleton in H. discriminate H.
  - cbn. apply list_elem_of_here.
  - cbn. apply list_elem_of_further, list_elem_of_here.
  - discriminate.
  - discriminate.
Defined.








Lemma pretty_N_char_digit (x : N) : is_digit (pretty_N_char x) = true.
Proof. unfold pretty_N_char. repeat case_match; reflexivity. Qed.

Lemma pretty_N_go_digits (x : N) : ∀ s,
  all_digits s = true → all_digits (pretty_N_go x s) = true.
Proof.
  induction (N.lt_wf_0 x) as [x _ IH]. intros s Hs.
  destruct (decide (x = 0)%N) as [->|Hx]; [rewrite pretty_N_go_0; exact Hs|].
  rewrite pretty_N_go_step by lia. apply IH.
  - apply N.div_lt; lia.
  - simpl. rewrite pretty_N_char_digit, Hs. reflexivity.
Qed.

Lemma str_int_digits (n : Z) : 0 ≤ n → all_digits (str_int n) = true.
Proof.
  intros Hn. unfold str_int, pretty, pretty_Z.
  destruct n as [|p|p]; [reflexivity| |lia].
  unfold pretty, pretty_positive, pretty, pretty_N.
  destruct (decide (N.pos p = 0)%N); [reflexivity|].
  apply pretty_N_go_digits. reflexivity.
Qed.

Lemma format_f_decimal `{PF : PyFloat} (p : nat) (x : num) :
  is_nan x = false → is_inf x = false → decimal (S p) (format_f (S p) x).
Proof.
  intros Hnan Hinf. unfold format_f. rewrite Hnan, Hinf.
  eexists (if sign_bit x then "-" else ""), _, _. split; [reflexivity|].
  split; [destruct (sign_bit x); auto|].
  split; [apply str_int_nonempty|].
  split; [|split; [apply fixed_digits_length|apply fixed_digits_all_digits]].
  apply str_int_digits. apply Z.div_pos; lia.
Qed.

(** X16: the numbers of a track point that are finite are written as decimal
    numerals with a fixed number of digits after the point: 15 for the
    latitude and the longitude, 6 for the elevation. *)
Theorem coordinates_have_fixed_precision :
  ∀ (PF : PyFloat) (pt : track_point num),
    (is_nan (pt_lat pt) = false → is_inf (pt_lat pt) = false →
     decimal 15 (format_f 15 (pt_lat pt))) ∧
    (is_nan (pt_lon pt) = false → is_inf (pt_lon pt) = false →
     decimal 15 (format_f 15 (pt_lon pt))) ∧
    (is_nan (pt_ele pt) = false → is_inf (pt_ele pt) = false →
     decimal 6 (format_f 6 (pt_ele pt))).
Proof. intros PF pt. repeat split; apply format_f_decimal. Qed.

(** The first point of the sample run. *)
Lemma coordinates_have_fixed_precision_witness :
  decimal 15 (format_f (PF := b64) 15 (pt_lat sample_point)) ∧
  decimal 15 (format_f (PF := b64) 15 (pt_lon sample_point)) ∧
  decimal 6 (format_f (PF := b64) 6 (pt_ele sample_point)).
Proof.
  destruct (coordinates_have_fixed_precision b64 sample_point) as (Hlat & Hlon & Hele).
  split; [apply Hlat; reflexivity|]. split; [apply Hlon|apply Hele]; reflexivity.
Defined.

Lemma all_from_spec (k : nat) (f : Z → bool) : ∀ r0,
  all_from k r0 f = true → ∀ r, r0 ≤ r < r0 + Z.of_nat k → f r = true.
Proof.
  induction k as [|k IH]; intros r0 H r Hr; [lia|].
  simpl in H. destruct (f r0) eqn:E; [|discriminate].
  destruct (decide (r = r0)) as [->|Hne]; [exact E|].
  apply (IH (r0 + 1) H). lia.
Qed.

Lemma month_day_checked (leapyear : bool) :
  all_from 365 0 (month_day_ok leapyear) = true.
Proof. destruct leapyear; vm_compute; reflexivity. Qed.

Lemma month_day_spec (leapyear : bool) (n : Z) :
  0 ≤ n < 365 →
  ∃ m d, month_day leapyear n = (m, d) ∧ 1 ≤ m ≤ 12 ∧ 1 ≤ d ≤ 31 ∧
         table DAYS_BEFORE_MONTH m + (if (2 <? m) && leapyear then 1 else 0) + d = n + 1.
Proof.
  intros Hn.
  pose proof (all_from_spec 365 _ 0 (month_day_checked leapyear) n ltac:(lia)) as H.
  unfold month_day_ok in H. destruct (month_day leapyear n) as [m d].
  exists m, d. split; [reflexivity|].
  repeat (apply andb_prop in H as [H ?]). lia.
Qed.

(** [_ord2ymd] in terms of the year's number in its cycles and of
    [month_day]. *)
Lemma ord2ymd_split (n : Z) :
  let n0 := n - 1 in
  let n400 := n0 / 146097 in
  let r400 := n0 mod 146097 in
  let n100 := r400 / 36524 in
  let r100 := r400 mod 36524 in
  let n4 := r100 / 1461 in
  let r4 := r100 mod 1461 in
  let n1 := r4 / 365 in
  let r := r4 mod 365 in
  let year := n400 * 400 + 1 + (n100 * 100 + n4 * 4 + n1) in
  ord2ymd n =
    if (n1 =? 4) || (n100 =? 4) then (year - 1, 12, 31)
    else
      let leapyear := (n1 =? 3) && (negb (n4 =? 24) || (n100 =? 3)) in
      (year, (month_day leapyear r).1, (month_day leapyear r).2).
Proof.
  cbv zeta. unfold ord2ymd, month_day, DI400Y, DI100Y, DI4Y. cbv zeta.
  destruct ((_ =? 4) || (_ =? 4)); [reflexivity|].
  match goal with |- context [if ?c then _ else _] =>
    lazymatch c with (_ <? _) => destruct c end end; reflexivity.
Qed.

Lemma days_before_year_cycles (q n100 n4 n1 : Z) :
  0 ≤ n100 ≤ 3 → 0 ≤ n4 ≤ 24 → 0 ≤ n1 ≤ 3 →
  days_before_year (q * 400 + 1 + (n100 * 100 + n4 * 4 + n1))
  = 146097 * q + 36524 * n100 + 1461 * n4 + 365 * n1.
Proof.
  intros H100 H4 H1. unfold days_before_year. cbv zeta.
  Z.div_mod_to_equations. lia.
Qed.

Lemma is_leap_cycles (q n100 n4 n1 : Z) :
  0 ≤ n100 ≤ 3 → 0 ≤ n4 ≤ 24 → 0 ≤ n1 ≤ 3 →
  is_leap (q * 400 + 1 + (n100 * 100 + n4 * 4 + n1))
  = (n1 =? 3) && (negb (n4 =? 24) || (n100 =? 3)).
Proof.
  intros H100 H4 H1. unfold is_leap.
  repeat match goal with |- context [?a =? ?b] => destruct (Z.eqb_spec a b) end;
    cbn; try reflexivity; exfalso; Z.div_mod_to_equations; lia.
Qed.

Lemma days_before_year_bound (y : Z) :
  days_before_year y < 3652059 → y ≤ 9999.
Proof. unfold days_before_year. cbv zeta. intros H. Z.div_mod_to_equations. lia. Qed.

(** [_ymd2ord] undoes [_ord2ymd]; month and day are in range. *)
Lemma ord2ymd_inverse (n : Z) :
  1 ≤ n →
  ∃ y m d, ord2ymd n = (y, m, d) ∧ ymd2ord y m d = n ∧
           1 ≤ y ∧ days_before_year y < n ∧ 1 ≤ m ≤ 12 ∧ 1 ≤ d ≤ 31.
Proof.
  intros Hn. rewrite ord2ymd_split. cbv zeta.
  set (n400 := (n - 1) / 146097).
  set (r400 := (n - 1) mod 146097).
  set (n100 := r400 / 36524).
  set (r100 := r400 mod 36524).
  set (n4 := r100 / 1461).
  set (r4 := r100 mod 1461).
  set (n1 := r4 / 365).
  set (r := r4 mod 365).
  assert (E400 : n - 1 = 146097 * n400 + r400 ∧ 0 ≤ r400 < 146097 ∧ 0 ≤ n400)
    by (unfold n400, r400; Z.div_mod_to_equations; lia).
  assert (E100 : r400 = 36524 * n100 + r100 ∧ 0 ≤ r100 < 36524 ∧ 0 ≤ n100 ≤ 4)
    by (unfold n100, r100; Z.div_mod_to_equations; lia).
  assert (E4 : r100 = 1461 * n4 + r4 ∧ 0 ≤ r4 < 1461 ∧ 0 ≤ n4 ≤ 24)
    by (unfold n4, r4; Z.div_mod_to_equations; lia).
  assert (E1 : r4 = 365 * n1 + r ∧ 0 ≤ r < 365 ∧ 0 ≤ n1 ≤ 4)
    by (unfold n1, r; Z.div_mod_to_equations; lia).
  clearbody n400 r400 n100 r100 n4 r4 n1 r.
  destruct (Z.eqb_spec n1 4) as [H1|H1]; [|destruct (Z.eqb_spec n100 4) as [H100|H100]];
    cbn [orb].
  - (* the last day of a leap year that is not the last of its century *)
    assert (H4 : n4 ≤ 23) by lia. assert (H100 : n100 ≤ 3) by lia.
    eexists _, _, _. split; [reflexivity|].
    replace (n400 * 400 + 1 + (n100 * 100 + n4 * 4 + n1) - 1)
      with (n400 * 400 + 1 + (n100 * 100 + (n4 + 1) * 4 - 1)) by lia.
    unfold ymd2ord, days_before_month, days_before_year, is_leap. cbv zeta.
    change (table DAYS_BEFORE_MONTH 12) with 334. change (2 <? 12) with true.
    cbn [andb].
    assert (Hleap : ((n400 * 400 + 1 + (n100 * 100 + (n4 + 1) * 4 - 1)) mod 4 =? 0) &&
                    (negb ((n400 * 400 + 1 + (n100 * 100 + (n4 + 1) * 4 - 1)) mod 100 =? 0)
                     || ((n400 * 400 + 1 + (n100 * 100 + (n4 + 1) * 4 - 1)) mod 400 =? 0))
                    = true).
    { repeat match goal with |- context [?a =? ?b] => destruct (Z.eqb_spec a b) end;
        cbn; try reflexivity; exfalso; Z.div_mod_to_equations; lia. }
    rewrite Hleap.
    repeat split; try lia; Z.div_mod_to_equations; lia.
  - (* the last day of a 400-year cycle *)
    eexists _, _, _. split; [reflexivity|].
    assert (n4 = 0 ∧ n1 = 0 ∧ r = 0 ∧ r100 = 0) as (-> & -> & -> & ->) by lia.
    subst n100.
    replace (n400 * 400 + 1 + (4 * 100 + 0 * 4 + 0) - 1) with ((n400 + 1) * 400) by lia.
    unfold ymd2ord, days_before_month, days_before_year, is_leap. cbv zeta.
    change (table DAYS_BEFORE_MONTH 12) with 334. change (2 <? 12) with true.
    cbn [andb].
    assert (Hleap : (((n400 + 1) * 400) mod 4 =? 0) &&
                    (negb (((n400 + 1) * 400) mod 100 =? 0)
                     || (((n400 + 1) * 400) mod 400 =? 0)) = true).
    { repeat match goal with |- context [?a =? ?b] => destruct (Z.eqb_spec a b) end;
        cbn; try reflexivity; exfalso; Z.div_mod_to_equations; lia. }
    rewrite Hleap.
    repeat split; try lia; Z.div_mod_to_equations; lia.
  - cbv zeta.
    assert (B100 : 0 ≤ n100 ≤ 3) by lia. assert (B1 : 0 ≤ n1 ≤ 3) by lia.
    assert (B4 : 0 ≤ n4 ≤ 24) by lia.
    set (leapyear := (n1 =? 3) && (negb (n4 =? 24) || (n100 =? 3))).
    destruct (month_day_spec leapyear r ltac:(lia)) as (m & d & Hmd & Hm & Hd & Hback).
    rewrite Hmd. cbn [fst snd].
    eexists _, _, _. split; [reflexivity|].
    unfold ymd2ord, days_before_month.
    rewrite (is_leap_cycles n400 n100 n4 n1 B100 B4 B1).
    rewrite (days_before_year_cycles n400 n100 n4 n1 B100 B4 B1).
    fold leapyear. repeat split; lia.
Qed.

(** ** Texts of different seconds differ *)

Lemma app_string_inj (s s' t t' : string) :
  String.length s = String.length s' → s +:+ t = s' +:+ t' → s = s' ∧ t = t'.
Proof.
  revert s'. induction s as [|c s IH]; intros [|c' s'] Hl H; try discriminate Hl.
  - split; [reflexivity|exact H].
  - simpl in Hl, H. injection Hl as Hl. injection H as -> H.
    destruct (IH s' Hl H) as [-> ->]. split; reflexivity.
Qed.

Lemma digit_inj (a b : Z) : 0 ≤ a < 10 → 0 ≤ b < 10 → digit a = digit b → a = b.
Proof.
  intros Ha Hb H. unfold digit in H. injection H as H.
  apply (f_equal nat_of_ascii) in H.
  rewrite !nat_ascii_embedding in H by lia. lia.
Qed.

Lemma fixed_digits_inj (p : nat) : ∀ n m,
  0 ≤ n < 10 ^ Z.of_nat p → 0 ≤ m < 10 ^ Z.of_nat p →
  fixed_digits p n = fixed_digits p m → n = m.
Proof.
  induction p as [|p IH]; intros n m Hn Hm H.
  - change (10 ^ Z.of_nat 0) with 1 in *. lia.
  - rewrite Nat2Z.inj_succ, Z.pow_succ_r in Hn, Hm by lia.
    simpl in H.
    apply app_string_inj in H as [Hhi Hlo];
      [|rewrite !fixed_digits_length; reflexivity].
    apply digit_inj in Hlo; [|apply Z.mod_pos_bound; lia ..].
    apply IH in Hhi; [|Z.div_mod_to_equations; lia ..].
    Z.div_mod_to_equations. lia.
Qed.

Lemma dt_max_value : dt_max = 315537897599999999.
Proof. vm_compute. reflexivity. Qed.

(** The calendar fields of an instant of the years 1 to 9999 have as many
    digits as their directives print. *)
Lemma dt_field_ranges (t : Z) :
  0 ≤ t ≤ dt_max →
  0 ≤ dt_year t < 10 ^ Z.of_nat 4 ∧ 0 ≤ dt_month t < 10 ^ Z.of_nat 2 ∧
  0 ≤ dt_day t < 10 ^ Z.of_nat 2 ∧ 0 ≤ dt_hour t < 10 ^ Z.of_nat 2 ∧
  0 ≤ dt_minute t < 10 ^ Z.of_nat 2 ∧ 0 ≤ dt_second t < 10 ^ Z.of_nat 2.
Proof.
  rewrite dt_max_value. intros Ht.
  change (10 ^ Z.of_nat 4) with 10000. change (10 ^ Z.of_nat 2) with 100.
  assert (Hn : 1 ≤ t / us_per_day + 1 ≤ 3652059)
    by (unfold us_per_day; Z.div_mod_to_equations; lia).
  destruct (ord2ymd_inverse (t / us_per_day + 1) ltac:(lia))
    as (y & m & d & Hymd & _ & Hy & Hbefore & Hm & Hd).
  pose proof (days_before_year_bound y ltac:(lia)) as Hy'.
  unfold dt_year, dt_month, dt_day, dt_hour, dt_minute, dt_second.
  rewrite Hymd. cbn [fst snd]. unfold us_per_day.
  repeat split; try lia; Z.div_mod_to_equations; lia.
Qed.

(** The calendar fields determine the second. *)
Lemma dt_fields_determine_second (t t' : Z) :
  0 ≤ t → 0 ≤ t' →
  dt_year t = dt_year t' → dt_month t = dt_month t' → dt_day t = dt_day t' →
  dt_hour t = dt_hour t' → dt_minute t = dt_minute t' → dt_second t = dt_second t' →
  t / 1000000 = t' / 1000000.
Proof.
  intros Ht Ht'. unfold dt_year, dt_month, dt_day.
  assert (Hn : 1 ≤ t / us_per_day + 1)
    by (unfold us_per_day; Z.div_mod_to_equations; lia).
  assert (Hn' : 1 ≤ t' / us_per_day + 1)
    by (unfold us_per_day; Z.div_mod_to_equations; lia).
  destruct (ord2ymd_inverse _ Hn) as (y & m & d & -> & Hback & _).
  destruct (ord2ymd_inverse _ Hn') as (y' & m' & d' & -> & Hback' & _).
  cbn [fst snd]. intros -> -> ->. rewrite Hback' in Hback. clear Hback' Hn Hn'.
  unfold dt_hour, dt_minute, dt_second, us_per_day in *.
  intros HH HM HS. Z.div_mod_to_equations. lia.
Qed.

Lemma output_path_fields_inj (t t' : Z) :
  0 ≤ t ≤ dt_max → 0 ≤ t' ≤ dt_max →
  output_path t = output_path t' → t / 1000000 = t' / 1000000.
Proof.
  intros Ht Ht' H.
  destruct (dt_field_ranges t Ht) as (Ry & Rm & Rd & RH & RM & RS).
  destruct (dt_field_ranges t' Ht') as (Ry' & Rm' & Rd' & RH' & RM' & RS').
  rewrite !output_path_fields in H.
  apply (app_string_inj "output/run_" "output/run_") in H as [_ H]; [|reflexivity].
  apply app_string_inj in H as [Hy H]; [|rewrite !fixed_digits_length; reflexivity].
  apply app_string_inj in H as [Hm H]; [|rewrite !fixed_digits_length; reflexivity].
  apply app_string_inj in H as [Hd H]; [|rewrite !fixed_digits_length; reflexivity].
  apply (app_string_inj "_" "_") in H as [_ H]; [|reflexivity].
  apply app_string_inj in H as [HH H]; [|rewrite !fixed_digits_length; reflexivity].
  apply app_string_inj in H as [HM H]; [|rewrite !fixed_digits_length; reflexivity].
  apply app_string_inj in H as [HS _]; [|rewrite !fixed_digits_length; reflexivity].
  apply fixed_digits_inj in Hy, Hm, Hd, HH, HM, HS; try assumption.
  apply dt_fields_determine_second; (assumption || lia).
Qed.

Lemma time_text_fields_inj (t t' : Z) :
  0 ≤ t ≤ dt_max → 0 ≤ t' ≤ dt_max →
  time_text t = time_text t' → t / 1000000 = t' / 1000000.
Proof.
  intros Ht Ht' H.
  destruct (dt_field_ranges t Ht) as (Ry & Rm & Rd & RH & RM & RS).
  destruct (dt_field_ranges t' Ht') as (Ry' & Rm' & Rd' & RH' & RM' & RS').
  rewrite !time_text_fields in H.
  apply app_string_inj in H as [Hy H]; [|rewrite !fixed_digits_length; reflexivity].
  apply (app_string_inj "-" "-") in H as [_ H]; [|reflexivity].
  apply app_string_inj in H as [Hm H]; [|rewrite !fixed_digits_length; reflexivity].
  apply (app_string_inj "-" "-") in H as [_ H]; [|reflexivity].
  apply app_string_inj in H as [Hd H]; [|rewrite !fixed_digits_length; reflexivity].
  apply (app_string_inj "T" "T") in H as [_ H]; [|reflexivity].
  apply app_string_inj in H as [HH H]; [|rewrite !fixed_digits_length; reflexivity].
  apply (app_string_inj ":" ":") in H as [_ H]; [|reflexivity].
  apply app_string_inj in H as [HM H]; [|rewrite !fixed_digits_length; reflexivity].
  apply (app_string_inj ":" ":") in H as [_ H]; [|reflexivity].
  apply app_string_inj in H as [HS _]; [|rewrite !fixed_digits_length; reflexivity].
  apply fixed_digits_inj in Hy, Hm, Hd, HH, HM, HS; try assumption.
  apply dt_fields_determine_second; (assumption || lia).
Qed.

(** X17: two instants of the years 1 to 9999 that lie in different seconds get
    different file names and different [time] texts: a run never
    overwrites the file of a run started in another second. *)
Theorem file_names_differ_across_seconds :
  ∀ t t' : Z,
    0 ≤ t ≤ dt_max → 0 ≤ t' ≤ dt_max →
    t / 1000000 ≠ t' / 1000000 →
    output_path t ≠ output_path t' ∧ time_text t ≠ time_text t'.
Proof.
  intros t t' Ht Ht' Hne. split; intros H; apply Hne.
  - exact (output_path_fields_inj t t' Ht Ht' H).
  - exact (time_text_fields_inj t t' Ht Ht' H).
Qed.

(** 09:30:15.25 and 09:30:16.25 *)
Lemma file_names_differ_across_seconds_witness :
  output_path sample_now ≠ output_path sample_next_second ∧
  time_text sample_now ≠ time_text sample_next_second.
Proof.
  apply (file_names_differ_across_seconds sample_now sample_next_second).
  - vm_compute. split; discriminate.
  - vm_compute. split; discriminate.
  - vm_compute. discriminate.
Defined.
